(** * RedditBot: the batched extraction and aggregation pipeline

    A shallow embedding of [src/edtech/analysis.py]: the batching loop of
    [run_openai_analysis], the retry policy put on
    [analyze_batch_with_openai], the flattening of an analysis into a row,
    the two per-post writers and the aggregation by [dedupe_key] with the
    aggregated CSV.

    Python values are modelled as follows.
    - [int] is [Z]; [float] is the kernel's binary64 [float].
    - [str] is [string]; the model is ASCII text: [py_lower] and [py_strip]
      act on code points below 128 and leave the others alone.
    - a [list] is a [list]; a [set] of strings is a [gset string]; a [dict]
      whose insertion order matters ([buckets], a row) is an association
      list in insertion order.
    - a dict read with [.get] is a record of [option] fields, [None] for an
      absent key.
    - a call that can raise returns an [outcome]; what a loop printed or
      wrote before an exception is kept next to the outcome. *)

From Stdlib Require Import ZArith List String Ascii Bool Lia Permutation.
From Stdlib Require Import Floats DecimalString Sorted.
From stdpp Require Import gmap strings.

Import ListNotations.
Open Scope string_scope.
Open Scope list_scope.
Open Scope Z_scope.

(** ** Exceptions and the module namespace *)

Inductive exn : Type :=
| NameError (name : string)
| ValueError (msg : string)
| TypeError (msg : string)
| ZeroDivisionError
| OverflowError (msg : string)
| ServiceError (msg : string)
| RetryError (last : exn).

Inductive outcome (A : Type) : Type :=
| Returns (a : A)
| Raises (e : exn).

Arguments Returns {A} a.
Arguments Raises {A} e.

#[global] Instance outcome_ret : MRet outcome := fun A a => Returns a.

#[global] Instance outcome_bind : MBind outcome := fun A B k o =>
  match o with
  | Returns a => k a
  | Raises e => Raises e
  end.

(** The names a module binds at its top level. A global that is read and
    is neither there nor a builtin raises [NameError]. *)
Definition namespace : Type := list string.

Definition resolve (g : namespace) (name : string) : outcome unit :=
  if existsb (String.eqb name) g then Returns tt else Raises (NameError name).

(** The top level of [analysis.py]: two [import] statements (lines 1-2) and
    the module's own assignments and [def]s. *)
Definition analysis_globals : namespace :=
  [ "json"; "retry"; "wait_exponential"; "stop_after_attempt";
    "_oai_client"; "_model_name"; "ANALYSIS_SCHEMA"; "SYSTEM_PROMPT";
    "_to_prompt_items"; "analyze_batch_with_openai"; "_flatten_for_row";
    "_write_per_post_csv"; "_write_per_post_md"; "run_openai_analysis" ].

(** ** Builtins: [range], slices, [str] of an [int] *)

(** [range(start, stop, step)] for a positive step: [i] is produced while
    [i < stop]. The fuel is the distance left, which a step of at least 1
    never exhausts ([range_up_fuel]). *)
Fixpoint range_up (fuel : nat) (i stop step : Z) : list Z :=
  match fuel with
  | O => []
  | S fuel' => if i <? stop then i :: range_up fuel' (i + step) stop step else []
  end.

Fixpoint range_down (fuel : nat) (i stop step : Z) : list Z :=
  match fuel with
  | O => []
  | S fuel' => if stop <? i then i :: range_down fuel' (i + step) stop step else []
  end.

Definition py_range (start stop step : Z) : outcome (list Z) :=
  if step =? 0 then Raises (ValueError "range() arg 3 must not be zero")
  else if 0 <? step then Returns (range_up (Z.to_nat (stop - start)) start stop step)
  else Returns (range_down (Z.to_nat (start - stop)) start stop step).

(** A slice bound: a negative bound counts from the end, and both ends are
    clamped to the sequence. *)
Definition clamp_index (len k : Z) : Z :=
  if k <? 0 then Z.max 0 (k + len) else Z.min k len.

(** [l[lo:hi]] *)
Definition py_slice {A : Type} (l : list A) (lo hi : Z) : list A :=
  let len := Z.of_nat (length l) in
  let lo' := clamp_index len lo in
  let hi' := clamp_index len hi in
  firstn (Z.to_nat (hi' - lo')) (skipn (Z.to_nat lo') l).

(** [str(n)] for an [int] *)
Definition str_of_int (n : Z) : string := NilEmpty.string_of_int (Z.to_int n).

(** ** The command line and the extraction service *)

(** The attributes of [args] that [analysis.py] reads. *)
Record Args : Type := {
  batch_size : Z;
  model : option string;
  table : string;
  md_top : Z
}.

(** ** The retry policy (tenacity) *)

(** [tenacity.wait_exponential(multiplier, min, max)]: the wait after the
    attempt numbered [attempt_number] (from 1). *)
Definition wait_exponential (multiplier min max : Z) (attempt_number : Z) : Z :=
  Z.max (Z.max 0 min) (Z.min (multiplier * 2 ^ (attempt_number - 1)) max).

(** [tenacity.stop_after_attempt(n)] *)
Definition stop_after_attempt (max_attempt_number : nat) (attempt_number : nat) : bool :=
  (max_attempt_number <=? attempt_number)%nat.

(** What one decorated call did: the attempts made, the waits slept between
    them, and how it ended. *)
Record Retried (R : Type) : Type := {
  attempts : list nat;
  waits : list Z;
  ended : outcome R
}.
Arguments attempts {R} _.
Arguments waits {R} _.
Arguments ended {R} _.

(** The loop of [@retry(wait=w, stop=stop_after_attempt(n))]: call; on an
    exception stop with [RetryError] when the stop condition holds, otherwise
    sleep and call again. [more] is the number of attempts the stop
    condition still allows after this one. *)
Fixpoint retry_loop {R : Type} (w : Z -> Z) (more : nat) (attempt : nat)
    (f : nat -> outcome R) : Retried R :=
  match f attempt with
  | Returns r => {| attempts := [attempt]; waits := []; ended := Returns r |}
  | Raises e =>
      match more with
      | O => {| attempts := [attempt]; waits := []; ended := Raises (RetryError e) |}
      | S more' =>
          let rest := retry_loop w more' (S attempt) f in
          {| attempts := attempt :: attempts rest;
             waits := w (Z.of_nat attempt) :: waits rest;
             ended := ended rest |}
      end
  end.

Definition max_attempts : nat := 6.

Section Extraction.

(** A scraped post; the pipeline only slices the list of them and hands
    each slice to the service. *)
Variable RawPost : Type.
(** One element of the service's [results] array. *)
Variable Analysis : Type.

(** The external collaborators of one run. Every call of a run is
    identified by the offset [i] of its batch and the number of the attempt,
    so a function of the two describes any behaviour of the service.
    [make_client] is [_oai_client()], [create_response] is everything from
    [_to_prompt_items] to [data["results"]], [getenv_model] is the
    environment variable [OPENAI_MODEL]. *)
Record Service : Type := {
  make_client : Z -> nat -> outcome unit;
  create_response : Z -> nat -> string -> list RawPost -> outcome (list Analysis);
  getenv_model : option string
}.

(** [_model_name]: [args.model or os.getenv("OPENAI_MODEL", "gpt-4.1-mini")].
    [or] reads [os] only when [args.model] is [None] or empty. *)
Definition _model_name (g : namespace) (svc : Service) (args : Args) : outcome string :=
  match model args with
  | Some (String c m) => Returns (String c m)
  | _ =>
      _ ← resolve g "os";
      Returns (match getenv_model svc with Some m => m | None => "gpt-4.1-mini" end)
  end.

(** The body of [analyze_batch_with_openai], one attempt. *)
Definition analyze_batch_body (g : namespace) (svc : Service) (args : Args)
    (i : Z) (attempt : nat) (batch : list RawPost) : outcome (list Analysis) :=
  _ ← make_client svc i attempt;
  m ← _model_name g svc args;
  create_response svc i attempt m batch.

(** [analyze_batch_with_openai] as decorated on line 96. *)
Definition analyze_batch_with_openai (g : namespace) (svc : Service) (args : Args)
    (i : Z) (batch : list RawPost) : Retried (list Analysis) :=
  retry_loop (wait_exponential 1 1 20) (max_attempts - 1) 1
    (fun attempt => analyze_batch_body g svc args i attempt batch).

(** ** The batching loop of [run_openai_analysis] (lines 177-185) *)

(** What the loop has done so far. *)
Record Progress : Type := {
  analyses : list Analysis;
  stderr : list string;
  slept : list Z;
  calls : list (Z * nat);
  sent : list (list RawPost)
}.

Definition start : Progress :=
  {| analyses := []; stderr := []; slept := []; calls := []; sent := [] |}.

(** [str(e)]. The text of a [RetryError] is schematic: tenacity prints the
    future that holds the last exception. *)
Fixpoint str_of_exn (e : exn) : string :=
  match e with
  | NameError n => "name '" +:+ n +:+ "' is not defined"
  | ValueError m => m
  | TypeError m => m
  | ZeroDivisionError => "division by zero"
  | OverflowError m => m
  | ServiceError m => m
  | RetryError last => "RetryError[" +:+ str_of_exn last +:+ "]"
  end.

(** The f-string of line 185. *)
Definition batch_error_message (i bs : Z) (e : exn) : string :=
  "[error] OpenAI analysis failed for batch " +:+ str_of_int i +:+ "-"
    +:+ str_of_int (i + bs) +:+ ": " +:+ str_of_exn e.

(** [bs = max(1, int(args.batch_size))] *)
Definition effective_batch_size (args : Args) : Z := Z.max 1 (batch_size args).

(** One [batch = all_rows[i:i+bs]] *)
Definition batch_at (all_rows : list RawPost) (bs i : Z) : list RawPost :=
  py_slice all_rows i (i + bs).

(** The iterations of [for i in range(0, len(all_rows), bs)], each offset
    with its slice. [all_rows] is not changed by the loop, so the slices are
    those of the list the loop starts from. *)
Definition batch_plan (bs : Z) (all_rows : list RawPost)
    : outcome (list (Z * list RawPost)) :=
  offsets ← py_range 0 (Z.of_nat (length all_rows)) bs;
  Returns (map (fun i => (i, batch_at all_rows bs i)) offsets).

(** The body of the [for], over the iterations still to come. An exception
    of the decorated call is caught by [except Exception]; the handler reads
    the global [sys], and an exception raised in the handler leaves the
    loop. *)
Fixpoint batch_loop (g : namespace) (svc : Service) (args : Args)
    (bs : Z) (plan : list (Z * list RawPost)) (st : Progress)
    : Progress * outcome unit :=
  match plan with
  | [] => (st, Returns tt)
  | (i, batch) :: rest =>
      let r := analyze_batch_with_openai g svc args i batch in
      let st1 :=
        {| analyses := analyses st;
           stderr := stderr st;
           slept := slept st ++ waits r;
           calls := calls st ++ map (pair i) (attempts r);
           sent := sent st ++ [batch] |} in
      match ended r with
      | Returns results =>
          batch_loop g svc args bs rest
            {| analyses := analyses st1 ++ results;
               stderr := stderr st1;
               slept := slept st1;
               calls := calls st1;
               sent := sent st1 |}
      | Raises e =>
          let msg := batch_error_message i bs e in
          match resolve g "sys" with
          | Raises ne => (st1, Raises ne)
          | Returns _ =>
              batch_loop g svc args bs rest
                {| analyses := analyses st1;
                   stderr := stderr st1 ++ [msg];
                   slept := slept st1;
                   calls := calls st1;
                   sent := sent st1 |}
          end
      end
  end.

(** Lines 177-185 of [run_openai_analysis]. *)
Definition extraction (g : namespace) (svc : Service) (args : Args)
    (all_rows : list RawPost) : Progress * outcome unit :=
  let bs := effective_batch_size args in
  match batch_plan bs all_rows with
  | Raises e => (start, Raises e)
  | Returns plan => batch_loop g svc args bs plan start
  end.

End Extraction.

Arguments make_client {RawPost Analysis} _ _ _.
Arguments create_response {RawPost Analysis} _ _ _ _ _.
Arguments getenv_model {RawPost Analysis} _.
Arguments _model_name {RawPost Analysis} g svc args.
Arguments analyze_batch_body {RawPost Analysis} g svc args i attempt batch.
Arguments analyze_batch_with_openai {RawPost Analysis} g svc args i batch.
Arguments analyses {RawPost Analysis} _.
Arguments stderr {RawPost Analysis} _.
Arguments slept {RawPost Analysis} _.
Arguments calls {RawPost Analysis} _.
Arguments sent {RawPost Analysis} _.
Arguments start {RawPost Analysis}.
Arguments batch_at {RawPost} all_rows bs i.
Arguments batch_plan {RawPost} bs all_rows.
Arguments batch_loop {RawPost Analysis} g svc args bs plan st.
Arguments extraction {RawPost Analysis} g svc args all_rows.

(** ** Builtins: strings, sorting, floats *)

Definition is_space (c : ascii) : bool :=
  let n := nat_of_ascii c in
  ((9 <=? n) && (n <=? 13) || (28 <=? n) && (n <=? 32))%nat.

Definition lower_char (c : ascii) : ascii :=
  let n := nat_of_ascii c in
  if ((65 <=? n) && (n <=? 90))%nat then ascii_of_nat (n + 32) else c.

(** [s.lower()] *)
Fixpoint py_lower (s : string) : string :=
  match s with
  | EmptyString => EmptyString
  | String c s' => String (lower_char c) (py_lower s')
  end.

Fixpoint py_lstrip (s : string) : string :=
  match s with
  | EmptyString => EmptyString
  | String c s' => if is_space c then py_lstrip s' else s
  end.

Fixpoint py_rstrip (s : string) : string :=
  match s with
  | EmptyString => EmptyString
  | String c s' =>
      match py_rstrip s' with
      | EmptyString => if is_space c then EmptyString else String c EmptyString
      | t => String c t
      end
  end.

(** [s.strip()] *)
Definition py_strip (s : string) : string := py_rstrip (py_lstrip s).

(** [s.replace(old, new)] for a one-character [old] *)
Fixpoint py_replace (old : ascii) (new : string) (s : string) : string :=
  match s with
  | EmptyString => EmptyString
  | String c s' =>
      if Ascii.eqb c old then new +:+ py_replace old new s'
      else String c (py_replace old new s')
  end.

Definition newline : ascii := ascii_of_nat 10.
Definition nl : string := String newline EmptyString.

(** [sep.join(l)] *)
Definition py_join (sep : string) (l : list string) : string := String.concat sep l.

(** [s[:n]] *)
Definition py_prefix (n : nat) (s : string) : string := String.substring 0 n s.

(** [bool(s)] for a string *)
Definition truthy (s : string) : bool :=
  match s with EmptyString => false | _ => true end.

(** A stable insertion sort: [x] goes before the first [y] with [le x y]. *)
Fixpoint insert_by {A : Type} (le : A -> A -> bool) (x : A) (l : list A) : list A :=
  match l with
  | [] => [x]
  | y :: l' => if le x y then x :: l else y :: insert_by le x l'
  end.

Definition sort_by {A : Type} (le : A -> A -> bool) (l : list A) : list A :=
  fold_right (insert_by le) [] l.

(** [sorted(l)] for strings: by code point. *)
Definition py_sorted (l : list string) : list string := sort_by String.leb l.

(** [float(n)], exact below 2^53. *)
Definition float_of_int (n : Z) : float :=
  SF2Prim (binary_normalize prec emax n 0 false).

(** An [int] that a float holds exactly, whatever its value: at most 53
    bits. *)
Definition exact_in_float (n : Z) : bool := Z.abs n <=? 2 ^ 53.

(** The float nearest to [num / den], ties to even, for [0 < num] and
    [0 < den]: the quotient is taken with at least 64 bits, one more bit
    records whether a remainder is left, and the whole is rounded once.
    A quotient beyond the largest float comes out as an infinity. *)
Definition nearest_float (num den : Z) : spec_float :=
  let k := Z.max 0 (64 + Z.log2 den - Z.log2 num) in
  let q := (num * 2 ^ k) / den in
  let sticky := if (num * 2 ^ k) mod den =? 0 then 0 else 1 in
  binary_normalize prec emax (2 * q + sticky) (- k - 1) false.

(** [a / b] on [int]s (CPython's [long_true_divide]): the exact quotient
    rounded once. When both operands fit a float exactly that is the IEEE
    quotient of the converted operands; otherwise the quotient is rounded
    from the integers, and one too large for a float raises. *)
Definition py_truediv (a b : Z) : outcome float :=
  if b =? 0 then Raises ZeroDivisionError
  else if exact_in_float a && exact_in_float b
  then Returns (PrimFloat.div (float_of_int a) (float_of_int b))
  else if a =? 0 then Returns (if b <? 0 then neg_zero else zero)
  else match nearest_float (Z.abs a) (Z.abs b) with
       | S754_infinity _ =>
           Raises (OverflowError "integer division result too large for a float")
       | q =>
           let f := SF2Prim q in
           Returns (if xorb (a <? 0) (b <? 0) then PrimFloat.opp f else f)
       end.

(** The integer nearest to [num / den] for [0 <= num] and [0 < den], ties to
    even. *)
Definition round_half_even (num den : Z) : Z :=
  let q := num / den in
  let r := num mod den in
  if 2 * r <? den then q
  else if den <? 2 * r then q + 1
  else if Z.even q then q else q + 1.

(** [round(x, ndigits)] for [ndigits >= 0]. CPython rounds the exact value
    of the binary [x] to [ndigits] decimals, ties to even, and returns the
    float nearest to that decimal [n / 10^ndigits]: the IEEE quotient when
    [n] and the power of ten fit a float exactly, the quotient rounded from
    the integers otherwise. Zeros, infinities and NaN round to
    themselves. *)
Definition py_round (x : float) (ndigits : nat) : float :=
  match Prim2SF x with
  | S754_finite sign m e =>
      let scale := 10 ^ Z.of_nat ndigits in
      let num := Z.pos m * scale * (if 0 <=? e then 2 ^ e else 1) in
      let den := if 0 <=? e then 1 else 2 ^ (- e) in
      let n := round_half_even num den in
      let r := if exact_in_float n && exact_in_float scale
               then PrimFloat.div (float_of_int n) (float_of_int scale)
               else SF2Prim (nearest_float n scale) in
      if sign then PrimFloat.opp r else r
  | _ => x
  end.

(** ** Analyses *)

(** One element of [results]: the thirteen properties of [ANALYSIS_SCHEMA]
    (lines 16-28) and the two keys that the aggregation also reads,
    [target_audience] and [primary_topic_tags]. The schema does not forbid
    further properties, so a result may carry them. [None] is an absent
    key. *)
Record AnalysisResult : Type := {
  post_id : option string;
  subreddit : option string;
  title : option string;
  theme : option string;
  sub_theme : option string;
  stakeholders : option (list string);
  problem_statements : option (list string);
  questions_users_ask : option (list string);
  proposed_solutions : option (list string);
  useful_links : option (list string);
  sentiment : option string;
  severity_1to5 : option Z;
  dedupe_key : option string;
  target_audience : option string;
  primary_topic_tags : option (list string)
}.

(** [r.get(k, d)] *)
Definition get {A : Type} (field : option A) (d : A) : A :=
  match field with Some v => v | None => d end.

(** A result with no other key than the properties of the schema. *)
Definition schema_only (r : AnalysisResult) : Prop :=
  target_audience r = None /\ primary_topic_tags r = None.

(** ** Flattening and the per-post writers *)

(** A value of a row: a string, or the integer of [severity_1to5]. *)
Inductive Cell : Type :=
| CStr (s : string)
| CInt (n : Z).

Definition Row : Type := list (string * Cell).

(** [row.get(k, "")] and [row.keys()] *)
Fixpoint row_get (k : string) (row : Row) : Cell :=
  match row with
  | [] => CStr ""
  | (k', v) :: row' => if String.eqb k k' then v else row_get k row'
  end.

Definition row_keys (row : Row) : list string := map fst row.

(** The inner [join] of [_flatten_for_row]. *)
Definition flatten_join (arr : list string) (sep : string) : string :=
  match arr with
  | [] => ""
  | _ =>
      py_join sep
        (map (fun x => py_strip (py_replace newline " " x))
             (List.filter (fun x => truthy (py_strip x)) arr))
  end.

Definition _flatten_for_row (a : AnalysisResult) : Row :=
  [ ("post_id", CStr (get (post_id a) ""));
    ("subreddit", CStr (get (subreddit a) ""));
    ("title", CStr (py_strip (py_replace newline " " (get (title a) ""))));
    ("theme", CStr (get (theme a) ""));
    ("sub_theme", CStr (get (sub_theme a) ""));
    ("stakeholders", CStr (flatten_join (get (stakeholders a) []) "; "));
    ("problem_statements", CStr (flatten_join (get (problem_statements a) []) " | "));
    ("questions_users_ask", CStr (flatten_join (get (questions_users_ask a) []) " | "));
    ("proposed_solutions", CStr (flatten_join (get (proposed_solutions a) []) " | "));
    ("useful_links", CStr (flatten_join (get (useful_links a) []) " "));
    ("sentiment", CStr (get (sentiment a) ""));
    ("severity_1to5", match severity_1to5 a with Some n => CInt n | None => CStr "" end);
    ("dedupe_key", CStr (get (dedupe_key a) "")) ].

(** The keys of the row that [_write_per_post_csv] makes up when there is
    no analysis (lines 149-153). *)
Definition fallback_columns : list string :=
  [ "post_id"; "subreddit"; "title"; "sentiment"; "severity_1to5"; "target_audience";
    "primary_topic_tags"; "problem_statements"; "questions_users_ask";
    "proposed_solutions"; "useful_links"; "dedupe_key" ].

(** [csv.DictWriter.writerow]: a key of the row outside [fieldnames] raises
    [ValueError]; otherwise the values in the order of [fieldnames]. *)
Definition dict_writerow (fieldnames : list string) (row : Row) : outcome (list Cell) :=
  if forallb (fun k => existsb (String.eqb k) fieldnames) (row_keys row)
  then Returns (map (fun k => row_get k row) fieldnames)
  else Raises (ValueError "dict contains fields not in fieldnames").

(** A loop of [writerow]: the records written, and how the loop ended. *)
Fixpoint write_each {A B : Type} (f : A -> outcome B) (l : list A) : list B * outcome unit :=
  match l with
  | [] => ([], Returns tt)
  | x :: l' =>
      match f x with
      | Raises e => ([], Raises e)
      | Returns y => let '(ys, o) := write_each f l' in (y :: ys, o)
      end
  end.

(** [_write_per_post_csv]: the records of the file, the header first. *)
Definition _write_per_post_csv (analyses : list AnalysisResult)
    : list (list Cell) * outcome unit :=
  let rows := map _flatten_for_row analyses in
  let rows :=
    match rows with
    | [] => [map (fun k => (k, CStr "")) fallback_columns]
    | _ => rows
    end in
  let fieldnames := match rows with r :: _ => row_keys r | [] => [] end in
  let '(written, o) := write_each (dict_writerow fieldnames) rows in
  (map CStr fieldnames :: written, o).

Definition md_headers : list string :=
  [ "post_id"; "subreddit"; "title"; "sentiment"; "severity_1to5";
    "target_audience"; "primary_topic_tags"; "problem_statements";
    "questions_users_ask"; "proposed_solutions"; "useful_links"; "dedupe_key" ].

(** [str(x)] of a cell, and [esc] *)
Definition str_of_cell (x : Cell) : string :=
  match x with CStr s => s | CInt n => str_of_int n end.

Definition esc (x : Cell) : string := py_replace "|" "\|" (str_of_cell x).

(** [_write_per_post_md]: the strings written to the file, in order. *)
Definition _write_per_post_md (analyses : list AnalysisResult) (top_n : Z) : list string :=
  let rows := py_slice (map _flatten_for_row analyses) 0 (Z.max 1 top_n) in
  ("| " +:+ py_join " | " md_headers +:+ " |" +:+ nl)
  :: ("|" +:+ py_join "|" (repeat "---" (length md_headers)) +:+ "|" +:+ nl)
  :: map (fun r => "| " +:+ py_join " | " (map (fun h => esc (row_get h r)) md_headers)
                   +:+ " |" +:+ nl) rows.

(** ** Aggregation by [dedupe_key] (lines 194-209) *)

(** An element of [examples]: [{"subreddit": ..., "title": ...}] *)
Definition Example : Type := (option string * option string)%type.

Definition example_of (r : AnalysisResult) : Example := (subreddit r, title r).

Record Bucket : Type := {
  count : Z;
  examples : list Example;
  severity_sum : Z;
  audiences : gset string;
  links : gset string;
  tags : gset string
}.

(** The default of [setdefault] on line 199. *)
Definition new_bucket : Bucket :=
  {| count := 0; examples := []; severity_sum := 0;
     audiences := ∅; links := ∅; tags := ∅ |}.

(** [buckets]: a dict, in insertion order. *)
Definition Buckets : Type := list (string * Bucket).

(** [d.get(k)] *)
Fixpoint dict_get {V : Type} (k : string) (d : list (string * V)) : option V :=
  match d with
  | [] => None
  | (k', v) :: d' => if String.eqb k k' then Some v else dict_get k d'
  end.

(** [d.setdefault(k, v)]: a new key goes last. *)
Definition dict_setdefault {V : Type} (k : string) (v : V) (d : list (string * V))
    : list (string * V) :=
  match dict_get k d with
  | Some _ => d
  | None => d ++ [(k, v)]
  end.

(** The value at [k] changed in place. *)
Fixpoint dict_alter {V : Type} (f : V -> V) (k : string) (d : list (string * V))
    : list (string * V) :=
  match d with
  | [] => []
  | (k', v) :: d' =>
      if String.eqb k k' then (k', f v) :: d' else (k', v) :: dict_alter f k d'
  end.

(** [key = (r.get("dedupe_key") or "").lower().strip()] *)
Definition bucket_key (r : AnalysisResult) : string :=
  py_strip (py_lower (get (dedupe_key r) "")).

(** Lines 202-209: what a result does to its bucket [b]. *)
Definition absorb (r : AnalysisResult) (b : Bucket) : Bucket :=
  {| count := count b + 1;
     severity_sum := severity_sum b + get (severity_1to5 r) 3;
     audiences := audiences b ∪ {[ get (target_audience r) "" ]};
     tags := tags b ∪ list_to_set (get (primary_topic_tags r) []);
     links := fold_left (fun acc url => acc ∪ {[ url ]}) (get (useful_links r) []) (links b);
     examples :=
       if Z.of_nat (length (examples b)) <? 5
       then examples b ++ [example_of r]
       else examples b |}.

(** The body of the [for r in analyses]. *)
Definition add_result (buckets : Buckets) (r : AnalysisResult) : Buckets :=
  let key := bucket_key r in
  if truthy key
  then dict_alter (absorb r) key (dict_setdefault key new_bucket buckets)
  else buckets.

Definition aggregate (analyses : list AnalysisResult) : Buckets :=
  fold_left add_result analyses [].

(** ** The aggregated CSV (lines 216-226) *)

Definition aggregated_header : list string :=
  [ "issue_key"; "posts"; "avg_severity"; "audiences";
    "top_tags"; "example_titles"; "links_count" ].

(** A record of the aggregated CSV, as the values given to [writerow]. *)
Record AggRow : Type := {
  issue_key : string;
  posts : Z;
  avg_severity : float;
  audiences_cell : string;
  top_tags : string;
  example_titles : string;
  links_count : Z
}.

(** [sorted(buckets.items(), key=lambda kv: kv[1]["count"], reverse=True)]:
    the larger count first, equal counts in the order of the dict. *)
Definition by_count_desc (x y : string * Bucket) : bool :=
  count (snd y) <=? count (snd x).

Definition sorted_buckets (buckets : Buckets) : Buckets := sort_by by_count_desc buckets.

(** ["; ".join(e["title"] for e in examples)]: [join] raises [TypeError] on
    an item that is not a string. *)
Fixpoint titles_of (es : list Example) : outcome (list string) :=
  match es with
  | [] => Returns []
  | (_, Some t) :: es' => ts ← titles_of es'; Returns (t :: ts)
  | (_, None) :: _ => Raises (TypeError "sequence item: expected str instance, NoneType found")
  end.

(** Lines 219-226 for one bucket. *)
Definition aggregated_row (kb : string * Bucket) : outcome AggRow :=
  let '(k, b) := kb in
  avg ← py_truediv (severity_sum b) (count b);
  let avg_sev := py_round avg 2 in
  let aud := py_join "; " (py_sorted (List.filter truthy (elements (audiences b)))) in
  let tgs := py_prefix 300 (py_join "; " (py_sorted (elements (tags b)))) in
  titles ← titles_of (examples b);
  Returns {| issue_key := k;
             posts := count b;
             avg_severity := avg_sev;
             audiences_cell := aud;
             top_tags := tgs;
             example_titles := py_prefix 300 (py_join "; " titles);
             links_count := Z.of_nat (size (links b)) |}.

(** The records written after the header, and how the loop ended. *)
Definition aggregated_csv (buckets : Buckets) : list AggRow * outcome unit :=
  write_each aggregated_row (sorted_buckets buckets).

(** ** Vocabulary of the statements about the loop *)

Section LoopVocabulary.

Context {RawPost Analysis : Type}.
Variable g : namespace.
Variable svc : Service RawPost Analysis.
Variable args : Args.

(** A batch fails when its call raises at each of the 6 attempts. *)
Definition fails_every_attempt (i : Z) (batch : list RawPost) : Prop :=
  forall a : nat, (1 <= a <= max_attempts)%nat ->
    exists e, analyze_batch_body g svc args i a batch = Raises e.

(** What one iteration adds to [analyses], and what its handler prints. *)
Definition batch_results (b : Z * list RawPost) : list Analysis :=
  match ended (analyze_batch_with_openai g svc args (fst b) (snd b)) with
  | Returns results => results
  | Raises _ => []
  end.

Definition batch_messages (bs : Z) (b : Z * list RawPost) : list string :=
  match ended (analyze_batch_with_openai g svc args (fst b) (snd b)) with
  | Returns _ => []
  | Raises e => [batch_error_message (fst b) bs e]
  end.

End LoopVocabulary.

(** ** Vocabulary of the statements about the aggregation *)

(** The results of a run whose grouping key is [k], in the order of the
    run. *)
Definition contributing (k : string) (analyses : list AnalysisResult)
    : list AnalysisResult :=
  List.filter (fun r => String.eqb (bucket_key r) k) analyses.

(** The results that are aggregated at all. *)
Definition keyed (analyses : list AnalysisResult) : list AnalysisResult :=
  List.filter (fun r => truthy (bucket_key r)) analyses.

(** A bucket after it absorbed [rs], one after the other. *)
Definition absorb_all (rs : list AnalysisResult) (b : Bucket) : Bucket :=
  fold_left (fun b r => absorb r b) rs b.

(** A bucket that exists absorbs the later results of its key; one that
    does not is made by the first of them. *)
Definition absorb_into (ob : option Bucket) (rs : list AnalysisResult) : option Bucket :=
  match ob, rs with
  | None, [] => None
  | _, _ => Some (absorb_all rs (get ob new_bucket))
  end.

(** The severity a result counts for. *)
Definition severity_of (r : AnalysisResult) : Z := get (severity_1to5 r) 3.

Definition sum_Z (l : list Z) : Z := fold_right Z.add 0 l.

(** A severity inside the bounds of the schema (lines 26-27), the 3 of an
    absent one included. *)
Definition severity_in_schema (r : AnalysisResult) : Prop := 1 <= severity_of r <= 5.

(** [n] is an integer nearest to 100 times [m * 2^e], the value of a finite
    float, and the even one of the two when that lies half way. *)
Definition nearest_hundredths (m : positive) (e : Z) (n : Z) : Prop :=
  let num := Z.pos m * 100 * 2 ^ Z.max 0 e in
  let den := 2 ^ Z.max 0 (- e) in
  2 * Z.abs (num - n * den) <= den /\
  (2 * Z.abs (num - n * den) = den -> Z.even n = true).

(** The count of the bucket at [k], 0 when there is none. *)
Definition count_at (k : string) (buckets : Buckets) : Z :=
  match dict_get k buckets with Some b => count b | None => 0 end.

Definition total_count (buckets : Buckets) : Z := sum_Z (map (fun kb => count (snd kb)) buckets).

(** A string of whitespace only (the empty string is one). *)
Fixpoint all_space (s : string) : bool :=
  match s with
  | EmptyString => true
  | String c s' => is_space c && all_space s'
  end.

(** [dedupe_key] is absent, empty or whitespace only. *)
Definition blank_key (r : AnalysisResult) : bool :=
  match dedupe_key r with None => true | Some s => all_space s end.

(** The distinct elements of a list, each at its first occurrence. *)
Definition distinct_in_order (l : list Example) : list Example :=
  fold_left (fun acc x => if bool_decide (x ∈ acc) then acc else acc ++ [x]) l [].

(** ** Sample analyses *)

(** A result as the schema describes it: the required properties, a
    severity or none, and no key outside the schema. *)
Definition sample (sr t : string) (sev : option Z) (key : string) : AnalysisResult :=
  {| post_id := Some ("t3_" +:+ t);
     subreddit := Some sr;
     title := Some t;
     theme := Some "Other";
     sub_theme := None;
     stakeholders := Some ["Students"];
     problem_statements := Some ["it does not work"];
     questions_users_ask := None;
     proposed_solutions := None;
     useful_links := None;
     sentiment := None;
     severity_1to5 := sev;
     dedupe_key := Some key;
     target_audience := None;
     primary_topic_tags := None |}.

(** Three results sharing a key, with the severities 1, 3 and 5. *)
Definition three_severities : list AnalysisResult :=
  [ sample "edtech" "first" (Some 1) "LMS mobile app crashes";
    sample "edtech" "second" (Some 3) "lms mobile app crashes ";
    sample "Teachers" "third" (Some 5) " LMS Mobile App Crashes" ].

(** Two results sharing a key, one of them without a severity. *)
Definition one_without_severity : list AnalysisResult :=
  [ sample "edtech" "first" (Some 4) "Course content outdated";
    sample "edtech" "second" None "Course content outdated" ].

(** Three results sharing a key whose mean severity, 10/3, has no two-decimal
    form. *)
Definition thirds : list AnalysisResult :=
  [ sample "edtech" "first" (Some 3) "grading delays";
    sample "edtech" "second" (Some 3) "grading delays";
    sample "edtech" "third" (Some 4) "grading delays" ].

(** Forty results sharing a key, thirteen of severity 2 and twenty-seven of
    severity 3: their mean is 107/40 = 2.675. *)
Definition forty_results : list AnalysisResult :=
  repeat (sample "edtech" "low" (Some 2) "login loops") 13
  ++ repeat (sample "edtech" "mid" (Some 3) "login loops") 27.

(** Five results under three keys; two of the keys have two results each,
    and the key seen first is not the first in the alphabet. *)
Definition tied_keys : list AnalysisResult :=
  [ sample "edtech" "t1" (Some 2) "b issue";
    sample "edtech" "t2" (Some 2) "a issue";
    sample "edtech" "t3" (Some 2) "b issue";
    sample "edtech" "t4" (Some 2) "a issue";
    sample "edtech" "t5" (Some 2) "c issue" ].

(** Six results sharing a key; the first two are the same post. *)
Definition six_with_a_repeat : list AnalysisResult :=
  [ sample "edtech" "t1" (Some 2) "proctoring false positives";
    sample "edtech" "t1" (Some 2) "proctoring false positives";
    sample "edtech" "t2" (Some 2) "proctoring false positives";
    sample "edtech" "t3" (Some 2) "proctoring false positives";
    sample "edtech" "t4" (Some 2) "proctoring false positives";
    sample "edtech" "t5" (Some 2) "proctoring false positives" ].

(** ** A run with an outage *)

(** Two posts in batches of one; the service times out on every call for
    the first batch and answers for the second. *)
Definition outage_args : Args :=
  {| batch_size := 1; model := Some "gpt-4.1-mini"; table := "csv"; md_top := 50 |}.

Definition outage_service : Service string string :=
  {| make_client := fun _ _ => Returns tt;
     create_response := fun i _ _ batch =>
       if i =? 0 then Raises (ServiceError "timed out")
       else Returns (map (fun p => "analysis of " +:+ p) batch);
     getenv_model := None |}.

Definition outage_posts : list string := ["p1"; "p2"].

(** ** Batch sizes below 1 *)



(** ** Vocabulary of further statements about the aggregation *)

(** The distinct strings of a list, each at its first occurrence. *)
Definition first_seen (keys : list string) : list string :=
  fold_left (fun acc k => if existsb (String.eqb k) acc then acc else acc ++ [k]) keys [].

(** The buckets of a dict that hold [c] results, in the order of the dict. *)
Definition with_count (c : Z) (buckets : Buckets) : Buckets :=
  List.filter (fun kb => count (snd kb) =? c) buckets.

(** The records of an aggregated CSV whose [posts] is [c], in the order of
    the file. *)
Definition records_with_posts (c : Z) (rows : list AggRow) : list AggRow :=
  List.filter (fun row => posts row =? c) rows.

(** The URLs of the results of a key. *)
Definition urls_of (rs : list AnalysisResult) : list string :=
  concat (map (fun r => get (useful_links r) []) rs).

(** Two results sharing a key and one of their two URLs. *)
Definition linked (t : string) (urls : list string) : AnalysisResult :=
  {| post_id := Some ("t3_" +:+ t);
     subreddit := Some "edtech";
     title := Some t;
     theme := Some "Content Quality";
     sub_theme := None;
     stakeholders := None;
     problem_statements := Some ["the course is out of date"];
     questions_users_ask := None;
     proposed_solutions := None;
     useful_links := Some urls;
     sentiment := Some "negative";
     severity_1to5 := Some 3;
     dedupe_key := Some "Course content outdated";
     target_audience := None;
     primary_topic_tags := None |}.

Definition shared_links : list AnalysisResult :=
  [ linked "a" ["https://a.example"; "https://b.example"];
    linked "b" ["https://b.example"; "https://b.example"] ].

(** ** Vocabulary of further statements about the per-post writers *)

(** The keys of a flattened row (lines 128-140). *)
Definition flatten_columns : list string :=
  [ "post_id"; "subreddit"; "title"; "theme"; "sub_theme"; "stakeholders";
    "problem_statements"; "questions_users_ask"; "proposed_solutions";
    "useful_links"; "sentiment"; "severity_1to5"; "dedupe_key" ].

Fixpoint has_newline (s : string) : bool :=
  match s with
  | EmptyString => false
  | String c s' => Ascii.eqb c newline || has_newline s'
  end.

(** The pipes of a string that do not come right after a backslash;
    [after_backslash] tells whether the string itself does. *)
Fixpoint bare_pipes_from (after_backslash : bool) (s : string) : nat :=
  match s with
  | EmptyString => 0
  | String c s' =>
      ((if Ascii.eqb c "|" && negb after_backslash then 1 else 0)
       + bare_pipes_from (Ascii.eqb c "\") s')%nat
  end.

Definition bare_pipes (s : string) : nat := bare_pipes_from false s.

(** The line that [_write_per_post_md] writes for a flattened row. *)
Definition md_line (r : Row) : string :=
  "| " +:+ py_join " | " (map (fun h => esc (row_get h r)) md_headers) +:+ " |" +:+ nl.

(** ** Prompt items ([_to_prompt_items], lines 79-94) *)

(** A scraped post as [analysis.py] reads it: the keys [id] and [subreddit]
    are indexed, the others are read with [.get]. [None] is an absent
    key. *)
Module Post.
Record t : Type := {
  id : option string;
  subreddit : option string;
  title : option string;
  selftext : option string;
  top_comments : option (list string);
  permalink : option string
}.
End Post.

Module PromptItem.
Record t : Type := {
  post_id : string;
  subreddit : string;
  title : string;
  text : string;
  comments : list string;
  permalink : string
}.
End PromptItem.

(** [p[key]]: the value, or [KeyError]. *)
Inductive indexed (A : Type) : Type :=
| Found (a : A)
| KeyError (key : string).
Arguments Found {A} a.
Arguments KeyError {A} key.

(** Lines 82-84: the [body] of a post. *)
Definition prompt_text (p : Post.t) : string :=
  let body :=
    py_strip (py_strip (get (Post.title p) "") +:+ nl +:+ nl
              +:+ py_strip (get (Post.selftext p) "")) in
  if truthy body then body else py_strip (get (Post.title p) "").

(** Lines 82-93 for one post. The dict display reads [p["id"]] first. *)
Definition prompt_item (p : Post.t) : indexed PromptItem.t :=
  let body := prompt_text p in
  let comments := get (Post.top_comments p) [] in
  match Post.id p with
  | None => KeyError "id"
  | Some i =>
      match Post.subreddit p with
      | None => KeyError "subreddit"
      | Some sr =>
          Found {| PromptItem.post_id := i;
                   PromptItem.subreddit := sr;
                   PromptItem.title := get (Post.title p) "";
                   PromptItem.text := body;
                   PromptItem.comments := py_slice comments 0 5;
                   PromptItem.permalink := get (Post.permalink p) "" |}
      end
  end.

Fixpoint _to_prompt_items (batch : list Post.t) : indexed (list PromptItem.t) :=
  match batch with
  | [] => Found []
  | p :: rest =>
      match prompt_item p with
      | KeyError k => KeyError k
      | Found item =>
          match _to_prompt_items rest with
          | KeyError k => KeyError k
          | Found items => Found (item :: items)
          end
      end
  end.

(** A string with no whitespace at its start. *)
Definition starts_clean (s : string) : bool :=
  match s with
  | EmptyString => true
  | String c _ => negb (is_space c)
  end.

(** A post that has the two indexed keys. *)
Definition has_indexed_keys (p : Post.t) : Prop :=
  Post.id p <> None /\ Post.subreddit p <> None.

(** ** The whole of [run_openai_analysis] (lines 175-257) *)

(** The summarization service: [_oai_client()] of line 230 and the chat call
    of lines 232-238, from the model name and the user message to
    [message.content]. *)
Record Summarizer : Type := {
  summary_client : outcome unit;
  chat_completion : string -> string -> outcome (option string)
}.

(** [json.dumps(buckets)]: every bucket holds three sets, which the encoder
    refuses, so only the empty dict is encoded. *)
Definition json_dumps_buckets (buckets : Buckets) : outcome string :=
  match buckets with
  | [] => Returns "{}"
  | _ => Raises (TypeError "Object of type set is not JSON serializable")
  end.

(** The user message of line 236. *)
Definition summary_request (js : string) : string :=
  "Summarize the top 10 recurring issues from this JSON (each 1 line with a concrete action idea):"
    +:+ nl +:+ py_prefix 60000 js.

(** The [try] block of lines 230-238. *)
Definition summarize {RawPost : Type} (g : namespace)
    (svc : Service RawPost AnalysisResult) (sm : Summarizer) (args : Args)
    (buckets : Buckets) : outcome (option string) :=
  _ ← summary_client sm;
  m ← _model_name g svc args;
  js ← json_dumps_buckets buckets;
  chat_completion sm m (summary_request js).

(** The files of a run, [None] for one that was not opened, and what was
    printed on the error stream. Opening and writing a file are taken not to
    fail. *)
Record Outputs : Type := {
  analysis_jsonl : option (list AnalysisResult);
  issues_aggregated_csv : option (list AggRow);
  summary_md : option string;
  analysis_per_post_csv : option (list (list Cell));
  analysis_per_post_md : option (list string);
  errors : list string
}.

(** Lines 243-249: the per-post files. *)
Definition write_per_post (args : Args) (raw : list AnalysisResult) (out : Outputs)
    : Outputs * outcome unit :=
  let '(records, o) := _write_per_post_csv raw in
  let out1 :=
    {| analysis_jsonl := analysis_jsonl out;
       issues_aggregated_csv := issues_aggregated_csv out;
       summary_md := summary_md out;
       analysis_per_post_csv := Some records;
       analysis_per_post_md := None;
       errors := errors out |} in
  match o with
  | Raises e => (out1, Raises e)
  | Returns _ =>
      if String.eqb (table args) "md" || String.eqb (table args) "both"
      then ({| analysis_jsonl := analysis_jsonl out1;
               issues_aggregated_csv := issues_aggregated_csv out1;
               summary_md := summary_md out1;
               analysis_per_post_csv := analysis_per_post_csv out1;
               analysis_per_post_md := Some (_write_per_post_md raw (md_top args));
               errors := errors out1 |},
            Returns tt)
      else (out1, Returns tt)
  end.

(** Lines 228-249: the summary, whose failure is caught by a handler that
    reads [sys], and then the per-post files. *)
Definition summary_and_per_post {RawPost : Type} (g : namespace)
    (svc : Service RawPost AnalysisResult) (sm : Summarizer) (args : Args)
    (raw : list AnalysisResult) (buckets : Buckets) (out : Outputs)
    : Outputs * outcome unit :=
  match summarize g svc sm args buckets with
  | Returns bullet =>
      write_per_post args raw
        {| analysis_jsonl := analysis_jsonl out;
           issues_aggregated_csv := issues_aggregated_csv out;
           summary_md := Some (get bullet "");
           analysis_per_post_csv := None;
           analysis_per_post_md := None;
           errors := errors out |}
  | Raises e =>
      match resolve g "sys" with
      | Raises ne => (out, Raises ne)
      | Returns _ =>
          write_per_post args raw
            {| analysis_jsonl := analysis_jsonl out;
               issues_aggregated_csv := issues_aggregated_csv out;
               summary_md := None;
               analysis_per_post_csv := None;
               analysis_per_post_md := None;
               errors := errors out ++ ["[warn] summary generation failed: " +:+ str_of_exn e] |}
      end
  end.

Definition run_openai_analysis {RawPost : Type} (g : namespace)
    (svc : Service RawPost AnalysisResult) (sm : Summarizer) (args : Args)
    (all_rows : list RawPost) : Outputs * outcome unit :=
  let '(st, o) := extraction g svc args all_rows in
  match o with
  | Raises e =>
      ({| analysis_jsonl := None; issues_aggregated_csv := None; summary_md := None;
          analysis_per_post_csv := None; analysis_per_post_md := None;
          errors := stderr st |},
       Raises e)
  | Returns _ =>
      let raw := analyses st in
      let buckets := aggregate raw in
      let '(rows, o2) := aggregated_csv buckets in
      let out :=
        {| analysis_jsonl := Some raw; issues_aggregated_csv := Some rows;
           summary_md := None; analysis_per_post_csv := None;
           analysis_per_post_md := None; errors := stderr st |} in
      match o2 with
      | Raises e => (out, Raises e)
      | Returns _ => summary_and_per_post g svc sm args raw buckets out
      end
  end.

(** [args.model] is [None] or the empty string, as it is when the command
    line has no [--model]. *)
Definition no_model (args : Args) : Prop := model args = None \/ model args = Some "".

(** ** Services that answer *)

(** One analysis for each post of the batch, under the key [key]. *)
Definition answers_with_key (key : string) : Service string AnalysisResult :=
  {| make_client := fun _ _ => Returns tt;
     create_response := fun _ _ _ batch =>
       Returns (map (fun p => sample "edtech" p (Some 2) key) batch);
     getenv_model := None |}.

Definition one_line_summary : Summarizer :=
  {| summary_client := Returns tt;
     chat_completion := fun _ _ => Returns (Some "- fix it") |}.

(** What a prompt item takes from its post. *)
Definition item_of_post (p : Post.t) (item : PromptItem.t) : Prop :=
  Post.id p = Some (PromptItem.post_id item) /\
  Post.subreddit p = Some (PromptItem.subreddit item) /\
  PromptItem.title item = get (Post.title p) "" /\
  PromptItem.text item = prompt_text p /\
  PromptItem.comments item = firstn 5 (get (Post.top_comments p) []) /\
  PromptItem.permalink item = get (Post.permalink p) "".

(** ** [reddit.py]: the list of subreddits and the top comments *)

(** [c in chars] *)
Definition in_chars (c : ascii) (chars : string) : bool :=
  existsb (Ascii.eqb c) (list_ascii_of_string chars).

(** [s.lstrip(chars)]: the leading characters that are in [chars] go, in
    whatever order they come. *)
Fixpoint py_lstrip_chars (chars : string) (s : string) : string :=
  match s with
  | EmptyString => EmptyString
  | String c s' => if in_chars c chars then py_lstrip_chars chars s' else s
  end.

(** A line boundary of [str.splitlines], among the code points below 128. *)
Definition is_linebreak (c : ascii) : bool :=
  let n := nat_of_ascii c in
  ((10 <=? n) && (n <=? 13) || (28 <=? n) && (n <=? 30))%nat.

Definition carriage_return : ascii := ascii_of_nat 13.

(** [s.splitlines()]: a carriage return and the newline after it are one
    boundary, and a final boundary opens no further line. *)
Fixpoint py_splitlines (s : string) : list string :=
  match s with
  | EmptyString => []
  | String c s' =>
      if is_linebreak c then
        match s' with
        | String c' s'' =>
            if Ascii.eqb c carriage_return && Ascii.eqb c' newline
            then EmptyString :: py_splitlines s''
            else EmptyString :: py_splitlines s'
        | EmptyString => [EmptyString]
        end
      else
        match py_splitlines s' with
        | [] => [String c EmptyString]
        | l :: ls => String c l :: ls
        end
  end.

(** [line.split("#", 1)[0]] *)
Fixpoint before_hash (line : string) : string :=
  match line with
  | EmptyString => EmptyString
  | String c line' => if Ascii.eqb c "#" then EmptyString else String c (before_hash line')
  end.

(** [s.split()]: the maximal runs without whitespace. *)
Fixpoint py_split (s : string) : list string :=
  match s with
  | EmptyString => []
  | String c s' =>
      if is_space c then py_split s'
      else
        match s' with
        | EmptyString => [String c EmptyString]
        | String c' _ =>
            if is_space c' then String c EmptyString :: py_split s'
            else
              match py_split s' with
              | [] => [String c EmptyString]
              | t :: ts => String c t :: ts
              end
        end
  end.

(** Lines 68-72 of [read_subreddits_from_file] for one line. *)
Definition names_of_line (line : string) : list string :=
  let line := py_strip (before_hash line) in
  if truthy line
  then map py_strip
         (List.filter (fun p => truthy (py_strip p)) (py_split (py_replace "," " " line)))
  else [].

Definition raw_names (text : string) : list string :=
  concat (map names_of_line (py_splitlines text)).

(** Lines 74-81: the names without their prefix, the first of each
    spelling that differs in more than case. *)
Fixpoint clean_names (seen : list string) (raw : list string) : list string :=
  match raw with
  | [] => []
  | name :: raw' =>
      let name := py_strip (py_lstrip_chars "r/" name) in
      let key := py_lower name in
      if existsb (String.eqb key) seen
      then clean_names seen raw'
      else name :: clean_names (key :: seen) raw'
  end.

(** [read_subreddits_from_file], from the text of the file. *)
Definition read_subreddits_from_file (path text : string) : outcome (list string) :=
  match clean_names [] (raw_names text) with
  | [] => Raises (ValueError ("No subreddit names found in " +:+ path))
  | cleaned => Returns cleaned
  end.

(** [fetch_top_comments]: [comments] is the top level of the comment forest
    after [replace_more(limit=0)], each comment with its [body] or without
    one. *)
Definition fetch_top_comments (comments : list (option string)) (top_n : Z) : list string :=
  if top_n <=? 0 then []
  else
    omap (fun c => c)
      (List.filter (fun c => truthy (py_strip (get c ""))) (py_slice comments 0 top_n)).

(** Every character of a string satisfies [P]. *)
Fixpoint all_chars (P : ascii -> bool) (s : string) : bool :=
  match s with
  | EmptyString => true
  | String c s' => P c && all_chars P s'
  end.

(** A character that can occur in a name read from the file. *)
Definition name_char (c : ascii) : bool :=
  negb (is_space c) && negb (Ascii.eqb c ",") && negb (Ascii.eqb c "#").

(** ** The pieces of a text, one character at a time *)

(** The piece read so far, as a list: none when nothing was read. *)
Definition flush (piece : string) : list string :=
  match piece with
  | EmptyString => []
  | _ => [piece]
  end.

(** The pieces of a text between whitespace and commas outside comments, by
    one pass over its characters. A comment runs from a [#] to the end of
    its line; [piece] holds the characters of the piece being read. *)
Fixpoint pieces_from (in_comment : bool) (piece : string) (s : string) : list string :=
  match s with
  | EmptyString => flush piece
  | String c s' =>
      if is_linebreak c then flush piece ++ pieces_from false "" s'
      else if in_comment then pieces_from true piece s'
      else if Ascii.eqb c "#" then flush piece ++ pieces_from true "" s'
      else if is_space c || Ascii.eqb c "," then flush piece ++ pieces_from false "" s'
      else pieces_from false (piece +:+ String c "") s'
  end.

Definition pieces_of_text (text : string) : list string := pieces_from false "" text.

(** What is left of a text after a line boundary [b]: the newline after a
    carriage return belongs to the boundary. *)
Definition after_break (b : ascii) (rest : string) : string :=
  match rest with
  | String c' s'' => if Ascii.eqb b carriage_return && Ascii.eqb c' newline then s'' else rest
  | EmptyString => EmptyString
  end.

(** The name that the second loop makes of a piece. *)
Definition clean_name (t : string) : string := py_strip (py_lstrip_chars "r/" t).

(** A file of names, with a comment, a blank line and repeated spellings. *)
Definition subreddits_txt : string :=
  "r/edtech, Teachers # staff rooms" +:+ nl +:+ "r/EdTech" +:+ nl +:+ nl
  +:+ "teachers  python".

(** ** Keys up to case and outer whitespace *)

(** A code point below 128. *)
Definition is_ascii (c : ascii) : bool := (nat_of_ascii c <? 128)%nat.

(** [dedupe_key] is absent or ASCII text, on which [py_lower] and [py_strip]
    are [str.lower] and [str.strip]. *)
Definition ascii_key (r : AnalysisResult) : Prop :=
  match dedupe_key r with
  | None => True
  | Some s => all_chars is_ascii s = true
  end.

(** One of the capitals A to Z. *)
Definition is_upper (c : ascii) : bool :=
  let n := nat_of_ascii c in ((65 <=? n) && (n <=? 90))%nat.

(** Two characters that are equal, or the capital and the small form of one
    of the 26 letters. *)
Inductive same_letter : ascii -> ascii -> Prop :=
| same_char (c : ascii) : same_letter c c
| capital_small (i : nat) :
    (i < 26)%nat -> same_letter (ascii_of_nat (65 + i)) (ascii_of_nat (97 + i))
| small_capital (i : nat) :
    (i < 26)%nat -> same_letter (ascii_of_nat (97 + i)) (ascii_of_nat (65 + i)).

(** Two strings that differ in the case of their letters only. *)
Inductive same_ignoring_case : string -> string -> Prop :=
| same_empty : same_ignoring_case "" ""
| same_String (c c' : ascii) (s s' : string) :
    same_letter c c' -> same_ignoring_case s s' ->
    same_ignoring_case (String c s) (String c' s').

(** [s] is [core] between two runs of whitespace. *)
Definition padded (s core : string) : Prop :=
  exists w1 w2 : string,
    all_space w1 = true /\ all_space w2 = true /\ s = w1 +:+ core +:+ w2.

(** The last character of [s], when there is one, is not whitespace. *)
Definition ends_clean (s : string) : Prop :=
  forall (s' : string) (c : ascii), s = s' +:+ String c "" -> is_space c = false.

(** The decorated call of an iteration returns. *)
Definition call_returns {RawPost Analysis : Type} (g : namespace)
    (svc : Service RawPost Analysis) (args : Args) (b : Z * list RawPost) : Prop :=
  exists results, ended (analyze_batch_with_openai g svc args (fst b) (snd b)) = Returns results.

(* ===================================================================== *)
(** * Properties *)
(* ===================================================================== *)

(** ** Builtins *)

Lemma range_up_closed (step : Z) (Hstep : 0 < step) (stop : Z) (fuel : nat) :
  forall i : Z, (Z.to_nat (stop - i) <= fuel)%nat ->
    range_up fuel i stop step =
    map (fun k => i + Z.of_nat k * step)
        (seq 0 (Z.to_nat ((stop - i + step - 1) / step))).
Proof.
  induction fuel as [|fuel IH]; intros i Hfuel.
  - assert (Hle : stop - i <= 0) by lia.
    assert (Hq : (stop - i + step - 1) / step <= 0).
    { apply Z.lt_succ_r. apply Z.div_lt_upper_bound; lia. }
    replace (Z.to_nat ((stop - i + step - 1) / step)) with 0%nat by lia.
    reflexivity.
  - cbn [range_up]. destruct (Z.ltb_spec i stop) as [Hlt|Hge].
    + assert (Hq : (stop - i + step - 1) / step
                   = 1 + (stop - (i + step) + step - 1) / step).
      { replace (stop - i + step - 1) with ((stop - (i + step) + step - 1) + 1 * step) by lia.
        rewrite Z.div_add by lia. lia. }
      assert (Hnn : 0 <= (stop - (i + step) + step - 1) / step).
      { apply Z.div_pos; lia. }
      rewrite Hq.
      replace (Z.to_nat (1 + (stop - (i + step) + step - 1) / step))
        with (S (Z.to_nat ((stop - (i + step) + step - 1) / step))) by lia.
      cbn [seq map]. f_equal; [lia|].
      rewrite IH by lia.
      rewrite <- seq_shift, map_map.
      apply map_ext. intros k. lia.
    + assert (Hq : (stop - i + step - 1) / step <= 0).
      { apply Z.lt_succ_r. apply Z.div_lt_upper_bound; lia. }
      replace (Z.to_nat ((stop - i + step - 1) / step)) with 0%nat by lia.
      reflexivity.
Qed.


Lemma py_slice_window {A : Type} (l : list A) (lo hi : Z) :
  0 <= lo -> lo <= hi ->
  py_slice l lo hi = firstn (Z.to_nat (hi - lo)) (skipn (Z.to_nat lo) l).
Proof.
  intros Hlo Hhi. unfold py_slice, clamp_index.
  destruct (Z.ltb_spec lo 0) as [?|_]; [lia|].
  destruct (Z.ltb_spec hi 0) as [?|_]; [lia|].
  destruct (Z.le_gt_cases (Z.of_nat (length l)) lo) as [Hout|Hin].
  - rewrite !skipn_all2 by lia. now rewrite !firstn_nil.
  - replace (Z.to_nat (Z.min lo (Z.of_nat (length l)))) with (Z.to_nat lo) by lia.
    destruct (Z.le_gt_cases hi (Z.of_nat (length l))) as [Hh|Hh].
    + do 2 f_equal. lia.
    + rewrite !firstn_all2 by (rewrite length_skipn; lia). reflexivity.
Qed.

Lemma firstn_plus_skipn {A : Type} (l : list A) (a b : nat) :
  firstn (a + b) l = firstn a l ++ firstn b (skipn a l).
Proof.
  revert l; induction a as [|a IH]; intros l; [reflexivity|].
  destruct l as [|x l]; cbn.
  - now rewrite firstn_nil.
  - now rewrite <- IH.
Qed.

(** Consecutive windows of width [b] put end to end are a prefix. *)
Lemma concat_windows {A : Type} (l : list A) (b n : nat) :
  concat (map (fun k => firstn b (skipn (k * b) l)) (seq 0 n)) = firstn (n * b) l.
Proof.
  induction n as [|n IH]; [reflexivity|].
  rewrite seq_S, map_app, concat_app, IH. cbn [map concat Nat.add].
  rewrite app_nil_r.
  replace (S n * b)%nat with (n * b + b)%nat by lia.
  now rewrite firstn_plus_skipn.
Qed.

Section Batching.

Context {RawPost : Type}.

(** The plan in closed form: for a batch size of at least 1 the [k]-th
    iteration is at offset [k * bs] and takes the window of width [bs]
    there. *)
Lemma batch_plan_closed (bs : Z) (all_rows : list RawPost) :
  1 <= bs ->
  batch_plan bs all_rows =
  Returns (map (fun k => (Z.of_nat k * bs,
                          firstn (Z.to_nat bs) (skipn (k * Z.to_nat bs) all_rows)))
               (seq 0 (Z.to_nat ((Z.of_nat (length all_rows) + bs - 1) / bs)))).
Proof.
  intros Hbs. unfold batch_plan, py_range.
  destruct (Z.eqb_spec bs 0) as [?|_]; [lia|].
  destruct (Z.ltb_spec 0 bs) as [_|?]; [|lia].
  cbn. f_equal.
  rewrite range_up_closed by lia.
  rewrite map_map. rewrite Z.sub_0_r.
  apply map_ext. intros k. rewrite Z.add_0_l. f_equal.
  unfold batch_at. rewrite py_slice_window by lia.
  replace (Z.of_nat k * bs + bs - Z.of_nat k * bs) with bs by lia.
  replace (Z.to_nat (Z.of_nat k * bs)) with (k * Z.to_nat bs)%nat by lia.
  reflexivity.
Qed.

End Batching.

Section BatchingClaims.

Context {RawPost : Type}.

Lemma ceil_div_bounds (L B : Z) :
  1 <= B -> 0 <= L ->
  let n := (L + B - 1) / B in
  0 <= n /\ (n - 1) * B < L /\ L <= n * B.
Proof.
  intros HB HL n. subst n.
  pose proof (Z.div_mod (L + B - 1) B ltac:(lia)) as Hdm.
  pose proof (Z.mod_pos_bound (L + B - 1) B ltac:(lia)) as Hmod.
  assert (0 <= (L + B - 1) / B) by (apply Z.div_pos; lia).
  nia.
Qed.

Lemma nth_error_map_seq {X : Type} (f : nat -> X) (n k : nat) (x : X) :
  nth_error (map f (seq 0 n)) k = Some x -> (k < n)%nat /\ x = f k.
Proof.
  intros H.
  assert (Hk : (k < n)%nat).
  { assert (Hlen : (k < length (map f (seq 0 n)))%nat)
      by (apply nth_error_Some; congruence).
    now rewrite length_map, length_seq in Hlen. }
  split; [exact Hk|].
  rewrite (nth_error_map f) in H.
  rewrite nth_error_seq in H.
  destruct (Nat.ltb_spec k n); [|lia].
  cbn in H. congruence.
Qed.

(** The plan of a batch size of at least 1, in full. *)
Lemma batch_plan_partition (B : Z) (all_rows : list RawPost) :
  1 <= B ->
  let L := Z.of_nat (length all_rows) in
  exists plan : list (Z * list RawPost),
    batch_plan B all_rows = Returns plan /\
    Z.of_nat (length plan) = (L + B - 1) / B /\
    (forall (k : nat) (i : Z) (s : list RawPost),
        nth_error plan k = Some (i, s) ->
        i = Z.of_nat k * B /\
        s = firstn (Z.to_nat B) (skipn (Z.to_nat i) all_rows) /\
        1 <= Z.of_nat (length s) <= B /\
        ((S k < length plan)%nat -> Z.of_nat (length s) = B)) /\
    concat (map snd plan) = all_rows.
Proof.
  intros HB L.
  destruct (ceil_div_bounds L B HB ltac:(lia)) as (Hn0 & Hlo & Hhi).
  set (n := (L + B - 1) / B) in *.
  eexists. split; [apply batch_plan_closed; exact HB|].
  fold L. fold n.
  split; [rewrite length_map, length_seq; lia|].
  split.
  - intros k i s Hk.
    apply nth_error_map_seq in Hk as [Hlt Heq].
    injection Heq as -> ->.
    rewrite length_map, length_seq.
    split; [reflexivity|].
    split; [f_equal; f_equal; lia|].
    rewrite length_firstn, length_skipn.
    assert (Z.of_nat k * B < L) by nia.
    split; [nia|]. intros Hlast.
    assert ((Z.of_nat k + 1) * B < L) by nia.
    nia.
  - rewrite map_map. cbn [snd].
    rewrite concat_windows. apply firstn_all2. nia.
Qed.

(** The slices the loop has sent are the slices of the iterations it has
    made: a prefix of the plan, and all of it when the loop ends
    normally. *)
Lemma batch_loop_sent {Analysis : Type} (g : namespace)
    (svc : Service RawPost Analysis) (args : Args) (bs : Z)
    (plan : list (Z * list RawPost)) :
  forall st : Progress RawPost Analysis,
  exists n : nat,
    sent (fst (batch_loop g svc args bs plan st))
      = sent st ++ map snd (firstn n plan) /\
    (snd (batch_loop g svc args bs plan st) = Returns tt -> firstn n plan = plan).
Proof.
  induction plan as [|[i batch] rest IH]; intros st.
  - exists 0%nat. cbn. now rewrite app_nil_r.
  - cbn [batch_loop].
    destruct (ended (analyze_batch_with_openai g svc args i batch)) as [results|e].
    + match goal with |- context [batch_loop _ _ _ _ rest ?st0] =>
        destruct (IH st0) as (n & Hs & Hr) end.
      exists (S n). cbn [firstn map snd]. split.
      * rewrite Hs. cbn [sent]. now rewrite <- app_assoc.
      * intros Hret. now rewrite (Hr Hret).
    + destruct (resolve g "sys") as [[]|ne].
      * match goal with |- context [batch_loop _ _ _ _ rest ?st0] =>
          destruct (IH st0) as (n & Hs & Hr) end.
        exists (S n). cbn [firstn map snd]. split.
        -- rewrite Hs. cbn [sent]. now rewrite <- app_assoc.
        -- intros Hret. now rewrite (Hr Hret).
      * exists 1%nat. cbn. split; [reflexivity|discriminate].
Qed.

End BatchingClaims.

Example batch_plan_3_by_2 :
  batch_plan 2 [10; 20; 30]%nat = Returns [(0, [10; 20]%nat); (2, [30]%nat)].
Proof. reflexivity. Qed.

(** ** The retry policy and a batch that fails *)

Example wait_exponential_table :
  map (wait_exponential 1 1 20) [1; 2; 3; 4; 5; 6; 7] = [1; 2; 4; 8; 16; 20; 20].
Proof. reflexivity. Qed.

(** [more] allows exactly the attempts below the stop condition: started at
    attempt 1 with [max_attempts - 1], the loop stops at the first attempt
    for which [stop_after_attempt max_attempts] holds. *)
Lemma retry_loop_exhausted {R : Type} (w : Z -> Z) (f : nat -> outcome R) (more : nat) :
  forall attempt : nat,
    (forall a : nat, (attempt <= a <= attempt + more)%nat -> exists e, f a = Raises e) ->
    let r := retry_loop w more attempt f in
    attempts r = seq attempt (S more) /\
    waits r = map (fun a => w (Z.of_nat a)) (seq attempt more) /\
    (exists e, f (attempt + more)%nat = Raises e /\ ended r = Raises (RetryError e)) /\
    stop_after_attempt (attempt + more) (List.last (attempts r) 0%nat) = true /\
    Forall (fun a => stop_after_attempt (attempt + more) a = false)
           (removelast (attempts r)).
Proof.
  induction more as [|more IH]; intros attempt Hfail.
  - destruct (Hfail attempt ltac:(lia)) as [e He].
    cbn. rewrite He. cbn. rewrite Nat.add_0_r.
    repeat split; try reflexivity.
    + exists e. split; [exact He|reflexivity].
    + unfold stop_after_attempt. apply Nat.leb_refl.
    + constructor.
  - destruct (Hfail attempt ltac:(lia)) as [e He].
    cbn [retry_loop]. rewrite He.
    destruct (IH (S attempt)) as (Ha & Hw & (e' & He' & Hend) & Hstop & Hbefore).
    { intros a Ha. apply Hfail. lia. }
    cbn zeta in *. cbn [attempts waits ended].
    replace (attempt + S more)%nat with (S attempt + more)%nat by lia.
    rewrite Ha, Hw in *.
    repeat split.
    + exists e'. split; assumption.
    + exact Hstop.
    + cbn [removelast seq] in *. constructor; [|exact Hbefore].
      unfold stop_after_attempt. apply Nat.leb_gt. lia.
Qed.

Section FailedBatch.

Context {RawPost Analysis : Type}.
Variable g : namespace.
Variable svc : Service RawPost Analysis.
Variable args : Args.

(** The decorated call on such a batch: 6 attempts, the waits 1, 2, 4, 8,
    16 between them, then [RetryError]. *)
Lemma failed_batch_is_retried (i : Z) (batch : list RawPost) :
  fails_every_attempt g svc args i batch ->
  let r := analyze_batch_with_openai g svc args i batch in
  attempts r = [1; 2; 3; 4; 5; 6]%nat /\
  waits r = [1; 2; 4; 8; 16] /\
  exists e, ended r = Raises (RetryError e).
Proof.
  intros Hfail r.
  destruct (retry_loop_exhausted (wait_exponential 1 1 20)
              (fun a => analyze_batch_body g svc args i a batch) 5 1)
    as (Ha & Hw & (e & _ & He) & _).
  { intros a Ha. apply Hfail. unfold max_attempts. lia. }
  cbn zeta in *. unfold r, analyze_batch_with_openai.
  change (max_attempts - 1)%nat with 5%nat.
  rewrite Ha, Hw. repeat split. now exists e.
Qed.

(** In a module where [sys] is bound the loop visits every iteration of the
    plan: each adds its own results or its own message, whatever happened to
    the others. *)
Lemma batch_loop_when_sys_is_bound (bs : Z) (plan : list (Z * list RawPost)) :
  resolve g "sys" = Returns tt ->
  forall st : Progress RawPost Analysis,
    let run := batch_loop g svc args bs plan st in
    snd run = Returns tt /\
    analyses (fst run) = analyses st ++ concat (map (batch_results g svc args) plan) /\
    stderr (fst run) = stderr st ++ concat (map (batch_messages g svc args bs) plan) /\
    sent (fst run) = sent st ++ map snd plan.
Proof.
  intros Hsys. induction plan as [|[i batch] rest IH]; intros st.
  - cbn. now rewrite !app_nil_r.
  - cbn [batch_loop map concat]. unfold batch_results at 1, batch_messages at 1. cbn [fst snd].
    rewrite Hsys.
    destruct (ended (analyze_batch_with_openai g svc args i batch)) as [results|e].
    + match goal with |- context [batch_loop _ _ _ _ rest ?st0] =>
        destruct (IH st0) as (Ho & Ha & He & Hs) end.
      cbn zeta in *. rewrite Ho, Ha, He, Hs. cbn [analyses stderr sent].
      now rewrite <- !app_assoc.
    + match goal with |- context [batch_loop _ _ _ _ rest ?st0] =>
        destruct (IH st0) as (Ho & Ha & He & Hs) end.
      cbn zeta in *. rewrite Ho, Ha, He, Hs. cbn [analyses stderr sent].
      now rewrite <- !app_assoc.
Qed.

(** So there, a batch that fails on every attempt is skipped: its message,
    with the offsets [i] and [i + bs], is printed, it adds no result, and
    the iterations before and after it add what they add in any run. *)
Lemma failed_batch_is_skipped_when_sys_is_bound (bs i : Z) (batch : list RawPost)
    (before after : list (Z * list RawPost)) (st : Progress RawPost Analysis) :
  resolve g "sys" = Returns tt ->
  fails_every_attempt g svc args i batch ->
  let run := batch_loop g svc args bs (before ++ (i, batch) :: after) st in
  snd run = Returns tt /\
  analyses (fst run)
    = analyses st ++ concat (map (batch_results g svc args) before)
                  ++ concat (map (batch_results g svc args) after) /\
  exists e : exn,
    In ("[error] OpenAI analysis failed for batch " +:+ str_of_int i +:+ "-"
          +:+ str_of_int (i + bs) +:+ ": " +:+ str_of_exn (RetryError e))
       (stderr (fst run)).
Proof.
  intros Hsys Hfail run.
  destruct (batch_loop_when_sys_is_bound bs (before ++ (i, batch) :: after) Hsys st)
    as (Ho & Ha & He & _).
  destruct (failed_batch_is_retried i batch Hfail) as (_ & _ & e & Hend).
  fold run in Ho, Ha, He. split; [exact Ho|]. split.
  - rewrite Ha, map_app, concat_app. cbn [map concat].
    unfold batch_results at 2. cbn [fst snd]. rewrite Hend. reflexivity.
  - exists e. rewrite He, map_app, concat_app. cbn [map concat].
    unfold batch_messages at 2. cbn [fst snd]. rewrite Hend.
    apply in_or_app. right. apply in_or_app. right. left. reflexivity.
Qed.

(** In a module where [sys] is not bound the handler raises [NameError]:
    the first batch whose call ends in an exception ends the loop, with
    nothing printed and the iterations after it not made. *)
Lemma batch_loop_when_sys_is_unbound (bs : Z) (i : Z) (batch : list RawPost)
    (rest : list (Z * list RawPost)) (st : Progress RawPost Analysis) (e : exn) :
  resolve g "sys" = Raises (NameError "sys") ->
  ended (analyze_batch_with_openai g svc args i batch) = Raises e ->
  let run := batch_loop g svc args bs ((i, batch) :: rest) st in
  snd run = Raises (NameError "sys") /\
  analyses (fst run) = analyses st /\
  stderr (fst run) = stderr st /\
  sent (fst run) = sent st ++ [batch].
Proof.
  intros Hsys He. cbn [batch_loop]. rewrite He, Hsys. cbn. repeat split.
Qed.

End FailedBatch.

Example sys_is_unbound : resolve analysis_globals "sys" = Raises (NameError "sys").
Proof. reflexivity. Qed.

Example os_is_unbound : resolve analysis_globals "os" = Raises (NameError "os").
Proof. reflexivity. Qed.

(** C3, on the code. The first batch of the outage run fails on all 6
    attempts. The handler of line 185 then reads [sys], which [analysis.py]
    never imports: the run ends in [NameError] with nothing printed and the
    second batch never sent. *)
Theorem failed_batch_aborts_run :
  fails_every_attempt analysis_globals outage_service outage_args 0 ["p1"] /\
  extraction analysis_globals outage_service outage_args outage_posts =
    ({| analyses := [];
        stderr := [];
        slept := [1; 2; 4; 8; 16];
        calls := [(0, 1%nat); (0, 2%nat); (0, 3%nat); (0, 4%nat); (0, 5%nat); (0, 6%nat)];
        sent := [["p1"]] |},
     Raises (NameError "sys")).
Proof.
  split.
  - intros a _. exists (ServiceError "timed out"). reflexivity.
  - reflexivity.
Qed.

(** The same run in a module that also binds [sys]: the failure is printed
    with the range 0-1 and the second batch is analysed. *)
Example failed_batch_skipped_when_sys_is_bound :
  extraction ("sys" :: analysis_globals) outage_service outage_args outage_posts =
    ({| analyses := ["analysis of p2"];
        stderr := ["[error] OpenAI analysis failed for batch 0-1: RetryError[timed out]"];
        slept := [1; 2; 4; 8; 16];
        calls := [(0, 1%nat); (0, 2%nat); (0, 3%nat); (0, 4%nat); (0, 5%nat); (0, 6%nat);
                  (1, 1%nat)];
        sent := [["p1"]; ["p2"]] |},
     Returns tt).
Proof. reflexivity. Qed.

(** With the default command line [args.model] is [None], so every attempt
    of every batch raises [NameError] for [os] before the service is
    called. *)
Example default_model_reads_os (svc : Service string string) (i : Z) (a : nat)
    (batch : list string) :
  make_client svc i a = Returns tt ->
  analyze_batch_body analysis_globals svc
    {| batch_size := 20; model := None; table := "csv"; md_top := 50 |} i a batch
  = Raises (NameError "os").
Proof. intros H. unfold analyze_batch_body. rewrite H. reflexivity. Qed.

(** ** Per-post writers without analyses *)

Lemma py_slice_nil {A : Type} (lo hi : Z) : py_slice (@nil A) lo hi = [].
Proof. unfold py_slice. now rewrite skipn_nil, firstn_nil. Qed.

(** C9. With no analysis the Markdown writer writes the header line and the
    separator line and nothing else, whatever [top_n] is. *)
Theorem md_of_no_analysis (top_n : Z) :
  _write_per_post_md [] top_n =
  [ "| post_id | subreddit | title | sentiment | severity_1to5 | target_audience | primary_topic_tags | problem_statements | questions_users_ask | proposed_solutions | useful_links | dedupe_key |" +:+ nl;
    "|---|---|---|---|---|---|---|---|---|---|---|---|" +:+ nl ].
Proof.
  unfold _write_per_post_md. cbn [map]. rewrite py_slice_nil. reflexivity.
Qed.

(** The Markdown file always starts with these two lines, and has one line
    for each of the first max(1, top_n) analyses. *)
Lemma md_line_count (analyses : list AnalysisResult) (top_n : Z) :
  Z.of_nat (length (_write_per_post_md analyses top_n))
  = 2 + Z.min (Z.of_nat (length analyses)) (Z.max 1 top_n).
Proof.
  unfold _write_per_post_md. cbn [length]. rewrite length_map.
  rewrite py_slice_window by lia.
  rewrite length_firstn, length_skipn, length_map. lia.
Qed.

(** C7, on the code. With no analysis [_write_per_post_csv] writes the
    header of the fallback columns and then one record of twelve empty
    values: the row it made up to get the header from is written by the
    [for r in rows] loop like any other. *)
Theorem csv_of_no_analysis_has_a_blank_record :
  _write_per_post_csv [] =
  ([ map CStr fallback_columns;
     [CStr ""; CStr ""; CStr ""; CStr ""; CStr ""; CStr "";
      CStr ""; CStr ""; CStr ""; CStr ""; CStr ""; CStr ""] ],
   Returns tt).
Proof. reflexivity. Qed.

(** ** The dict of buckets *)

Section Dict.

Context {V : Type}.
Implicit Types (d : list (string * V)) (k : string).

Lemma dict_get_app d d' k :
  dict_get k (d ++ d') =
  match dict_get k d with Some v => Some v | None => dict_get k d' end.
Proof.
  induction d as [|[k0 v0] d IH]; [reflexivity|].
  cbn. destruct (String.eqb k k0); [reflexivity|exact IH].
Qed.

Lemma dict_get_None d k : dict_get k d = None <-> ~ In k (map fst d).
Proof.
  induction d as [|[k0 v0] d IH]; cbn.
  - tauto.
  - destruct (String.eqb_spec k k0) as [->|Hne].
    + split; [discriminate|]. intros H. exfalso. apply H. now left.
    + rewrite IH. split; [intros H [Heq|Hin]; [congruence|tauto]|tauto].
Qed.

Lemma dict_get_In d k v :
  List.NoDup (map fst d) -> In (k, v) d -> dict_get k d = Some v.
Proof.
  induction d as [|[k0 v0] d IH]; cbn; [tauto|].
  intros Hnd [Heq|Hin].
  - injection Heq as -> ->. now rewrite String.eqb_refl.
  - apply List.NoDup_cons_iff in Hnd as [Hfresh Hnd].
    destruct (String.eqb_spec k k0) as [->|Hne].
    + exfalso. apply Hfresh. change k0 with (fst (k0, v)). now apply in_map.
    + now apply IH.
Qed.

Lemma dict_get_Some_In d k v : dict_get k d = Some v -> In (k, v) d.
Proof.
  induction d as [|[k0 v0] d IH]; cbn; [discriminate|].
  destruct (String.eqb_spec k k0) as [->|Hne].
  - intros [= ->]. now left.
  - intros H. right. now apply IH.
Qed.

Lemma dict_get_setdefault d k k' v :
  dict_get k' (dict_setdefault k v d) =
  match dict_get k' d with
  | Some w => Some w
  | None => if String.eqb k' k then Some v else None
  end.
Proof.
  unfold dict_setdefault. destruct (dict_get k d) as [w|] eqn:Hk.
  - destruct (dict_get k' d) as [w'|] eqn:Hk'; [reflexivity|].
    destruct (String.eqb_spec k' k) as [->|_]; [congruence|reflexivity].
  - rewrite dict_get_app. cbn. reflexivity.
Qed.

Lemma dict_get_alter (f : V -> V) d k k' :
  dict_get k' (dict_alter f k d) =
  if String.eqb k' k then option_map f (dict_get k d) else dict_get k' d.
Proof.
  induction d as [|[k0 v0] d IH]; cbn.
  - now destruct (String.eqb k' k).
  - destruct (String.eqb_spec k k0) as [E|Hne]; cbn.
    + subst k0. destruct (String.eqb k' k); reflexivity.
    + destruct (String.eqb_spec k' k0) as [E'|Hne'].
      * subst k0. destruct (String.eqb_spec k' k) as [E|_]; [congruence|reflexivity].
      * exact IH.
Qed.

Lemma dict_alter_keys (f : V -> V) d k : map fst (dict_alter f k d) = map fst d.
Proof.
  induction d as [|[k0 v0] d IH]; [reflexivity|].
  cbn. destruct (String.eqb k k0); cbn; [reflexivity|now rewrite IH].
Qed.

Lemma dict_setdefault_keys d k v :
  List.NoDup (map fst d) -> List.NoDup (map fst (dict_setdefault k v d)).
Proof.
  intros Hnd. unfold dict_setdefault.
  destruct (dict_get k d) as [w|] eqn:Hk; [exact Hnd|].
  rewrite map_app. cbn. apply dict_get_None in Hk.
  apply List.NoDup_app; [exact Hnd| |].
  - apply List.NoDup_cons; [intros []|constructor].
  - intros x Hx [<-|[]]. exact (Hk Hx).
Qed.

End Dict.

(** ** Aggregation: the bucket of a key *)

Lemma truthy_false (s : string) : truthy s = false <-> s = "".
Proof. destruct s; cbn; split; congruence. Qed.

Lemma truthy_true (s : string) : truthy s = true <-> s <> "".
Proof. destruct s; cbn; split; congruence. Qed.

Lemma dict_get_add_result (buckets : Buckets) (r : AnalysisResult) (k : string) :
  dict_get k (add_result buckets r) =
  if truthy (bucket_key r) && String.eqb k (bucket_key r)
  then Some (absorb r (get (dict_get k buckets) new_bucket))
  else dict_get k buckets.
Proof.
  unfold add_result. destruct (truthy (bucket_key r)); [|reflexivity].
  cbn [andb]. rewrite dict_get_alter.
  destruct (String.eqb_spec k (bucket_key r)) as [E|Hne].
  - subst k. rewrite dict_get_setdefault, String.eqb_refl.
    now destruct (dict_get (bucket_key r) buckets).
  - rewrite dict_get_setdefault.
    destruct (dict_get k buckets); [reflexivity|].
    destruct (String.eqb_spec k (bucket_key r)); [contradiction|reflexivity].
Qed.

Lemma add_result_blank (buckets : Buckets) (r : AnalysisResult) :
  truthy (bucket_key r) = false -> add_result buckets r = buckets.
Proof. intros H. unfold add_result. now rewrite H. Qed.

Lemma add_result_keys (buckets : Buckets) (r : AnalysisResult) :
  List.NoDup (map fst buckets) -> List.NoDup (map fst (add_result buckets r)).
Proof.
  intros Hnd. unfold add_result. destruct (truthy (bucket_key r)); [|exact Hnd].
  rewrite dict_alter_keys. now apply dict_setdefault_keys.
Qed.

Lemma fold_add_result_keys (l : list AnalysisResult) :
  forall buckets : Buckets,
    List.NoDup (map fst buckets) ->
    List.NoDup (map fst (fold_left add_result l buckets)).
Proof.
  induction l as [|r l IH]; intros buckets Hnd; [exact Hnd|].
  cbn. apply IH. now apply add_result_keys.
Qed.

Lemma aggregate_keys_unique (l : list AnalysisResult) :
  List.NoDup (map fst (aggregate l)).
Proof. apply fold_add_result_keys. constructor. Qed.

Lemma absorb_into_cons (ob : option Bucket) (r : AnalysisResult) (rs : list AnalysisResult) :
  absorb_into ob (r :: rs) = absorb_into (Some (absorb r (get ob new_bucket))) rs.
Proof. destruct ob, rs; reflexivity. Qed.

Lemma dict_get_fold_add_result (l : list AnalysisResult) (k : string) :
  truthy k = true ->
  forall buckets : Buckets,
    dict_get k (fold_left add_result l buckets)
    = absorb_into (dict_get k buckets) (contributing k l).
Proof.
  intros Hk. induction l as [|r l IH]; intros buckets.
  - cbn. now destruct (dict_get k buckets).
  - cbn [fold_left]. rewrite IH, dict_get_add_result.
    unfold contributing. cbn [List.filter].
    destruct (String.eqb_spec (bucket_key r) k) as [E|Hne].
    + rewrite E, Hk, String.eqb_refl. cbn [andb].
      now rewrite absorb_into_cons.
    + destruct (String.eqb_spec k (bucket_key r)) as [E|_]; [congruence|].
      now rewrite andb_false_r.
Qed.

Lemma dict_get_fold_add_result_blank (l : list AnalysisResult) :
  forall buckets : Buckets,
    dict_get "" (fold_left add_result l buckets) = dict_get "" buckets.
Proof.
  induction l as [|r l IH]; intros buckets; [reflexivity|].
  cbn [fold_left]. rewrite IH, dict_get_add_result.
  destruct (String.eqb_spec "" (bucket_key r)) as [E|_].
  - rewrite <- E. reflexivity.
  - now rewrite andb_false_r.
Qed.

(** The bucket at [k] is made of the results whose key is [k], in their
    order, and of nothing else; there is no bucket for the empty key. *)
Lemma aggregate_lookup (l : list AnalysisResult) (k : string) :
  dict_get k (aggregate l) =
  match contributing k l with
  | [] => None
  | rs => if truthy k then Some (absorb_all rs new_bucket) else None
  end.
Proof.
  unfold aggregate. destruct (truthy k) eqn:Hk.
  - rewrite dict_get_fold_add_result by exact Hk. cbn.
    now destruct (contributing k l).
  - apply truthy_false in Hk. subst k.
    rewrite dict_get_fold_add_result_blank. cbn.
    now destruct (contributing "" l).
Qed.

(** ** What a bucket holds *)

Lemma fold_add_links (urls : list string) (X : gset string) :
  fold_left (fun acc url => acc ∪ {[ url ]}) urls X = X ∪ list_to_set urls.
Proof.
  revert X. induction urls as [|u urls IH]; intros X; cbn [fold_left].
  - set_solver.
  - rewrite IH. set_solver.
Qed.

Lemma absorb_all_count (rs : list AnalysisResult) :
  forall b, count (absorb_all rs b) = count b + Z.of_nat (length rs).
Proof.
  induction rs as [|r rs IH]; intros b; cbn [absorb_all fold_left length].
  - lia.
  - fold (absorb_all rs (absorb r b)). rewrite IH. cbn [absorb count]. lia.
Qed.

Lemma absorb_all_severity_sum (rs : list AnalysisResult) :
  forall b, severity_sum (absorb_all rs b) = severity_sum b + sum_Z (map severity_of rs).
Proof.
  induction rs as [|r rs IH]; intros b; cbn [absorb_all fold_left map sum_Z fold_right].
  - lia.
  - fold (absorb_all rs (absorb r b)). rewrite IH. cbn [absorb severity_sum].
    unfold severity_of at 2. fold (sum_Z (map severity_of rs)). lia.
Qed.

Lemma absorb_all_audiences (rs : list AnalysisResult) :
  forall b, audiences (absorb_all rs b)
            = audiences b ∪ list_to_set (map (fun r => get (target_audience r) "") rs).
Proof.
  induction rs as [|r rs IH]; intros b; cbn [absorb_all fold_left map].
  - set_solver.
  - fold (absorb_all rs (absorb r b)). rewrite IH. cbn [absorb audiences]. set_solver.
Qed.

Lemma absorb_all_tags (rs : list AnalysisResult) :
  forall b, tags (absorb_all rs b)
            = tags b ∪ list_to_set (concat (map (fun r => get (primary_topic_tags r) []) rs)).
Proof.
  induction rs as [|r rs IH]; intros b; cbn [absorb_all fold_left map concat].
  - set_solver.
  - fold (absorb_all rs (absorb r b)). rewrite IH. cbn [absorb tags].
    rewrite list_to_set_app_L. set_solver.
Qed.

Lemma absorb_all_links (rs : list AnalysisResult) :
  forall b, links (absorb_all rs b)
            = links b ∪ list_to_set (concat (map (fun r => get (useful_links r) []) rs)).
Proof.
  induction rs as [|r rs IH]; intros b; cbn [absorb_all fold_left map concat].
  - set_solver.
  - fold (absorb_all rs (absorb r b)). rewrite IH. cbn [absorb links].
    rewrite fold_add_links, list_to_set_app_L. set_solver.
Qed.

Lemma absorb_all_examples (rs : list AnalysisResult) :
  forall b, (length (examples b) <= 5)%nat ->
    examples (absorb_all rs b) = firstn 5 (examples b ++ map example_of rs).
Proof.
  induction rs as [|r rs IH]; intros b Hb; cbn [absorb_all fold_left map].
  - rewrite app_nil_r. symmetry. now apply firstn_all2.
  - fold (absorb_all rs (absorb r b)). rewrite IH; cbn [absorb examples].
    + destruct (Z.ltb_spec (Z.of_nat (length (examples b))) 5) as [Hlt|Hge].
      * now rewrite <- app_assoc.
      * rewrite !firstn_app.
        replace (5 - length (examples b))%nat with 0%nat by lia.
        reflexivity.
    + destruct (Z.ltb_spec (Z.of_nat (length (examples b))) 5) as [Hlt|Hge];
        [rewrite length_app; cbn; lia|lia].
Qed.

(** ** Blank keys *)

Lemma lower_char_space (c : ascii) : is_space (lower_char c) = is_space c.
Proof. destruct c as [[] [] [] [] [] [] [] []]; reflexivity. Qed.

Lemma all_space_lower (s : string) : all_space (py_lower s) = all_space s.
Proof.
  induction s as [|c s IH]; [reflexivity|].
  cbn. now rewrite lower_char_space, IH.
Qed.

Lemma all_space_lstrip (s : string) : all_space (py_lstrip s) = all_space s.
Proof.
  induction s as [|c s IH]; [reflexivity|].
  cbn. destruct (is_space c) eqn:Hc; [exact IH|].
  cbn. now rewrite Hc.
Qed.

Lemma rstrip_empty (s : string) : py_rstrip s = "" <-> all_space s = true.
Proof.
  induction s as [|c s IH]; [cbn; tauto|].
  cbn. destruct (py_rstrip s) as [|c' t] eqn:Hr.
  - destruct (is_space c); cbn.
    + split; [intros _; now apply IH|reflexivity].
    + split; discriminate.
  - split; [discriminate|].
    intros H. apply andb_true_iff in H as [_ H]. apply IH in H. discriminate.
Qed.

Lemma strip_empty (s : string) : py_strip s = "" <-> all_space s = true.
Proof. unfold py_strip. now rewrite rstrip_empty, all_space_lstrip. Qed.

(** The grouping key is empty exactly for an absent, empty or
    whitespace-only [dedupe_key]. *)
Lemma bucket_key_blank (r : AnalysisResult) :
  truthy (bucket_key r) = negb (blank_key r).
Proof.
  unfold bucket_key, blank_key, get.
  destruct (dedupe_key r) as [s|]; [|reflexivity].
  destruct (all_space s) eqn:Hs; cbn.
  - apply truthy_false, strip_empty. now rewrite all_space_lower.
  - apply truthy_true. intros H. apply strip_empty in H.
    rewrite all_space_lower in H. congruence.
Qed.

(** ** Each keyed result is counted once *)

Lemma sum_Z_app (l l' : list Z) : sum_Z (l ++ l') = sum_Z l + sum_Z l'.
Proof. induction l as [|x l IH]; cbn; [reflexivity|]. fold (sum_Z (l ++ l')). fold (sum_Z l). lia. Qed.

Lemma total_count_setdefault (buckets : Buckets) (k : string) :
  total_count (dict_setdefault k new_bucket buckets) = total_count buckets.
Proof.
  unfold dict_setdefault. destruct (dict_get k buckets); [reflexivity|].
  unfold total_count. rewrite map_app, sum_Z_app. cbn. lia.
Qed.

Lemma total_count_alter (f : Bucket -> Bucket) (buckets : Buckets) (k : string) (b : Bucket) :
  dict_get k buckets = Some b ->
  total_count (dict_alter f k buckets) = total_count buckets + count (f b) - count b.
Proof.
  unfold total_count. induction buckets as [|[k0 b0] buckets IH]; cbn; [discriminate|].
  destruct (String.eqb_spec k k0) as [E|Hne].
  - intros [= ->]. cbn. fold (sum_Z (map (fun kb => count (snd kb)) buckets)). lia.
  - intros Hk. cbn. specialize (IH Hk).
    fold (sum_Z (map (fun kb => count (snd kb)) (dict_alter f k buckets))).
    fold (sum_Z (map (fun kb => count (snd kb)) buckets)). lia.
Qed.

Lemma total_count_add_result (buckets : Buckets) (r : AnalysisResult) :
  total_count (add_result buckets r)
  = total_count buckets + (if truthy (bucket_key r) then 1 else 0).
Proof.
  unfold add_result. destruct (truthy (bucket_key r)); [|lia].
  pose proof (dict_get_setdefault buckets (bucket_key r) (bucket_key r) new_bucket) as Hget.
  rewrite String.eqb_refl in Hget.
  destruct (dict_get (bucket_key r) (dict_setdefault (bucket_key r) new_bucket buckets))
    as [b|] eqn:Hb.
  - rewrite (total_count_alter _ _ _ b Hb), total_count_setdefault. cbn [absorb count]. lia.
  - destruct (dict_get (bucket_key r) buckets); discriminate.
Qed.

Lemma total_count_fold (l : list AnalysisResult) :
  forall buckets : Buckets,
    total_count (fold_left add_result l buckets)
    = total_count buckets + Z.of_nat (length (keyed l)).
Proof.
  induction l as [|r l IH]; intros buckets; cbn [fold_left keyed List.filter length]; [lia|].
  rewrite IH, total_count_add_result. fold (keyed l).
  destruct (truthy (bucket_key r)); cbn [length]; lia.
Qed.

Lemma contributing_app (k : string) (l l' : list AnalysisResult) :
  contributing k (l ++ l') = contributing k l ++ contributing k l'.
Proof. apply List.filter_app. Qed.

Lemma contributing_cons_same (r : AnalysisResult) (l : list AnalysisResult) :
  contributing (bucket_key r) (r :: l) = r :: contributing (bucket_key r) l.
Proof. unfold contributing. cbn [List.filter]. now rewrite String.eqb_refl. Qed.

Lemma contributing_cons_other (k : string) (r : AnalysisResult) (l : list AnalysisResult) :
  k <> bucket_key r -> contributing k (r :: l) = contributing k l.
Proof.
  intros Hne. unfold contributing. cbn [List.filter].
  destruct (String.eqb_spec (bucket_key r) k); [congruence|reflexivity].
Qed.

Lemma count_at_aggregate (l : list AnalysisResult) (k : string) :
  count_at k (aggregate l)
  = if truthy k then Z.of_nat (length (contributing k l)) else 0.
Proof.
  unfold count_at. rewrite aggregate_lookup.
  destruct (contributing k l) as [|r rs] eqn:Hc.
  - now destruct (truthy k).
  - destruct (truthy k); [|reflexivity].
    rewrite absorb_all_count. cbn [new_bucket count]. lia.
Qed.

(** Each key names one bucket and the empty key names none; the counts of
    all buckets add up to the number of results with a non-blank
    [dedupe_key]; and what one result adds to the buckets. *)
Lemma aggregate_by_key (analyses : list AnalysisResult) :
  List.NoDup (map fst (aggregate analyses)) /\
  dict_get "" (aggregate analyses) = None /\
  total_count (aggregate analyses) = Z.of_nat (length (keyed analyses)) /\
  forall (before after : list AnalysisResult) (r : AnalysisResult),
    analyses = before ++ r :: after ->
    if blank_key r
    then aggregate analyses = aggregate (before ++ after)
    else
      let k := py_strip (py_lower (get (dedupe_key r) "")) in
      k <> "" /\
      (exists b : Bucket,
          dict_get k (aggregate analyses) = Some b /\
          count b = count_at k (aggregate (before ++ after)) + 1) /\
      forall k' : string, k' <> k ->
        dict_get k' (aggregate analyses) = dict_get k' (aggregate (before ++ after)).
Proof.
  split; [apply aggregate_keys_unique|].
  split; [unfold aggregate; apply dict_get_fold_add_result_blank|].
  split; [unfold aggregate; rewrite total_count_fold; cbn; lia|].
  intros before after r ->.
  pose proof (bucket_key_blank r) as Hblank.
  destruct (blank_key r); cbn [negb] in Hblank.
  - unfold aggregate. rewrite !fold_left_app. cbn [fold_left].
    now rewrite add_result_blank.
  - fold (bucket_key r). cbn zeta.
    split; [now apply truthy_true|]. split.
    + pose proof (count_at_aggregate (before ++ r :: after) (bucket_key r)) as Hc.
      rewrite count_at_aggregate, Hblank.
      rewrite Hblank in Hc. unfold count_at in Hc.
      rewrite !contributing_app in *. rewrite contributing_cons_same in *.
      rewrite aggregate_lookup in *. rewrite contributing_app, contributing_cons_same in *.
      destruct (contributing (bucket_key r) before ++ r :: contributing (bucket_key r) after)
        as [|r0 rs] eqn:Hrs.
      { now destruct (contributing (bucket_key r) before). }
      rewrite Hblank in *. eexists. split; [reflexivity|].
      rewrite Hc. rewrite <- Hrs. rewrite !length_app. cbn [length]. lia.
    + intros k' Hk'. rewrite !aggregate_lookup, !contributing_app.
      now rewrite contributing_cons_other.
Qed.

(** ** The aggregated CSV *)

Lemma write_each_In {A B : Type} (f : A -> outcome B) (l : list A) (y : B) :
  In y (fst (write_each f l)) -> exists x : A, In x l /\ f x = Returns y.
Proof.
  induction l as [|x l IH]; cbn; [tauto|].
  destruct (f x) as [y0|e] eqn:Hfx; cbn; [|tauto].
  destruct (write_each f l) as [ys o]. cbn in *.
  intros [<-|Hin].
  - exists x. split; [now left|exact Hfx].
  - destruct (IH Hin) as (x' & Hx' & Hf). exists x'. split; [now right|exact Hf].
Qed.

(** When nothing raises, the loop writes one record for each element, in
    order. *)
Lemma write_each_all {A B : Type} (f : A -> outcome B) (l : list A) (ys : list B) :
  Forall2 (fun x y => f x = Returns y) l ys -> write_each f l = (ys, Returns tt).
Proof.
  induction 1 as [|x y l ys Hxy _ IH]; [reflexivity|].
  cbn. now rewrite Hxy, IH.
Qed.

Lemma insert_by_perm {A : Type} (le : A -> A -> bool) (x : A) (l : list A) :
  Permutation (insert_by le x l) (x :: l).
Proof.
  induction l as [|y l IH]; cbn; [reflexivity|].
  destruct (le x y); [reflexivity|].
  rewrite IH. apply perm_swap.
Qed.

Lemma sort_by_perm {A : Type} (le : A -> A -> bool) (l : list A) :
  Permutation (sort_by le l) l.
Proof.
  induction l as [|x l IH]; cbn; [reflexivity|].
  fold (sort_by le l). rewrite insert_by_perm. now constructor.
Qed.

(** The bucket under a key of the dict, in closed form. *)
Lemma aggregate_In (analyses : list AnalysisResult) (k : string) (b : Bucket) :
  In (k, b) (aggregate analyses) ->
  truthy k = true /\
  contributing k analyses <> [] /\
  b = absorb_all (contributing k analyses) new_bucket.
Proof.
  intros Hin.
  apply (dict_get_In _ _ _ (aggregate_keys_unique analyses)) in Hin.
  rewrite aggregate_lookup in Hin.
  destruct (contributing k analyses) as [|r rs]; [discriminate|].
  destruct (truthy k); [|discriminate].
  injection Hin as <-. repeat split. discriminate.
Qed.

Lemma aggregated_row_Returns (k : string) (b : Bucket) (row : AggRow) :
  aggregated_row (k, b) = Returns row ->
  issue_key row = k /\
  posts row = count b /\
  (exists q : float,
      py_truediv (severity_sum b) (count b) = Returns q /\
      avg_severity row = py_round q 2) /\
  audiences_cell row = py_join "; " (py_sorted (List.filter truthy (elements (audiences b)))) /\
  top_tags row = py_prefix 300 (py_join "; " (py_sorted (elements (tags b)))) /\
  links_count row = Z.of_nat (size (links b)).
Proof.
  unfold aggregated_row.
  destruct (py_truediv (severity_sum b) (count b)) as [q|e]; cbn; [|discriminate].
  destruct (titles_of (examples b)) as [ts|e]; cbn; [|discriminate].
  intros [= <-]. cbn. repeat split. exists q. split; reflexivity.
Qed.

(** The records written come from the buckets, whatever the order. *)
Lemma aggregated_csv_In (analyses : list AnalysisResult) (row : AggRow) :
  In row (fst (aggregated_csv (aggregate analyses))) ->
  exists b : Bucket,
    In (issue_key row, b) (aggregate analyses) /\
    aggregated_row (issue_key row, b) = Returns row.
Proof.
  intros Hin. unfold aggregated_csv in Hin.
  apply write_each_In in Hin as ([k b] & Hkb & Hrow).
  pose proof (aggregated_row_Returns k b row Hrow) as (Hk & _).
  subst k. exists b. split; [|exact Hrow].
  eapply Permutation_in; [apply sort_by_perm|exact Hkb].
Qed.

Lemma In_firstn {A : Type} (n : nat) (l : list A) (x : A) :
  In x (firstn n l) -> In x l.
Proof.
  intros Hin. rewrite <- (firstn_skipn n l). apply in_or_app. now left.
Qed.

Lemma titles_of_Returns (es : list Example) :
  Forall (fun e => snd e <> None) es -> exists ts, titles_of es = Returns ts.
Proof.
  induction 1 as [|[sr [t|]] es Ht _ [ts IH]]; cbn.
  - now exists [].
  - rewrite IH. cbn. now exists (t :: ts).
  - now contradiction Ht.
Qed.

Lemma contributing_Forall (P : AnalysisResult -> Prop) (k : string)
    (analyses : list AnalysisResult) :
  Forall P analyses -> Forall P (contributing k analyses).
Proof.
  intros H. apply List.Forall_forall. intros r Hr.
  apply filter_In in Hr as [Hr _].
  rewrite List.Forall_forall in H. now apply H.
Qed.

Lemma exact_in_float_bound (n : Z) : 0 <= n <= 2 ^ 53 -> exact_in_float n = true.
Proof.
  intros H. unfold exact_in_float. apply Z.leb_le. rewrite Z.abs_eq; lia.
Qed.

Lemma py_truediv_exact (a b : Z) :
  b <> 0 -> exact_in_float a = true -> exact_in_float b = true ->
  py_truediv a b = Returns (PrimFloat.div (float_of_int a) (float_of_int b)).
Proof.
  intros Hb Ha Hb'. unfold py_truediv.
  destruct (Z.eqb_spec b 0) as [?|_]; [contradiction|].
  now rewrite Ha, Hb'.
Qed.

Lemma sum_Z_bounds (rs : list AnalysisResult) :
  Forall severity_in_schema rs ->
  Z.of_nat (length rs) <= sum_Z (map severity_of rs) <= 5 * Z.of_nat (length rs).
Proof.
  induction 1 as [|r rs Hr _ IH]; [cbn; lia|].
  unfold severity_in_schema in Hr. cbn [map sum_Z fold_right length].
  fold (sum_Z (map severity_of rs)). lia.
Qed.

Lemma contributing_length (k : string) (analyses : list AnalysisResult) :
  (length (contributing k analyses) <= length analyses)%nat.
Proof.
  unfold contributing. induction analyses as [|r analyses IH]; cbn; [lia|].
  destruct (String.eqb (bucket_key r) k); cbn; lia.
Qed.

(** When every result has a title and a severity inside the schema's bounds,
    every bucket gets its record. *)
Lemma aggregated_row_of_bucket (analyses : list AnalysisResult) (k : string) (b : Bucket) :
  Forall (fun r => title r <> None) analyses ->
  Forall severity_in_schema analyses ->
  Z.of_nat (length analyses) <= 2 ^ 50 ->
  In (k, b) (aggregate analyses) ->
  exists row : AggRow, aggregated_row (k, b) = Returns row /\ issue_key row = k.
Proof.
  intros Htitles Hsev Hlen Hin. apply aggregate_In in Hin as (_ & Hne & Hb).
  assert (Hcount : count b = Z.of_nat (length (contributing k analyses)))
    by (rewrite Hb, absorb_all_count; cbn; lia).
  assert (Hsum : severity_sum b = sum_Z (map severity_of (contributing k analyses)))
    by (rewrite Hb, absorb_all_severity_sum; cbn; lia).
  assert (Hpos : count b <> 0).
  { rewrite Hcount. destruct (contributing k analyses); [contradiction|cbn; lia]. }
  pose proof (contributing_length k analyses) as Hle.
  pose proof (sum_Z_bounds _ (contributing_Forall _ k _ Hsev)) as Hbounds.
  assert (Hex : Forall (fun e => snd e <> None) (examples b)).
  { rewrite Hb, absorb_all_examples by (cbn; lia). cbn [new_bucket examples app].
    apply List.Forall_forall. intros e He.
    apply In_firstn in He. apply in_map_iff in He as (r & <- & Hr).
    apply filter_In in Hr as [Hr _].
    rewrite List.Forall_forall in Htitles. now apply Htitles. }
  destruct (titles_of_Returns _ Hex) as [ts Hts].
  assert (H53 : 2 ^ 53 = 8 * 2 ^ 50) by reflexivity.
  unfold aggregated_row.
  rewrite py_truediv_exact; [|exact Hpos|apply exact_in_float_bound; lia
                             |apply exact_in_float_bound; lia].
  cbn. rewrite Hts. cbn. eexists. split; reflexivity.
Qed.

Lemma write_each_total {A B : Type} (f : A -> outcome B) (g : B -> A -> Prop) (l : list A) :
  (forall x, In x l -> exists y, f x = Returns y /\ g y x) ->
  snd (write_each f l) = Returns tt /\ Forall2 g (fst (write_each f l)) l.
Proof.
  induction l as [|x l IH]; intros Hall; cbn.
  - split; [reflexivity|constructor].
  - destruct (Hall x (or_introl eq_refl)) as (y & Hy & Hg). rewrite Hy.
    destruct IH as [Ho Hrows]; [intros x' Hx'; apply Hall; now right|].
    destruct (write_each f l) as [ys o]. cbn in *.
    split; [exact Ho|now constructor].
Qed.

Lemma Forall2_map_eq {A B C : Type} (f : A -> C) (h : B -> C) (l : list A) (l' : list B) :
  Forall2 (fun x y => f x = h y) l l' -> map f l = map h l'.
Proof.
  induction 1 as [|x y l l' Hxy _ IH]; [reflexivity|].
  cbn. now rewrite Hxy, IH.
Qed.

(** With a title and a severity inside the schema's bounds in every result,
    the aggregated CSV is written to the end: one record for each bucket, in
    the order of the sort. *)
Lemma aggregated_csv_complete (analyses : list AnalysisResult) :
  Forall (fun r => title r <> None) analyses ->
  Forall severity_in_schema analyses ->
  Z.of_nat (length analyses) <= 2 ^ 50 ->
  snd (aggregated_csv (aggregate analyses)) = Returns tt /\
  map issue_key (fst (aggregated_csv (aggregate analyses)))
    = map fst (sorted_buckets (aggregate analyses)).
Proof.
  intros Htitles Hsev Hlen. unfold aggregated_csv.
  destruct (write_each_total aggregated_row (fun row kb => issue_key row = fst kb)
              (sorted_buckets (aggregate analyses))) as [Ho Hrows].
  { intros [k b] Hin. apply (aggregated_row_of_bucket analyses k b Htitles Hsev Hlen).
    eapply Permutation_in; [apply sort_by_perm|exact Hin]. }
  split; [exact Ho|]. now apply Forall2_map_eq.
Qed.

(** [round_half_even] gives a nearest integer, and the even one at a tie. *)
Lemma round_half_even_nearest (num den : Z) :
  0 <= num -> 0 < den ->
  let n := round_half_even num den in
  0 <= n /\
  2 * Z.abs (num - n * den) <= den /\
  (2 * Z.abs (num - n * den) = den -> Z.even n = true).
Proof.
  intros Hnum Hden n. subst n. unfold round_half_even.
  pose proof (Z.div_mod num den ltac:(lia)) as Hdm.
  pose proof (Z.mod_pos_bound num den Hden) as Hr.
  pose proof (Z.div_pos num den Hnum Hden) as Hq.
  set (q := num / den) in *. set (r := num mod den) in *.
  destruct (Z.ltb_spec (2 * r) den) as [Hlt|Hge].
  - replace (num - q * den) with r by lia. rewrite Z.abs_eq by lia.
    repeat split; lia.
  - destruct (Z.ltb_spec den (2 * r)) as [Hgt|Hle].
    + replace (num - (q + 1) * den) with (- (den - r)) by lia.
      rewrite Z.abs_opp, Z.abs_eq by lia. repeat split; lia.
    + destruct (Z.even q) eqn:Heven.
      * replace (num - q * den) with r by lia. rewrite Z.abs_eq by lia.
        repeat split; (lia || (intros _; exact Heven)).
      * replace (num - (q + 1) * den) with (- (den - r)) by lia.
        rewrite Z.abs_opp, Z.abs_eq by lia.
        repeat split; try lia. intros _.
        change (q + 1) with (Z.succ q). rewrite Z.even_succ, <- Z.negb_even, Heven.
        reflexivity.
Qed.

(** What [round(q, 2)] is, from the value of [q]. *)
Lemma py_round_nearest (q : float) :
  match Prim2SF q with
  | S754_finite sign m e =>
      exists n : Z,
        0 <= n /\ nearest_hundredths m e n /\
        (n <= 2 ^ 53 ->
         py_round q 2
           = let r := PrimFloat.div (float_of_int n) (float_of_int 100) in
             if sign then PrimFloat.opp r else r)
  | _ => py_round q 2 = q
  end.
Proof.
  unfold py_round. destruct (Prim2SF q) as [s|s| |sign m e]; try reflexivity.
  change (10 ^ Z.of_nat 2) with 100.
  set (num := Z.pos m * 100 * (if 0 <=? e then 2 ^ e else 1)).
  set (den := if 0 <=? e then 1 else 2 ^ (- e)).
  assert (Hnum : num = Z.pos m * 100 * 2 ^ Z.max 0 e).
  { subst num. destruct (Z.leb_spec 0 e).
    - now rewrite Z.max_r by lia.
    - now rewrite Z.max_l by lia. }
  assert (Hden : den = 2 ^ Z.max 0 (- e)).
  { subst den. destruct (Z.leb_spec 0 e).
    - now rewrite Z.max_l by lia.
    - now rewrite Z.max_r by lia. }
  assert (H0 : 0 <= num).
  { rewrite Hnum. apply Z.mul_nonneg_nonneg; [lia|]. apply Z.pow_nonneg. lia. }
  assert (H1 : 0 < den).
  { rewrite Hden. apply Z.pow_pos_nonneg; lia. }
  destruct (round_half_even_nearest num den H0 H1) as (Hn & Hnear & Htie).
  exists (round_half_even num den). split; [exact Hn|]. split.
  - unfold nearest_hundredths. rewrite <- Hnum, <- Hden. split; assumption.
  - intros Hle. rewrite (exact_in_float_bound _ (conj Hn Hle)). reflexivity.
Qed.

(** C4. Every record of the aggregated CSV is for a key with at least one
    contributing result; [posts] is their number and [avg_severity] is the
    sum of their severities, 3 for a result without [severity_1to5], divided
    by their number and rounded to 2 decimals. The quotient is a float: the
    IEEE quotient of sum and number when both fit a float exactly. The
    rounding is of that float's own value, to a nearest hundredth [n / 100]
    (the even [n] at a tie), written as the float nearest to it. When every
    result has a title and a severity from 1 to 5, there is such a record
    for every bucket. Severities 1, 3 and 5 under one key give 3.0; a result
    without a severity next to one of severity 4 gives 3.5; severities 3, 3
    and 4 give 3.33; and forty results of mean 2.675 give 2.67, the float
    nearest to 2.675 being below it. *)
Theorem avg_severity_of_a_record :
  (forall (analyses : list AnalysisResult) (row : AggRow),
      In row (fst (aggregated_csv (aggregate analyses))) ->
      let rs := contributing (issue_key row) analyses in
      let total := sum_Z (map severity_of rs) in
      let number := Z.of_nat (length rs) in
      1 <= number /\
      posts row = number /\
      exists q : float,
        py_truediv total number = Returns q /\
        (Z.abs total <= 2 ^ 53 -> number <= 2 ^ 53 ->
         q = PrimFloat.div (float_of_int total) (float_of_int number)) /\
        avg_severity row = py_round q 2 /\
        match Prim2SF q with
        | S754_finite sign m e =>
            exists n : Z,
              0 <= n /\ nearest_hundredths m e n /\
              (n <= 2 ^ 53 ->
               avg_severity row
                 = let r := PrimFloat.div (float_of_int n) (float_of_int 100) in
                   if sign then PrimFloat.opp r else r)
        | _ => avg_severity row = q
        end) /\
  (forall analyses : list AnalysisResult,
      Forall (fun r => title r <> None) analyses ->
      Forall severity_in_schema analyses ->
      Z.of_nat (length analyses) <= 2 ^ 50 ->
      snd (aggregated_csv (aggregate analyses)) = Returns tt /\
      map issue_key (fst (aggregated_csv (aggregate analyses)))
        = map fst (sorted_buckets (aggregate analyses))) /\
  map (fun row => (issue_key row, posts row, avg_severity row))
      (fst (aggregated_csv (aggregate three_severities)))
    = [("lms mobile app crashes", 3, 3%float)] /\
  map (fun row => (issue_key row, posts row, avg_severity row))
      (fst (aggregated_csv (aggregate one_without_severity)))
    = [("course content outdated", 2, 3.5%float)] /\
  map (fun row => (issue_key row, posts row, avg_severity row))
      (fst (aggregated_csv (aggregate thirds)))
    = [("grading delays", 3, 3.33%float)] /\
  map (fun row => (issue_key row, posts row, avg_severity row))
      (fst (aggregated_csv (aggregate forty_results)))
    = [("login loops", 40, 2.67%float)].
Proof.
  split; [|split; [exact aggregated_csv_complete|repeat split; vm_compute; reflexivity]].
  intros analyses row Hin rs total number.
  apply aggregated_csv_In in Hin as (b & Hb & Hrow).
  apply aggregate_In in Hb as (_ & Hne & Hb).
  apply aggregated_row_Returns in Hrow as (_ & Hposts & (q & Hq & Havg) & _).
  fold rs in Hne, Hb.
  assert (Hcount : count b = number)
    by (subst number; rewrite Hb, absorb_all_count; cbn; lia).
  assert (Hsum : severity_sum b = total)
    by (subst total; rewrite Hb, absorb_all_severity_sum; cbn; lia).
  assert (Hpos : 1 <= number) by (subst number; destruct rs; [contradiction|cbn; lia]).
  rewrite Hsum, Hcount in Hq.
  split; [exact Hpos|]. split; [congruence|].
  exists q. split; [exact Hq|]. split; [|split; [exact Havg|]].
  - intros Ht Hn.
    rewrite py_truediv_exact in Hq.
    + now injection Hq.
    + lia.
    + unfold exact_in_float. now apply Z.leb_le.
    + apply exact_in_float_bound. lia.
  - rewrite Havg. apply py_round_nearest.
Qed.

(** C4 at the record of the three results with the severities 3, 3, 4. *)
Lemma avg_severity_of_a_record_witness :
  let row := {| issue_key := "grading delays"; posts := 3; avg_severity := 3.33%float;
                audiences_cell := ""; top_tags := "";
                example_titles := "first; second; third"; links_count := 0 |} in
  let rs := contributing (issue_key row) thirds in
  let total := sum_Z (map severity_of rs) in
  let number := Z.of_nat (length rs) in
  (In row (fst (aggregated_csv (aggregate thirds))) /\
   total = 10 /\
   1 <= number /\
   posts row = number /\
   exists q : float,
     py_truediv total number = Returns q /\
     (Z.abs total <= 2 ^ 53 -> number <= 2 ^ 53 ->
      q = PrimFloat.div (float_of_int total) (float_of_int number)) /\
     avg_severity row = py_round q 2 /\
     match Prim2SF q with
     | S754_finite sign m e =>
         exists n : Z,
           0 <= n /\ nearest_hundredths m e n /\
           (n <= 2 ^ 53 ->
            avg_severity row
              = let r := PrimFloat.div (float_of_int n) (float_of_int 100) in
                if sign then PrimFloat.opp r else r)
     | _ => avg_severity row = q
     end) /\
  (Forall (fun r => title r <> None) thirds /\
   Forall severity_in_schema thirds /\
   Z.of_nat (length thirds) <= 2 ^ 50 /\
   snd (aggregated_csv (aggregate thirds)) = Returns tt /\
   map issue_key (fst (aggregated_csv (aggregate thirds)))
     = map fst (sorted_buckets (aggregate thirds))).
Proof.
  intros row rs total number.
  assert (Hin : In row (fst (aggregated_csv (aggregate thirds))))
    by (vm_compute; left; reflexivity).
  assert (Ht : Forall (fun r => title r <> None) thirds)
    by (repeat constructor; discriminate).
  assert (Hs : Forall severity_in_schema thirds)
    by (repeat constructor; cbv; discriminate).
  assert (Hl : Z.of_nat (length thirds) <= 2 ^ 50) by (cbv; discriminate).
  split.
  - split; [exact Hin|]. split; [reflexivity|].
    exact (proj1 avg_severity_of_a_record thirds row Hin).
  - split; [exact Ht|]. split; [exact Hs|]. split; [exact Hl|].
    exact (proj1 (proj2 avg_severity_of_a_record) thirds Ht Hs Hl).
Defined.

(** ** Results with the keys of the schema only *)

Lemma schema_only_tags (rs : list AnalysisResult) :
  Forall schema_only rs ->
  concat (map (fun r => get (primary_topic_tags r) []) rs) = [].
Proof.
  induction 1 as [|r rs [_ Ht] _ IH]; [reflexivity|].
  cbn. now rewrite Ht, IH.
Qed.

Lemma schema_only_audiences (rs : list AnalysisResult) :
  Forall schema_only rs -> rs <> [] ->
  list_to_set (map (fun r => get (target_audience r) "") rs) = ({[ "" ]} : gset string).
Proof.
  induction 1 as [|r rs [Ha _] Hrs IH]; [contradiction|].
  intros _. cbn [map list_to_set]. rewrite Ha. cbn [get].
  destruct rs as [|r' rs].
  - cbn. set_solver.
  - rewrite IH by discriminate. set_solver.
Qed.

(** C5. When no result has a key outside the schema, every bucket has no
    tag and the empty string as its only audience, and every record of the
    aggregated CSV has empty [audiences] and [top_tags]. *)
Theorem schema_results_leave_audiences_and_tags_empty (analyses : list AnalysisResult) :
  Forall schema_only analyses ->
  (forall (k : string) (b : Bucket),
      dict_get k (aggregate analyses) = Some b ->
      tags b = ∅ /\ audiences b = {[ "" ]}) /\
  (forall row : AggRow,
      In row (fst (aggregated_csv (aggregate analyses))) ->
      audiences_cell row = "" /\ top_tags row = "").
Proof.
  intros Hschema.
  assert (Hbucket : forall k b, In (k, b) (aggregate analyses) ->
                      tags b = ∅ /\ audiences b = {[ "" ]}).
  { intros k b Hin. apply aggregate_In in Hin as (_ & Hne & ->).
    pose proof (contributing_Forall _ k _ Hschema) as Hrs.
    rewrite absorb_all_tags, absorb_all_audiences.
    rewrite schema_only_tags, schema_only_audiences by assumption.
    cbn [new_bucket tags audiences]. split; set_solver. }
  split.
  - intros k b Hk. apply (Hbucket k). now apply dict_get_Some_In.
  - intros row Hin.
    apply aggregated_csv_In in Hin as (b & Hb & Hrow).
    apply Hbucket in Hb as [Htags Haud].
    apply aggregated_row_Returns in Hrow as (_ & _ & _ & Ha & Ht & _).
    rewrite Ha, Ht, Htags, Haud.
    rewrite elements_empty, elements_singleton. split; reflexivity.
Qed.

Lemma three_severities_schema_only : Forall schema_only three_severities.
Proof. repeat constructor. Qed.

(** C5 at the three results of [three_severities]. *)
Lemma schema_results_leave_audiences_and_tags_empty_witness :
  Forall schema_only three_severities /\
  (forall (k : string) (b : Bucket),
      dict_get k (aggregate three_severities) = Some b ->
      tags b = ∅ /\ audiences b = {[ "" ]}) /\
  (forall row : AggRow,
      In row (fst (aggregated_csv (aggregate three_severities))) ->
      audiences_cell row = "" /\ top_tags row = "").
Proof.
  split; [exact three_severities_schema_only|].
  exact (schema_results_leave_audiences_and_tags_empty three_severities
           three_severities_schema_only).
Defined.

(** ** Examples of a bucket *)

Lemma aggregate_examples (analyses : list AnalysisResult) (k : string) (b : Bucket) :
  dict_get k (aggregate analyses) = Some b ->
  examples b = firstn 5 (map example_of (contributing k analyses)).
Proof.
  intros Hk. apply dict_get_Some_In, aggregate_In in Hk as (_ & _ & ->).
  rewrite absorb_all_examples by (cbn; lia). reflexivity.
Qed.

Lemma firstn_app_le {A : Type} (n : nat) (l l' : list A) :
  (n <= length l)%nat -> firstn n (l ++ l') = firstn n l.
Proof.
  intros Hle. rewrite firstn_app.
  replace (n - length l)%nat with 0%nat by lia.
  cbn. apply app_nil_r.
Qed.

(** C6 as stated fails on the code: of six results under one key whose
    first two have the same subreddit and title, the bucket keeps the pair
    of the first five results, the repeated pair twice, where the first five
    distinct pairs would be those of the results 1, 3, 4, 5 and 6. *)
Lemma examples_keep_repeated_pairs :
  let k := "proctoring false positives" in
  let pair_of t := (Some "edtech", Some t) : Example in
  exists b : Bucket,
    dict_get k (aggregate six_with_a_repeat) = Some b /\
    examples b = [pair_of "t1"; pair_of "t1"; pair_of "t2"; pair_of "t3"; pair_of "t4"] /\
    firstn 5 (distinct_in_order (map example_of (contributing k six_with_a_repeat)))
      = [pair_of "t1"; pair_of "t2"; pair_of "t3"; pair_of "t4"; pair_of "t5"] /\
    bool_decide
      (examples b
       = firstn 5 (distinct_in_order (map example_of (contributing k six_with_a_repeat))))
      = false.
Proof.
  eexists. split; [vm_compute; reflexivity|].
  split; [reflexivity|]. split; vm_compute; reflexivity.
Qed.

(** C6, amended. The examples of a bucket are the (subreddit, title) pairs
    of the first five results of its key, in the order of the run, a
    repeated pair as often as it comes; once five are there, further results
    leave them as they are. *)
Theorem examples_are_the_first_five (analyses : list AnalysisResult) (k : string)
    (b : Bucket) :
  dict_get k (aggregate analyses) = Some b ->
  examples b = firstn 5 (map example_of (contributing k analyses)) /\
  (length (examples b) <= 5)%nat /\
  forall (more : list AnalysisResult) (b' : Bucket),
    dict_get k (aggregate (analyses ++ more)) = Some b' ->
    firstn (length (examples b)) (examples b') = examples b /\
    (length (examples b) = 5%nat -> examples b' = examples b).
Proof.
  intros Hk. pose proof (aggregate_examples _ _ _ Hk) as Hb.
  split; [exact Hb|]. split; [rewrite Hb, length_firstn; lia|].
  intros more b' Hk'. apply aggregate_examples in Hk'.
  rewrite contributing_app, map_app in Hk'.
  set (E := map example_of (contributing k analyses)) in *.
  set (E' := map example_of (contributing k more)) in *.
  rewrite Hb, Hk', length_firstn, firstn_firstn.
  split.
  - replace (Nat.min (Nat.min 5 (length E)) 5) with (Nat.min 5 (length E)) by lia.
    destruct (Nat.le_ge_cases 5 (length E)) as [Hle|Hge].
    + rewrite Nat.min_l by exact Hle. now rewrite firstn_app_le by exact Hle.
    + rewrite Nat.min_r by exact Hge.
      rewrite (firstn_all2 E) by exact Hge.
      rewrite firstn_app, Nat.sub_diag, firstn_all. cbn. apply app_nil_r.
  - intros H5. assert (Hle : (5 <= length E)%nat) by lia.
    now rewrite firstn_app_le by exact Hle.
Qed.

(** C6 amended, at the six results of [six_with_a_repeat]. *)
Lemma examples_are_the_first_five_witness :
  let k := "proctoring false positives" in
  let b := absorb_all six_with_a_repeat new_bucket in
  dict_get k (aggregate six_with_a_repeat) = Some b /\
  examples b = firstn 5 (map example_of (contributing k six_with_a_repeat)) /\
  (length (examples b) <= 5)%nat /\
  forall (more : list AnalysisResult) (b' : Bucket),
    dict_get k (aggregate (six_with_a_repeat ++ more)) = Some b' ->
    firstn (length (examples b)) (examples b') = examples b /\
    (length (examples b) = 5%nat -> examples b' = examples b).
Proof.
  intros k b.
  assert (Hk : dict_get k (aggregate six_with_a_repeat) = Some b)
    by (vm_compute; reflexivity).
  split; [exact Hk|].
  exact (examples_are_the_first_five six_with_a_repeat k b Hk).
Defined.

(** ** Aggregation of a permuted run *)

Lemma contributing_perm (k : string) (l l' : list AnalysisResult) :
  Permutation l l' -> Permutation (contributing k l) (contributing k l').
Proof.
  unfold contributing.
  induction 1 as [|r l l' _ IH|r r' l|l l' l'' _ IH1 _ IH2]; cbn [List.filter].
  - reflexivity.
  - destruct (String.eqb (bucket_key r) k); [now constructor|exact IH].
  - destruct (String.eqb (bucket_key r) k), (String.eqb (bucket_key r') k);
      try reflexivity. apply perm_swap.
  - now rewrite IH1.
Qed.

Lemma sum_Z_perm (l l' : list Z) : Permutation l l' -> sum_Z l = sum_Z l'.
Proof.
  induction 1 as [|x l l' _ IH|x y l|l l' l'' _ IH1 _ IH2]; cbn.
  - reflexivity.
  - fold (sum_Z l). fold (sum_Z l'). lia.
  - fold (sum_Z l). lia.
  - congruence.
Qed.

Lemma list_to_set_concat_perm {X : Type} (f : X -> list string) (l l' : list X) :
  Permutation l l' ->
  (list_to_set (concat (map f l)) : gset string) = list_to_set (concat (map f l')).
Proof.
  induction 1 as [|x l l' _ IH|x y l|l l' l'' _ IH1 _ IH2]; cbn [map concat].
  - reflexivity.
  - rewrite !list_to_set_app_L, IH. reflexivity.
  - rewrite !list_to_set_app_L. set_solver.
  - congruence.
Qed.

Lemma list_to_set_map_perm {X : Type} (f : X -> string) (l l' : list X) :
  Permutation l l' ->
  (list_to_set (map f l) : gset string) = list_to_set (map f l').
Proof.
  induction 1 as [|x l l' _ IH|x y l|l l' l'' _ IH1 _ IH2]; cbn [map list_to_set].
  - reflexivity.
  - now rewrite IH.
  - set_solver.
  - congruence.
Qed.

Lemma aggregate_key_In (l : list AnalysisResult) (k : string) :
  In k (map fst (aggregate l)) <-> truthy k = true /\ contributing k l <> [].
Proof.
  pose proof (dict_get_None (aggregate l) k) as Hnone.
  rewrite aggregate_lookup in Hnone.
  destruct (contributing k l) as [|r rs]; [|destruct (truthy k)].
  - split; [intros Hin|intros [_ Hne]; now contradiction Hne].
    exfalso. now apply (proj1 Hnone).
  - split; [intros _; split; [reflexivity|discriminate]|intros _].
    destruct (in_dec string_dec k (map fst (aggregate l))) as [Hin|Hout];
      [exact Hin|]. apply Hnone in Hout. discriminate.
  - split; [intros Hin|intros [Hk _]; discriminate].
    exfalso. now apply (proj1 Hnone).
Qed.

(** C8. For a run and a permutation of it the buckets have the same keys,
    and under each key the same count, severity sum (hence the same average
    severity), audiences, tags and links. The examples of a bucket are the
    pairs of the first five results of its key in the order of the run it
    was built from, so they can differ between the two runs. *)
Theorem aggregation_of_a_permutation (l l' : list AnalysisResult) :
  Permutation l l' ->
  Permutation (map fst (aggregate l)) (map fst (aggregate l')) /\
  forall k : string,
    match dict_get k (aggregate l), dict_get k (aggregate l') with
    | Some b, Some b' =>
        count b = count b' /\
        severity_sum b = severity_sum b' /\
        py_truediv (severity_sum b) (count b) = py_truediv (severity_sum b') (count b') /\
        audiences b = audiences b' /\
        tags b = tags b' /\
        links b = links b' /\
        examples b = firstn 5 (map example_of (contributing k l)) /\
        examples b' = firstn 5 (map example_of (contributing k l'))
    | None, None => True
    | _, _ => False
    end.
Proof.
  intros Hperm. split.
  - apply Permutation.NoDup_Permutation; try apply aggregate_keys_unique.
    intros k. rewrite !aggregate_key_In.
    pose proof (contributing_perm k _ _ Hperm) as Hc.
    split; intros [Hk Hne]; (split; [exact Hk|]); intros Hnil; apply Hne.
    + rewrite Hnil in Hc. now apply Permutation_nil.
    + rewrite Hnil in Hc. symmetry in Hc. now apply Permutation_nil.
  - intros k.
    pose proof (contributing_perm k _ _ Hperm) as Hc.
    destruct (dict_get k (aggregate l)) as [b|] eqn:Hb;
      destruct (dict_get k (aggregate l')) as [b'|] eqn:Hb'.
    + pose proof (aggregate_examples _ _ _ Hb) as He.
      pose proof (aggregate_examples _ _ _ Hb') as He'.
      apply dict_get_Some_In, aggregate_In in Hb as (_ & _ & Hb).
      apply dict_get_Some_In, aggregate_In in Hb' as (_ & _ & Hb').
      assert (Hcount : count b = count b').
      { rewrite Hb, Hb', !absorb_all_count.
        now rewrite (Permutation_length Hc). }
      assert (Hsum : severity_sum b = severity_sum b').
      { rewrite Hb, Hb', !absorb_all_severity_sum.
        now rewrite (sum_Z_perm _ _ (Permutation_map severity_of Hc)). }
      repeat split; try assumption.
      * now rewrite Hcount, Hsum.
      * rewrite Hb, Hb', !absorb_all_audiences.
        now rewrite (list_to_set_map_perm _ _ _ Hc).
      * rewrite Hb, Hb', !absorb_all_tags.
        now rewrite (list_to_set_concat_perm _ _ _ Hc).
      * rewrite Hb, Hb', !absorb_all_links.
        now rewrite (list_to_set_concat_perm _ _ _ Hc).
    + rewrite aggregate_lookup in Hb, Hb'.
      destruct (contributing k l') as [|r' rs'].
      * symmetry in Hc. apply Permutation_nil in Hc. now rewrite Hc in Hb.
      * destruct (contributing k l); [discriminate|].
        destruct (truthy k); discriminate.
    + rewrite aggregate_lookup in Hb, Hb'.
      destruct (contributing k l) as [|r rs].
      * apply Permutation_nil in Hc. now rewrite Hc in Hb'.
      * destruct (contributing k l'); [discriminate|].
        destruct (truthy k); discriminate.
    + exact I.
Qed.

(** C8 at the six results of [six_with_a_repeat] and their reverse. *)
Lemma aggregation_of_a_permutation_witness :
  Permutation six_with_a_repeat (rev six_with_a_repeat) /\
  Permutation (map fst (aggregate six_with_a_repeat))
              (map fst (aggregate (rev six_with_a_repeat))) /\
  forall k : string,
    match dict_get k (aggregate six_with_a_repeat),
          dict_get k (aggregate (rev six_with_a_repeat)) with
    | Some b, Some b' =>
        count b = count b' /\
        severity_sum b = severity_sum b' /\
        py_truediv (severity_sum b) (count b) = py_truediv (severity_sum b') (count b') /\
        audiences b = audiences b' /\
        tags b = tags b' /\
        links b = links b' /\
        examples b = firstn 5 (map example_of (contributing k six_with_a_repeat)) /\
        examples b' = firstn 5 (map example_of (contributing k (rev six_with_a_repeat)))
    | None, None => True
    | _, _ => False
    end.
Proof.
  split; [apply Permutation_rev|].
  exact (aggregation_of_a_permutation six_with_a_repeat (rev six_with_a_repeat)
           (Permutation_rev six_with_a_repeat)).
Defined.

(** The examples of the two runs do differ. *)
Example examples_depend_on_the_order :
  let titles buckets :=
    match dict_get "proctoring false positives" buckets with
    | Some b => map snd (examples b)
    | None => []
    end in
  titles (aggregate six_with_a_repeat)
    = [Some "t1"; Some "t1"; Some "t2"; Some "t3"; Some "t4"] /\
  titles (aggregate (rev six_with_a_repeat))
    = [Some "t5"; Some "t4"; Some "t3"; Some "t2"; Some "t1"].
Proof. split; vm_compute; reflexivity. Qed.

(** * Further properties of [analysis.py] *)

(** ** The decorated call in general *)

Lemma retry_loop_shape {R : Type} (w : Z -> Z) (f : nat -> outcome R) (more : nat) :
  forall attempt : nat,
    let r := retry_loop w more attempt f in
    exists k : nat,
      (k <= more)%nat /\
      attempts r = seq attempt (S k) /\
      waits r = map (fun a => w (Z.of_nat a)) (seq attempt k) /\
      (forall a : nat, (attempt <= a < attempt + k)%nat -> exists e, f a = Raises e) /\
      match ended r with
      | Returns x => f (attempt + k)%nat = Returns x
      | Raises e => k = more /\ exists e', f (attempt + k)%nat = Raises e' /\ e = RetryError e'
      end.
Proof.
  induction more as [|more IH]; intros attempt; cbn [retry_loop].
  - destruct (f attempt) as [x|e] eqn:Hf; exists 0%nat; cbn; rewrite Nat.add_0_r;
      (split; [lia|]); (split; [reflexivity|]); (split; [reflexivity|]);
      (split; [intros a Ha; lia|]).
    + exact Hf.
    + split; [reflexivity|]. now exists e.
  - destruct (f attempt) as [x|e] eqn:Hf.
    + exists 0%nat. cbn. rewrite Nat.add_0_r.
      split; [lia|]. split; [reflexivity|]. split; [reflexivity|].
      split; [intros a Ha; lia|exact Hf].
    + destruct (IH (S attempt)) as (k & Hk & Ha & Hw & Hbefore & Hend).
      exists (S k). cbn [attempts waits ended]. cbn zeta in *.
      split; [lia|]. split; [now rewrite Ha|]. split; [now rewrite Hw|].
      replace (attempt + S k)%nat with (S attempt + k)%nat by lia.
      split.
      * intros a Ha'. destruct (Nat.eq_dec a attempt) as [->|Hne]; [now exists e|].
        apply Hbefore. lia.
      * destruct (ended (retry_loop w more (S attempt) f)) as [x|e0]; [exact Hend|].
        destruct Hend as (-> & e' & He' & ->). split; [reflexivity|]. now exists e'.
Qed.

(** X1. A decorated call makes the attempts 1, 2, ..., n with n at most 6,
    one after the other until one returns; it sleeps 1, 2, 4, 8, 16 between
    them and never after the last. It returns what the first attempt that
    does not raise returns, and raises [RetryError] only when all six
    attempts raised. *)
Theorem call_stops_at_the_first_attempt_that_returns {RawPost Analysis : Type}
    (g : namespace) (svc : Service RawPost Analysis) (args : Args)
    (i : Z) (batch : list RawPost) :
  let r := analyze_batch_with_openai g svc args i batch in
  exists n : nat,
    (1 <= n <= 6)%nat /\
    attempts r = seq 1 n /\
    waits r = firstn (n - 1) [1; 2; 4; 8; 16] /\
    (forall a : nat, (1 <= a < n)%nat ->
       exists e, analyze_batch_body g svc args i a batch = Raises e) /\
    match ended r with
    | Returns results => analyze_batch_body g svc args i n batch = Returns results
    | Raises e =>
        n = 6%nat /\
        exists e', analyze_batch_body g svc args i 6 batch = Raises e' /\ e = RetryError e'
    end.
Proof.
  intros r.
  destruct (retry_loop_shape (wait_exponential 1 1 20)
              (fun a => analyze_batch_body g svc args i a batch) 5 1)
    as (k & Hk & Ha & Hw & Hbefore & Hend).
  cbn zeta in *. fold (analyze_batch_with_openai g svc args i batch) in *.
  change (max_attempts - 1)%nat with 5%nat in *.
  unfold analyze_batch_with_openai in r.
  change (max_attempts - 1)%nat with 5%nat in r. fold r in Ha, Hw, Hend.
  exists (S k). split; [lia|]. split; [exact Ha|]. split.
  - rewrite Hw. replace (S k - 1)%nat with k by lia.
    do 6 (destruct k as [|k]; [reflexivity|]). lia.
  - split; [intros a Ha'; apply Hbefore; lia|].
    destruct (ended r) as [x|e]; [exact Hend|].
    destruct Hend as (-> & e' & He' & ->). split; [reflexivity|]. now exists e'.
Qed.

(** ** A run in which the service answers *)

Section ServiceAnswers.

Context {RawPost Analysis : Type}.
Variable g : namespace.
Variable svc : Service RawPost Analysis.
Variable args : Args.
Variable answer : Z -> list RawPost -> list Analysis.

Hypothesis first_attempt_returns :
  forall (i : Z) (batch : list RawPost),
    analyze_batch_body g svc args i 1 batch = Returns (answer i batch).

Lemma answered_call (i : Z) (batch : list RawPost) :
  analyze_batch_with_openai g svc args i batch
  = {| attempts := [1%nat]; waits := []; ended := Returns (answer i batch) |}.
Proof.
  unfold analyze_batch_with_openai. change (max_attempts - 1)%nat with 5%nat.
  cbn [retry_loop]. now rewrite first_attempt_returns.
Qed.

Lemma batch_loop_answered (bs : Z) (plan : list (Z * list RawPost)) :
  forall st : Progress RawPost Analysis,
    batch_loop g svc args bs plan st
    = ({| analyses := analyses st ++ concat (map (fun b => answer (fst b) (snd b)) plan);
          stderr := stderr st;
          slept := slept st;
          calls := calls st ++ map (fun b => (fst b, 1%nat)) plan;
          sent := sent st ++ map snd plan |},
       Returns tt).
Proof.
  induction plan as [|[i batch] rest IH]; intros st.
  - cbn. rewrite !app_nil_r. now destruct st.
  - cbn [batch_loop]. rewrite answered_call. cbn [ended waits attempts map].
    rewrite IH. cbn [analyses stderr slept calls sent concat map fst snd].
    now rewrite !app_nil_r, <- !app_assoc.
Qed.

(** X2. When the first attempt of every batch returns, the loop ends
    normally whatever the module binds: the analyses are the answers of the
    batches put end to end in the order of the posts, each batch is called
    once, nothing is slept and nothing is printed. *)
Theorem answers_are_collected_in_order (all_rows : list RawPost) :
  exists plan : list (Z * list RawPost),
    batch_plan (effective_batch_size args) all_rows = Returns plan /\
    concat (map snd plan) = all_rows /\
    extraction g svc args all_rows
    = ({| analyses := concat (map (fun b => answer (fst b) (snd b)) plan);
          stderr := [];
          slept := [];
          calls := map (fun b => (fst b, 1%nat)) plan;
          sent := map snd plan |},
       Returns tt).
Proof.
  assert (Hbs : 1 <= effective_batch_size args) by (unfold effective_batch_size; lia).
  destruct (batch_plan_partition (effective_batch_size args) all_rows Hbs)
    as (plan & Hplan & _ & _ & Hcat).
  exists plan. split; [exact Hplan|]. split; [exact Hcat|].
  unfold extraction. rewrite Hplan. now rewrite batch_loop_answered.
Qed.

End ServiceAnswers.

(** X2 at the two posts of the outage run, with a service that answers. *)
Lemma answers_are_collected_in_order_witness :
  let svc : Service string string :=
    {| make_client := fun _ _ => Returns tt;
       create_response := fun _ _ _ batch => Returns (map (fun p => "analysis of " +:+ p) batch);
       getenv_model := None |} in
  let answer := fun (_ : Z) (batch : list string) => map (fun p => "analysis of " +:+ p) batch in
  (forall (i : Z) (batch : list string),
      analyze_batch_body analysis_globals svc outage_args i 1 batch
      = Returns (answer i batch)) /\
  exists plan : list (Z * list string),
    batch_plan (effective_batch_size outage_args) outage_posts = Returns plan /\
    concat (map snd plan) = outage_posts /\
    extraction analysis_globals svc outage_args outage_posts
    = ({| analyses := concat (map (fun b => answer (fst b) (snd b)) plan);
          stderr := [];
          slept := [];
          calls := map (fun b => (fst b, 1%nat)) plan;
          sent := map snd plan |},
       Returns tt).
Proof.
  intros svc answer.
  assert (H : forall (i : Z) (batch : list string),
             analyze_batch_body analysis_globals svc outage_args i 1 batch
             = Returns (answer i batch)) by (intros i batch; reflexivity).
  split; [exact H|].
  exact (answers_are_collected_in_order analysis_globals svc outage_args answer H outage_posts).
Defined.

(** ** The order of the aggregated CSV *)

Lemma existsb_keys {V : Type} (k : string) (d : list (string * V)) :
  existsb (String.eqb k) (map fst d)
  = match dict_get k d with Some _ => true | None => false end.
Proof.
  induction d as [|[k0 v0] d IH]; [reflexivity|].
  cbn. destruct (String.eqb k k0); [reflexivity|exact IH].
Qed.

Lemma add_result_key_order (buckets : Buckets) (r : AnalysisResult) :
  map fst (add_result buckets r)
  = if truthy (bucket_key r)
    then if existsb (String.eqb (bucket_key r)) (map fst buckets)
         then map fst buckets
         else map fst buckets ++ [bucket_key r]
    else map fst buckets.
Proof.
  unfold add_result. destruct (truthy (bucket_key r)); [|reflexivity].
  rewrite dict_alter_keys, existsb_keys. unfold dict_setdefault.
  destruct (dict_get (bucket_key r) buckets); [reflexivity|].
  now rewrite map_app.
Qed.

Lemma fold_add_result_key_order (l : list AnalysisResult) :
  forall buckets : Buckets,
    map fst (fold_left add_result l buckets)
    = fold_left (fun acc k => if existsb (String.eqb k) acc then acc else acc ++ [k])
        (map bucket_key (keyed l)) (map fst buckets).
Proof.
  induction l as [|r l IH]; intros buckets; [reflexivity|].
  cbn [fold_left keyed List.filter]. rewrite IH, add_result_key_order. fold (keyed l).
  destruct (truthy (bucket_key r)); reflexivity.
Qed.

Lemma insert_by_count_sorted (x : string * Bucket) (l : Buckets) :
  StronglySorted (fun a b => count (snd b) <= count (snd a)) l ->
  StronglySorted (fun a b => count (snd b) <= count (snd a)) (insert_by by_count_desc x l).
Proof.
  induction 1 as [|y l Hl IH Hy]; cbn.
  - repeat constructor.
  - unfold by_count_desc at 1. destruct (Z.leb_spec (count (snd y)) (count (snd x))) as [Hle|Hgt].
    + constructor; [now constructor|].
      constructor; [exact Hle|].
      eapply List.Forall_impl; [|exact Hy]. cbn. intros b Hb. lia.
    + constructor; [exact IH|].
      assert (Hperm := insert_by_perm by_count_desc x l).
      apply List.Forall_forall. intros b Hb.
      apply (Permutation_in _ Hperm) in Hb as [<-|Hb]; [lia|].
      rewrite List.Forall_forall in Hy. now apply Hy.
Qed.

Lemma sorted_buckets_sorted (buckets : Buckets) :
  StronglySorted (fun a b => count (snd b) <= count (snd a)) (sorted_buckets buckets).
Proof.
  unfold sorted_buckets, sort_by.
  induction buckets as [|x l IH]; cbn; [constructor|].
  now apply insert_by_count_sorted.
Qed.

Lemma insert_by_count_stable (c : Z) (x : string * Bucket) (l : Buckets) :
  with_count c (insert_by by_count_desc x l) = with_count c (x :: l).
Proof.
  unfold with_count.
  induction l as [|y l IH]; [reflexivity|].
  cbn [insert_by]. unfold by_count_desc at 1.
  destruct (Z.leb_spec (count (snd y)) (count (snd x))) as [Hle|Hgt]; [reflexivity|].
  cbn [List.filter] in *. rewrite IH.
  destruct (Z.eqb_spec (count (snd y)) c), (Z.eqb_spec (count (snd x)) c);
    try reflexivity. lia.
Qed.

Lemma sorted_buckets_stable (c : Z) (buckets : Buckets) :
  with_count c (sorted_buckets buckets) = with_count c buckets.
Proof.
  unfold sorted_buckets, sort_by.
  induction buckets as [|x l IH]; [reflexivity|].
  cbn [fold_right]. rewrite insert_by_count_stable.
  unfold with_count in *. cbn [List.filter]. now rewrite IH.
Qed.

(** The records written are those of a prefix of the sorted buckets. *)
Lemma write_each_prefix {A B : Type} (f : A -> outcome B) (l : list A) :
  Forall2 (fun x y => f x = Returns y)
          (firstn (length (fst (write_each f l))) l) (fst (write_each f l)).
Proof.
  induction l as [|x l IH]; cbn; [constructor|].
  destruct (f x) as [y|e] eqn:Hfx; cbn; [|constructor].
  destruct (write_each f l) as [ys o]. cbn in *. now constructor.
Qed.

Lemma StronglySorted_firstn {A : Type} (R : A -> A -> Prop) (n : nat) (l : list A) :
  StronglySorted R l -> StronglySorted R (firstn n l).
Proof.
  revert l. induction n as [|n IH]; intros l Hl; [constructor|].
  destruct Hl as [|x l Hl Hx]; cbn; [constructor|].
  constructor; [now apply IH|].
  apply List.Forall_forall. intros y Hy. apply In_firstn in Hy.
  rewrite List.Forall_forall in Hx. now apply Hx.
Qed.

Lemma StronglySorted_Forall2 {A B : Type} (R : A -> A -> Prop) (S : B -> B -> Prop)
    (T : A -> B -> Prop) (l : list A) (l' : list B) :
  (forall a a' b b', T a b -> T a' b' -> R a a' -> S b b') ->
  Forall2 T l l' -> StronglySorted R l -> StronglySorted S l'.
Proof.
  intros HT H. induction H as [|a b l l' Hab Hll' IH]; intros Hs; [constructor|].
  apply StronglySorted_inv in Hs as [Hs Ha].
  constructor; [now apply IH|].
  clear IH Hs. induction Hll' as [|a' b' l l' Hab' _ IH]; [constructor|].
  apply Forall_cons_iff in Ha as [Haa' Ha].
  constructor; [now apply (HT a a' b b')|now apply IH].
Qed.

Lemma filter_firstn {A : Type} (p : A -> bool) (n : nat) (l : list A) :
  List.filter p (firstn n l)
  = firstn (length (List.filter p (firstn n l))) (List.filter p l).
Proof.
  revert l. induction n as [|n IH]; intros l; [reflexivity|].
  destruct l as [|x l]; [reflexivity|].
  cbn [firstn List.filter]. destruct (p x); cbn [length firstn]; now rewrite <- IH.
Qed.

Lemma filter_Forall2 {A B : Type} (T : A -> B -> Prop) (p : A -> bool) (q : B -> bool)
    (l : list A) (l' : list B) :
  (forall x y, T x y -> p x = q y) ->
  Forall2 T l l' -> Forall2 T (List.filter p l) (List.filter q l').
Proof.
  intros Hpq. induction 1 as [|x y l l' Hxy _ IH]; [constructor|].
  cbn [List.filter]. rewrite (Hpq x y Hxy). destruct (q y); [now constructor|exact IH].
Qed.

Lemma write_each_Returns_length {A B : Type} (f : A -> outcome B) (l : list A) :
  snd (write_each f l) = Returns tt -> length (fst (write_each f l)) = length l.
Proof.
  induction l as [|x l IH]; cbn; [reflexivity|].
  destruct (f x) as [y|e]; cbn; [|discriminate].
  destruct (write_each f l) as [ys o]. cbn in *. intros Ho. now rewrite IH.
Qed.

Lemma with_count_keys_by (h : string -> Z) (c : Z) (l : Buckets) :
  (forall kb, In kb l -> h (fst kb) = count (snd kb)) ->
  map fst (with_count c l) = List.filter (fun k => h k =? c) (map fst l).
Proof.
  unfold with_count. induction l as [|kb l IH]; intros Hall; [reflexivity|].
  cbn [List.filter map]. rewrite (Hall kb (or_introl eq_refl)).
  destruct (count (snd kb) =? c); cbn [map];
    rewrite IH by (intros kb' Hin; apply Hall; now right); reflexivity.
Qed.

(** The keys of the buckets of one count, from the keys of the dict. *)
Lemma with_count_keys (c : Z) (buckets : Buckets) :
  List.NoDup (map fst buckets) ->
  map fst (with_count c buckets)
  = List.filter (fun k => count_at k buckets =? c) (map fst buckets).
Proof.
  intros Hnodup. apply (with_count_keys_by (fun k => count_at k buckets)).
  intros [k b] Hin. unfold count_at. cbn [fst snd].
  now rewrite (dict_get_In _ _ _ Hnodup Hin).
Qed.

(** X3. The buckets are kept in the order in which their keys first occur
    in the run, and the records of the aggregated CSV are written from that
    order after a stable sort: down the file [posts] never increases, and
    the records with the same [posts] are, in the order of the file, the
    keys of that count in the order of their first occurrence - all of them
    when the writer returns, the first of them when it raises. *)
Theorem aggregated_csv_order (analyses : list AnalysisResult) :
  let rows := fst (aggregated_csv (aggregate analyses)) in
  let seen := first_seen (map bucket_key (keyed analyses)) in
  let keys_of_count (c : Z) :=
    List.filter (fun k => count_at k (aggregate analyses) =? c) seen in
  map fst (aggregate analyses) = seen /\
  StronglySorted (fun r1 r2 => posts r2 <= posts r1) rows /\
  (forall c : Z,
      let written := records_with_posts c rows in
      map issue_key written = firstn (length written) (keys_of_count c)) /\
  (snd (aggregated_csv (aggregate analyses)) = Returns tt ->
   forall c : Z, map issue_key (records_with_posts c rows) = keys_of_count c) /\
  forall c : Z,
    with_count c (sorted_buckets (aggregate analyses)) = with_count c (aggregate analyses).
Proof.
  intros rows seen keys_of_count.
  assert (Hseen : map fst (aggregate analyses) = seen)
    by apply (fold_add_result_key_order analyses []).
  assert (Hprefix : Forall2 (fun kb row => aggregated_row kb = Returns row)
                      (firstn (length rows) (sorted_buckets (aggregate analyses))) rows)
    by apply write_each_prefix.
  assert (Hties : forall c : Z,
             map issue_key (records_with_posts c rows)
             = map fst (with_count c (firstn (length rows)
                                        (sorted_buckets (aggregate analyses))))).
  { intros c. symmetry. apply Forall2_map_eq.
    assert (Hpq : forall (kb : string * Bucket) (row : AggRow),
               aggregated_row kb = Returns row ->
               (count (snd kb) =? c) = (posts row =? c)).
    { intros [k b] row Hrow.
      apply aggregated_row_Returns in Hrow as (_ & -> & _). reflexivity. }
    pose proof (filter_Forall2 _ _ _ _ _ Hpq Hprefix) as Hf.
    unfold with_count, records_with_posts.
    eapply Forall2_impl; [exact Hf|].
    intros [k b] row Hrow. cbn beta in Hrow.
    apply aggregated_row_Returns in Hrow as (-> & _). reflexivity. }
  assert (Hkeys : forall c : Z,
             map fst (with_count c (sorted_buckets (aggregate analyses))) = keys_of_count c).
  { intros c. rewrite sorted_buckets_stable.
    rewrite (with_count_keys c _ (aggregate_keys_unique analyses)), Hseen. reflexivity. }
  split; [exact Hseen|]. split; [|split; [|split]].
  - eapply StronglySorted_Forall2;
      [|exact Hprefix|apply StronglySorted_firstn, sorted_buckets_sorted].
    intros [k b] [k' b'] row row' Hrow Hrow' Hle. cbn in Hle.
    apply aggregated_row_Returns in Hrow as (_ & -> & _).
    apply aggregated_row_Returns in Hrow' as (_ & -> & _).
    exact Hle.
  - intros c written. unfold written.
    assert (Hlen : length (records_with_posts c rows)
                   = length (with_count c (firstn (length rows)
                                             (sorted_buckets (aggregate analyses)))))
      by (rewrite <- (length_map issue_key), (Hties c), length_map; reflexivity).
    rewrite (Hties c), Hlen, <- (Hkeys c).
    unfold with_count. now rewrite List.firstn_map, <- filter_firstn.
  - intros Hret c. rewrite (Hties c), <- (Hkeys c).
    apply write_each_Returns_length in Hret.
    change (length rows = length (sorted_buckets (aggregate analyses))) in Hret.
    rewrite Hret, firstn_all. reflexivity.
  - intros c. apply sorted_buckets_stable.
Qed.

(** X3 at five results under three keys, two of them tied at two results:
    the tied keys are written in the order in which the run met them. *)
Lemma aggregated_csv_order_witness :
  let rows := fst (aggregated_csv (aggregate tied_keys)) in
  snd (aggregated_csv (aggregate tied_keys)) = Returns tt /\
  map (fun row => (issue_key row, posts row)) rows
    = [("b issue", 2); ("a issue", 2); ("c issue", 1)] /\
  first_seen (map bucket_key (keyed tied_keys)) = ["b issue"; "a issue"; "c issue"] /\
  map issue_key (records_with_posts 2 rows)
    = List.filter (fun k => count_at k (aggregate tied_keys) =? 2)
        (first_seen (map bucket_key (keyed tied_keys))).
Proof.
  intros rows.
  assert (Hret : snd (aggregated_csv (aggregate tied_keys)) = Returns tt)
    by (vm_compute; reflexivity).
  split; [exact Hret|]. split; [vm_compute; reflexivity|].
  split; [vm_compute; reflexivity|].
  destruct (aggregated_csv_order tied_keys) as (_ & _ & _ & Hall & _).
  exact (Hall Hret 2).
Defined.

(** ** The columns of a record *)

Lemma py_prefix_length (n : nat) (s : string) : (String.length (py_prefix n s) <= n)%nat.
Proof.
  unfold py_prefix. revert s. induction n as [|n IH]; intros s.
  - destruct s; cbn; lia.
  - destruct s as [|c s]; cbn; [lia|]. specialize (IH s). lia.
Qed.

Lemma py_prefix_short (n : nat) (s : string) :
  (String.length s <= n)%nat -> py_prefix n s = s.
Proof.
  unfold py_prefix. revert s. induction n as [|n IH]; intros s Hs.
  - destruct s; [reflexivity|cbn in Hs; lia].
  - destruct s as [|c s]; [reflexivity|]. cbn in *. rewrite IH by lia. reflexivity.
Qed.

Lemma size_list_to_set_le (l : list string) :
  (size (list_to_set l : gset string) <= length l)%nat.
Proof.
  induction l as [|x l IH]; cbn [list_to_set length].
  - rewrite size_empty. lia.
  - rewrite size_union_alt, size_singleton.
    assert (size ((list_to_set l : gset string) ∖ {[x]}) <= size (list_to_set l : gset string))%nat
      by (apply subseteq_size; set_solver).
    lia.
Qed.

Lemma aggregated_row_titles (k : string) (b : Bucket) (row : AggRow) :
  aggregated_row (k, b) = Returns row ->
  exists titles : list string,
    titles_of (examples b) = Returns titles /\
    example_titles row = py_prefix 300 (py_join "; " titles).
Proof.
  unfold aggregated_row.
  destruct (py_truediv (severity_sum b) (count b)) as [q|e]; cbn; [|discriminate].
  destruct (titles_of (examples b)) as [ts|e]; cbn; [|discriminate].
  intros [= <-]. exists ts. split; reflexivity.
Qed.

(** X4. In every record of the aggregated CSV [top_tags] and
    [example_titles] have at most 300 characters; a list of titles that is
    shorter is written whole. *)
Theorem tags_and_titles_are_cut_at_300 (analyses : list AnalysisResult) (row : AggRow) :
  In row (fst (aggregated_csv (aggregate analyses))) ->
  (String.length (top_tags row) <= 300)%nat /\
  (String.length (example_titles row) <= 300)%nat /\
  exists (b : Bucket) (titles : list string),
    dict_get (issue_key row) (aggregate analyses) = Some b /\
    titles_of (examples b) = Returns titles /\
    ((String.length (py_join "; " titles) <= 300)%nat ->
     example_titles row = py_join "; " titles).
Proof.
  intros Hin. apply aggregated_csv_In in Hin as (b & Hb & Hrow).
  pose proof (aggregated_row_Returns _ _ _ Hrow) as (_ & _ & _ & _ & Ht & _).
  destruct (aggregated_row_titles _ _ _ Hrow) as (titles & Hts & He).
  rewrite Ht, He. split; [apply py_prefix_length|]. split; [apply py_prefix_length|].
  exists b, titles. split; [|split; [exact Hts|]].
  - now apply dict_get_In; [apply aggregate_keys_unique|].
  - intros Hshort. now apply py_prefix_short.
Qed.

(** X4 at the record of [three_severities]. *)
Lemma tags_and_titles_are_cut_at_300_witness :
  let row := {| issue_key := "lms mobile app crashes"; posts := 3; avg_severity := 3%float;
                audiences_cell := ""; top_tags := "";
                example_titles := "first; second; third"; links_count := 0 |} in
  In row (fst (aggregated_csv (aggregate three_severities))) /\
  (String.length (top_tags row) <= 300)%nat /\
  (String.length (example_titles row) <= 300)%nat /\
  exists (b : Bucket) (titles : list string),
    dict_get (issue_key row) (aggregate three_severities) = Some b /\
    titles_of (examples b) = Returns titles /\
    ((String.length (py_join "; " titles) <= 300)%nat ->
     example_titles row = py_join "; " titles).
Proof.
  intros row.
  assert (Hin : In row (fst (aggregated_csv (aggregate three_severities))))
    by (vm_compute; left; reflexivity).
  split; [exact Hin|].
  exact (tags_and_titles_are_cut_at_300 three_severities row Hin).
Defined.

(** X5. [links_count] is the number of distinct URLs among the
    [useful_links] of the results of the record's key: a URL given by
    several results, or several times by one, counts once. *)
Theorem links_count_is_the_number_of_distinct_urls (analyses : list AnalysisResult)
    (row : AggRow) :
  In row (fst (aggregated_csv (aggregate analyses))) ->
  let urls := urls_of (contributing (issue_key row) analyses) in
  links_count row = Z.of_nat (size (list_to_set urls : gset string)) /\
  links_count row <= Z.of_nat (length urls) /\
  (List.NoDup urls -> links_count row = Z.of_nat (length urls)).
Proof.
  intros Hin urls. apply aggregated_csv_In in Hin as (b & Hb & Hrow).
  apply aggregate_In in Hb as (_ & _ & Hb).
  apply aggregated_row_Returns in Hrow as (_ & _ & _ & _ & _ & Hl).
  assert (Hlinks : links b = list_to_set urls).
  { rewrite Hb, absorb_all_links. cbn [new_bucket links]. fold (urls_of (contributing (issue_key row) analyses)).
    fold urls. set_solver. }
  rewrite Hl, Hlinks. split; [reflexivity|]. split.
  - pose proof (size_list_to_set_le urls). lia.
  - intros Hnd. rewrite size_list_to_set; [reflexivity|].
    now apply NoDup_ListNoDup.
Qed.

(** X5 at two results that give four URLs, two of them distinct. *)
Lemma links_count_is_the_number_of_distinct_urls_witness :
  let row := {| issue_key := "course content outdated"; posts := 2; avg_severity := 3%float;
                audiences_cell := ""; top_tags := "";
                example_titles := "a; b"; links_count := 2 |} in
  let urls := urls_of (contributing (issue_key row) shared_links) in
  In row (fst (aggregated_csv (aggregate shared_links))) /\
  links_count row = Z.of_nat (size (list_to_set urls : gset string)) /\
  links_count row <= Z.of_nat (length urls) /\
  (List.NoDup urls -> links_count row = Z.of_nat (length urls)).
Proof.
  intros row urls.
  assert (Hin : In row (fst (aggregated_csv (aggregate shared_links))))
    by (vm_compute; left; reflexivity).
  split; [exact Hin|].
  exact (links_count_is_the_number_of_distinct_urls shared_links row Hin).
Defined.

(** ** The per-post CSV of a run with analyses *)

Lemma dict_writerow_flattened (a : AnalysisResult) :
  dict_writerow flatten_columns (_flatten_for_row a) = Returns (map snd (_flatten_for_row a)).
Proof. reflexivity. Qed.

(** X6. With at least one analysis [_write_per_post_csv] never raises: it
    writes the thirteen keys of a flattened row as the header and then one
    record of thirteen values for each analysis, in order. (The header of
    the file without analyses is another one: the twelve fallback
    columns.) *)
Theorem per_post_csv_of_analyses (a : AnalysisResult) (analyses : list AnalysisResult) :
  _write_per_post_csv (a :: analyses)
  = (map CStr flatten_columns
       :: map (fun a' => map snd (_flatten_for_row a')) (a :: analyses),
     Returns tt) /\
  Forall (fun record => length record = 13%nat) (fst (_write_per_post_csv (a :: analyses))).
Proof.
  assert (Hw : forall l : list AnalysisResult,
             write_each (dict_writerow flatten_columns) (map _flatten_for_row l)
             = (map (fun a' => map snd (_flatten_for_row a')) l, Returns tt)).
  { intros l. apply write_each_all. induction l as [|a' l IH]; cbn [map]; constructor.
    - apply dict_writerow_flattened.
    - exact IH. }
  assert (Heq : _write_per_post_csv (a :: analyses)
                = (map CStr flatten_columns
                     :: map (fun a' => map snd (_flatten_for_row a')) (a :: analyses),
                   Returns tt)).
  { unfold _write_per_post_csv. cbn [map].
    change (row_keys (_flatten_for_row a)) with flatten_columns.
    change (_flatten_for_row a :: map _flatten_for_row analyses)
      with (map _flatten_for_row (a :: analyses)).
    now rewrite Hw. }
  split; [exact Heq|]. rewrite Heq. cbn [fst].
  constructor; [reflexivity|].
  apply List.Forall_forall. intros record Hin.
  apply in_map_iff in Hin as (a' & <- & _). reflexivity.
Qed.

(** ** The Markdown table *)

(** X7. After its two heading lines the Markdown file has one line for each
    of the first max(1, top_n) analyses, in order: a [top_n] of zero or less
    still shows the first analysis, and the file has
    2 + min(number of analyses, max(1, top_n)) lines. *)
Theorem md_shows_the_first_top_n (analyses : list AnalysisResult) (top_n : Z) :
  _write_per_post_md analyses top_n
  = _write_per_post_md [] top_n
      ++ map (fun a => md_line (_flatten_for_row a))
             (firstn (Z.to_nat (Z.max 1 top_n)) analyses) /\
  Z.of_nat (length (_write_per_post_md analyses top_n))
  = 2 + Z.min (Z.of_nat (length analyses)) (Z.max 1 top_n).
Proof.
  split; [|apply md_line_count].
  unfold _write_per_post_md. cbn [map]. rewrite py_slice_nil. cbn [map app].
  do 2 f_equal. rewrite py_slice_window by lia.
  rewrite Z.sub_0_r. change (Z.to_nat 0) with 0%nat. rewrite skipn_O.
  rewrite firstn_map, map_map. reflexivity.
Qed.

(** X8. The line of an analysis shows, in this order, post_id, subreddit,
    title, sentiment, severity, two empty cells under [target_audience] and
    [primary_topic_tags], then the problem statements, questions, solutions,
    links and dedupe key. The theme, sub-theme and stakeholders of the
    analysis are not shown. *)
Theorem md_line_of_an_analysis (a : AnalysisResult) :
  md_line (_flatten_for_row a)
  = "| " +:+ py_join " | "
       (map esc
          [ CStr (get (post_id a) "");
            CStr (get (subreddit a) "");
            CStr (py_strip (py_replace newline " " (get (title a) "")));
            CStr (get (sentiment a) "");
            match severity_1to5 a with Some n => CInt n | None => CStr "" end;
            CStr "";
            CStr "";
            CStr (flatten_join (get (problem_statements a) []) " | ");
            CStr (flatten_join (get (questions_users_ask a) []) " | ");
            CStr (flatten_join (get (proposed_solutions a) []) " | ");
            CStr (flatten_join (get (useful_links a) []) " ");
            CStr (get (dedupe_key a) "") ])
     +:+ " |" +:+ nl.
Proof. reflexivity. Qed.

Lemma string_app_assoc (a b c : string) : (a +:+ b) +:+ c = a +:+ b +:+ c.
Proof.
  induction a as [|x a IH]; [reflexivity|].
  change (String x ((a +:+ b) +:+ c) = String x (a +:+ b +:+ c)).
  now rewrite IH.
Qed.

Lemma esc_then_space (s rest : string) :
  forall p : bool,
    bare_pipes_from p (py_replace "|" "\|" s +:+ String " " rest)
    = bare_pipes_from false rest.
Proof.
  induction s as [|c s IH]; intros p.
  - reflexivity.
  - cbn [py_replace]. destruct (Ascii.eqb_spec c "|"%char) as [->|Hne].
    + cbn. apply IH.
    + change (((if Ascii.eqb c "|" && negb p then 1 else 0)
               + bare_pipes_from (Ascii.eqb c "\")
                   (py_replace "|" "\|" s +:+ String " " rest))%nat
              = bare_pipes_from false rest).
      destruct (Ascii.eqb_spec c "|"%char) as [?|_]; [contradiction|].
      cbn [andb]. rewrite IH. reflexivity.
Qed.

Lemma pipe_then_space (rest : string) :
  bare_pipes_from false ("| " +:+ rest) = S (bare_pipes_from false rest).
Proof. reflexivity. Qed.

Lemma joined_cells_then_space (cells : list Cell) (rest : string) :
  cells <> [] ->
  forall p : bool,
    bare_pipes_from p (py_join " | " (map esc cells) +:+ String " " rest)
    = (length cells - 1 + bare_pipes_from false rest)%nat.
Proof.
  intros Hne. induction cells as [|x cells IH]; [contradiction|]. intros p.
  destruct cells as [|y cells].
  - cbn [map py_join String.concat length]. unfold esc. now rewrite esc_then_space.
  - change (py_join " | " (map esc (x :: y :: cells)))
      with (esc x +:+ " | " +:+ py_join " | " (map esc (y :: cells))).
    rewrite !string_app_assoc.
    change (" | " +:+ py_join " | " (map esc (y :: cells)) +:+ String " " rest)
      with (String " " ("| " +:+ py_join " | " (map esc (y :: cells)) +:+ String " " rest)).
    unfold esc at 1. rewrite esc_then_space, pipe_then_space.
    rewrite IH by discriminate. cbn [length]. lia.
Qed.

(** X9. Whatever the cells hold, the line of a row has exactly thirteen
    pipes that do not come right after a backslash: the twelve cells are
    delimited and every pipe inside a cell is written after a backslash. *)
Theorem md_line_has_thirteen_bare_pipes (r : Row) : bare_pipes (md_line r) = 13%nat.
Proof.
  unfold md_line, bare_pipes.
  rewrite pipe_then_space.
  change (" |" +:+ nl) with (String " " ("|" +:+ nl)).
  rewrite <- (map_map (fun h => row_get h r) esc).
  rewrite joined_cells_then_space by discriminate.
  reflexivity.
Qed.

(** ** Flattening *)

Lemma has_newline_app (a b : string) :
  has_newline (a +:+ b) = has_newline a || has_newline b.
Proof.
  induction a as [|c a IH]; [reflexivity|].
  change (has_newline (String c (a +:+ b)) = has_newline (String c a) || has_newline b).
  cbn [has_newline]. now rewrite IH, orb_assoc.
Qed.

Lemma has_newline_replace (s : string) : has_newline (py_replace newline " " s) = false.
Proof.
  induction s as [|c s IH]; [reflexivity|].
  cbn [py_replace]. destruct (Ascii.eqb_spec c newline) as [->|Hne].
  - rewrite has_newline_app, IH. reflexivity.
  - cbn [has_newline]. rewrite IH.
    destruct (Ascii.eqb_spec c newline); [contradiction|reflexivity].
Qed.

Lemma has_newline_lstrip (s : string) :
  has_newline s = false -> has_newline (py_lstrip s) = false.
Proof.
  induction s as [|c s IH]; [reflexivity|].
  cbn [py_lstrip]. destruct (is_space c); [|tauto].
  cbn [has_newline]. intros H. apply orb_false_iff in H as [_ H]. now apply IH.
Qed.

Lemma has_newline_rstrip (s : string) :
  has_newline s = false -> has_newline (py_rstrip s) = false.
Proof.
  induction s as [|c s IH]; [reflexivity|].
  cbn [has_newline py_rstrip]. intros H. apply orb_false_iff in H as [Hc Hs].
  specialize (IH Hs). destruct (py_rstrip s) as [|c' t].
  - destruct (is_space c); [reflexivity|]. cbn [has_newline]. now rewrite Hc.
  - cbn [has_newline] in *. now rewrite Hc, IH.
Qed.

Lemma has_newline_strip (s : string) :
  has_newline s = false -> has_newline (py_strip s) = false.
Proof. intros H. unfold py_strip. now apply has_newline_rstrip, has_newline_lstrip. Qed.

Lemma has_newline_join (sep : string) (l : list string) :
  has_newline sep = false ->
  Forall (fun s => has_newline s = false) l ->
  has_newline (py_join sep l) = false.
Proof.
  intros Hsep. induction 1 as [|x l Hx Hl IH]; [reflexivity|].
  destruct l as [|y l]; [exact Hx|].
  change (py_join sep (x :: y :: l)) with (x +:+ sep +:+ py_join sep (y :: l)).
  now rewrite !has_newline_app, Hx, Hsep, IH.
Qed.

Lemma has_newline_flatten_join (arr : list string) (sep : string) :
  has_newline sep = false -> has_newline (flatten_join arr sep) = false.
Proof.
  intros Hsep. unfold flatten_join. destruct arr as [|x arr]; [reflexivity|].
  apply has_newline_join; [exact Hsep|].
  apply List.Forall_forall. intros s Hs.
  apply in_map_iff in Hs as (s0 & <- & _).
  apply has_newline_strip, has_newline_replace.
Qed.

(** X10. Every flattened row has the same thirteen keys in the same order,
    and its title and its five joined lists hold no newline, whatever the
    analysis holds. (The other seven values are passed on as they are.) *)
Theorem flattened_row_is_stable (a : AnalysisResult) :
  row_keys (_flatten_for_row a) = flatten_columns /\
  Forall (fun k => has_newline (str_of_cell (row_get k (_flatten_for_row a))) = false)
         [ "title"; "stakeholders"; "problem_statements"; "questions_users_ask";
           "proposed_solutions"; "useful_links" ].
Proof.
  split; [reflexivity|].
  repeat constructor; cbn [row_get _flatten_for_row String.eqb str_of_cell];
    first [ apply has_newline_strip, has_newline_replace
          | apply has_newline_flatten_join; reflexivity ].
Qed.

(** X11. A blank item of a list leaves no trace in the joined cell, not
    even a separator: the cell is the same without it. *)
Theorem blank_items_are_dropped (before after : list string) (x sep : string) :
  all_space x = true ->
  flatten_join (before ++ x :: after) sep = flatten_join (before ++ after) sep.
Proof.
  intros Hx. apply strip_empty in Hx.
  assert (Hf : List.filter (fun y => truthy (py_strip y)) (before ++ x :: after)
               = List.filter (fun y => truthy (py_strip y)) (before ++ after)).
  { rewrite !List.filter_app. f_equal.
    change (List.filter (fun y => truthy (py_strip y)) (x :: after))
      with (if truthy (py_strip x)
            then x :: List.filter (fun y => truthy (py_strip y)) after
            else List.filter (fun y => truthy (py_strip y)) after).
    now rewrite Hx. }
  unfold flatten_join. rewrite Hf.
  destruct (before ++ x :: after) eqn:E1; [now destruct before|].
  destruct (before ++ after) eqn:E2; [|reflexivity].
  apply app_eq_nil in E2 as [-> ->]. reflexivity.
Qed.

(** X11 at a list with a whitespace-only item in the middle. *)
Lemma blank_items_are_dropped_witness :
  all_space "  " = true /\
  flatten_join (["Students"] ++ "  " :: ["Teachers"]) "; "
  = flatten_join (["Students"] ++ ["Teachers"]) "; ".
Proof.
  split; [reflexivity|].
  exact (blank_items_are_dropped ["Students"] ["Teachers"] "  " "; " eq_refl).
Defined.

(** ** The whole run *)

Lemma batch_plan_nil {RawPost : Type} (bs : Z) :
  1 <= bs -> batch_plan bs (@nil RawPost) = Returns [].
Proof.
  intros Hbs. rewrite batch_plan_closed by exact Hbs. cbn [length].
  replace ((Z.of_nat 0 + bs - 1) / bs) with 0; [reflexivity|].
  symmetry. apply Z.div_small. lia.
Qed.

Lemma batch_plan_cons {RawPost : Type} (bs : Z) (p : RawPost) (rest : list RawPost) :
  1 <= bs ->
  exists (batch : list RawPost) (plan : list (Z * list RawPost)),
    batch_plan bs (p :: rest) = Returns ((0, batch) :: plan).
Proof.
  intros Hbs. rewrite batch_plan_closed by exact Hbs.
  destruct (ceil_div_bounds (Z.of_nat (length (p :: rest))) bs Hbs ltac:(lia))
    as (Hn0 & Hlo & Hhi).
  set (n := (Z.of_nat (length (p :: rest)) + bs - 1) / bs) in *.
  assert (Hn : 1 <= n) by (cbn [length] in Hhi; nia).
  destruct (Z.to_nat n) as [|m] eqn:Hm; [lia|].
  cbn [seq map]. eexists. eexists. reflexivity.
Qed.

Section WholeRun.

Context {RawPost : Type}.
Variable svc : Service RawPost AnalysisResult.
Variable sm : Summarizer.
Variable args : Args.

Lemma model_name_without_model :
  no_model args -> _model_name analysis_globals svc args = Raises (NameError "os").
Proof. intros [H|H]; unfold _model_name; rewrite H; reflexivity. Qed.

Lemma body_raises_without_model (i : Z) (a : nat) (batch : list RawPost) :
  no_model args -> exists e, analyze_batch_body analysis_globals svc args i a batch = Raises e.
Proof.
  intros H. unfold analyze_batch_body.
  destruct (make_client svc i a) as [[]|e]; cbn.
  - rewrite (model_name_without_model H). cbn. now eexists.
  - now eexists.
Qed.

Lemma summarize_raises_without_model (buckets : Buckets) :
  no_model args -> exists e, summarize analysis_globals svc sm args buckets = Raises e.
Proof.
  intros H. unfold summarize.
  destruct (summary_client sm) as [[]|e]; cbn.
  - rewrite (model_name_without_model H). cbn. now eexists.
  - now eexists.
Qed.

End WholeRun.

(** X12. Without [--model] the analysis never ends normally. [_model_name]
    then reads [os], which [analysis.py] does not import, so every attempt
    of the first batch raises, and with no post at all the summary request
    does; either way the handler that should report it reads [sys], which is
    not imported either. The run ends in [NameError] before any per-post
    file or summary is written. *)
Theorem run_without_model_raises {RawPost : Type} (svc : Service RawPost AnalysisResult)
    (sm : Summarizer) (args : Args) (all_rows : list RawPost) :
  no_model args ->
  let run := run_openai_analysis analysis_globals svc sm args all_rows in
  snd run = Raises (NameError "sys") /\
  summary_md (fst run) = None /\
  analysis_per_post_csv (fst run) = None /\
  analysis_per_post_md (fst run) = None.
Proof.
  intros Hmodel run. unfold run, run_openai_analysis.
  assert (Hbs : 1 <= effective_batch_size args) by (unfold effective_batch_size; lia).
  destruct all_rows as [|p rest].
  - unfold extraction. rewrite (batch_plan_nil _ Hbs). cbn [batch_loop].
    change (aggregated_csv (aggregate (analyses (@start RawPost AnalysisResult))))
      with (@nil AggRow, @Returns unit tt).
    cbn iota beta zeta. unfold summary_and_per_post.
    destruct (summarize_raises_without_model svc sm args
                (aggregate (analyses (@start RawPost AnalysisResult))) Hmodel) as [e He].
    rewrite He. cbn. repeat split.
  - destruct (batch_plan_cons (effective_batch_size args) p rest Hbs) as (batch & plan & Hplan).
    unfold extraction. rewrite Hplan.
    assert (Hfail : fails_every_attempt analysis_globals svc args 0 batch).
    { intros a _. now apply body_raises_without_model. }
    destruct (failed_batch_is_retried analysis_globals svc args 0 batch Hfail)
      as (_ & _ & e & Hend).
    destruct (batch_loop_when_sys_is_unbound analysis_globals svc args
                (effective_batch_size args) 0 batch plan start (RetryError e)
                eq_refl Hend) as (Ho & _).
    destruct (batch_loop analysis_globals svc args (effective_batch_size args)
                ((0, batch) :: plan) start) as [st o].
    cbn [snd] in Ho. subst o. cbn. repeat split.
Qed.

(** X12 at the two posts of the outage run, with the default arguments. *)
Lemma run_without_model_raises_witness :
  let args := {| batch_size := 20; model := None; table := "both"; md_top := 50 |} in
  let svc := answers_with_key "LMS mobile app crashes" in
  let run := run_openai_analysis analysis_globals svc one_line_summary args outage_posts in
  no_model args /\
  snd run = Raises (NameError "sys") /\
  summary_md (fst run) = None /\
  analysis_per_post_csv (fst run) = None /\
  analysis_per_post_md (fst run) = None.
Proof.
  intros args svc run. split; [left; reflexivity|].
  exact (run_without_model_raises svc one_line_summary args outage_posts (or_introl eq_refl)).
Defined.

Lemma aggregate_nil_iff (raw : list AnalysisResult) : aggregate raw = [] <-> keyed raw = [].
Proof.
  pose proof (total_count_fold raw []) as Ht. fold (aggregate raw) in Ht.
  cbn in Ht. split; intros H.
  - rewrite H in Ht. cbn in Ht. destruct (keyed raw); [reflexivity|cbn in Ht; lia].
  - rewrite H in Ht. cbn in Ht.
    destruct (aggregate raw) as [|[k b] d] eqn:Hagg; [reflexivity|].
    assert (Hin : In (k, b) (aggregate raw)) by (rewrite Hagg; now left).
    apply aggregate_In in Hin as (_ & Hne & _). exfalso. apply Hne.
    unfold contributing. unfold keyed in H.
    destruct (List.filter (fun r => String.eqb (bucket_key r) k) raw) as [|r rs] eqn:Hf;
      [reflexivity|].
    assert (Hr : In r (List.filter (fun r => String.eqb (bucket_key r) k) raw))
      by (rewrite Hf; now left).
    apply filter_In in Hr as [Hr Hk]. apply String.eqb_eq in Hk.
    assert (Hkeyed : In r (List.filter (fun r => truthy (bucket_key r)) raw)).
    { apply filter_In. split; [exact Hr|].
      assert (Hin : In (k, b) (aggregate raw)) by (rewrite Hagg; now left).
      apply aggregate_In in Hin as (Htk & _). now rewrite Hk. }
    rewrite H in Hkeyed. contradiction.
Qed.

Lemma write_per_post_keeps (args : Args) (raw : list AnalysisResult) (out : Outputs) :
  let out' := fst (write_per_post args raw out) in
  analysis_jsonl out' = analysis_jsonl out /\
  issues_aggregated_csv out' = issues_aggregated_csv out /\
  summary_md out' = summary_md out /\
  errors out' = errors out /\
  analysis_per_post_csv out' = Some (fst (_write_per_post_csv raw)).
Proof.
  unfold write_per_post. destruct (_write_per_post_csv raw) as [records [[]|e]]; cbn.
  - destruct (String.eqb (table args) "md" || String.eqb (table args) "both"); cbn;
      repeat split.
  - repeat split.
Qed.

Lemma batch_loop_prints_nothing_without_sys {RawPost Analysis : Type} (g : namespace)
    (svc : Service RawPost Analysis) (args : Args) (bs : Z)
    (plan : list (Z * list RawPost)) (ne : exn) :
  resolve g "sys" = Raises ne ->
  forall st : Progress RawPost Analysis,
    stderr (fst (batch_loop g svc args bs plan st)) = stderr st.
Proof.
  intros Hsys. induction plan as [|[i batch] rest IH]; intros st; [reflexivity|].
  cbn [batch_loop]. rewrite Hsys.
  destruct (ended (analyze_batch_with_openai g svc args i batch)); [|reflexivity].
  now rewrite IH.
Qed.

Lemma summarize_raises_with_buckets {RawPost : Type} (g : namespace)
    (svc : Service RawPost AnalysisResult) (sm : Summarizer) (args : Args)
    (buckets : Buckets) :
  buckets <> [] -> exists e, summarize g svc sm args buckets = Raises e.
Proof.
  intros Hne. unfold summarize.
  destruct (summary_client sm) as [[]|e]; cbn; [|now eexists].
  destruct (_model_name g svc args) as [m|e]; cbn; [|now eexists].
  destruct buckets; [contradiction|]. cbn. now eexists.
Qed.

Lemma summary_and_per_post_keeps {RawPost : Type} (g : namespace)
    (svc : Service RawPost AnalysisResult) (sm : Summarizer) (args : Args)
    (raw : list AnalysisResult) (buckets : Buckets) (out : Outputs) :
  let out' := fst (summary_and_per_post g svc sm args raw buckets out) in
  analysis_jsonl out' = analysis_jsonl out /\
  issues_aggregated_csv out' = issues_aggregated_csv out.
Proof.
  unfold summary_and_per_post.
  destruct (summarize g svc sm args buckets) as [bullet|e].
  - match goal with |- context [write_per_post args ?r ?o] =>
      destruct (write_per_post_keeps args r o) as (Hj & Hc & _) end.
    cbn zeta in *. now rewrite Hj, Hc.
  - destruct (resolve g "sys") as [[]|ne]; [|split; reflexivity].
    match goal with |- context [write_per_post args ?r ?o] =>
      destruct (write_per_post_keeps args r o) as (Hj & Hc & _) end.
    cbn zeta in *. now rewrite Hj, Hc.
Qed.

(** X13. Once a result with a non-blank key has been collected, no summary
    is written, in any module: the request needs [json.dumps(buckets)], and
    a bucket holds sets. In [analysis.py], where the handler cannot read
    [sys], the run then raises and writes no per-post file either. *)
Theorem buckets_prevent_the_summary {RawPost : Type} (g : namespace)
    (svc : Service RawPost AnalysisResult) (sm : Summarizer) (args : Args)
    (all_rows : list RawPost) (raw : list AnalysisResult) :
  let run := run_openai_analysis g svc sm args all_rows in
  analysis_jsonl (fst run) = Some raw ->
  keyed raw <> [] ->
  summary_md (fst run) = None /\
  (resolve g "sys" = Raises (NameError "sys") ->
   (exists e, snd run = Raises e) /\
   analysis_per_post_csv (fst run) = None /\
   analysis_per_post_md (fst run) = None).
Proof.
  intros run. unfold run, run_openai_analysis.
  destruct (extraction g svc args all_rows) as [st [[]|e]]; cbn; [|discriminate].
  destruct (aggregated_csv (aggregate (analyses st))) as [rows [[]|e]] eqn:Hcsv; cbn.
  - match goal with |- context [summary_and_per_post g svc sm args ?r ?b ?o] =>
      destruct (summary_and_per_post_keeps g svc sm args r b o) as (Hj & _) end.
    cbn zeta in Hj. rewrite Hj. cbn [analysis_jsonl].
    intros [= <-] Hkeyed.
    assert (Hne : aggregate (analyses st) <> [])
      by (intros H; now apply aggregate_nil_iff in H).
    unfold summary_and_per_post.
    destruct (summarize_raises_with_buckets g svc sm args _ Hne) as [e He]. rewrite He.
    destruct (resolve g "sys") as [[]|ne] eqn:Hsys.
    + match goal with |- context [write_per_post args ?r ?o] =>
        destruct (write_per_post_keeps args r o) as (_ & _ & Hs & _) end.
      cbn zeta in Hs. rewrite Hs. cbn. split; [reflexivity|discriminate].
    + cbn. split; [reflexivity|]. intros _. repeat split. now eexists.
  - intros [= <-] _. split; [reflexivity|]. intros _. repeat split. now eexists.
Qed.

(** X13 at the two posts of the outage run, analysed under one key. *)
Lemma buckets_prevent_the_summary_witness :
  let svc := answers_with_key "LMS mobile app crashes" in
  let raw := [ sample "edtech" "p1" (Some 2) "LMS mobile app crashes";
               sample "edtech" "p2" (Some 2) "LMS mobile app crashes" ] in
  let run := run_openai_analysis analysis_globals svc one_line_summary outage_args
               outage_posts in
  analysis_jsonl (fst run) = Some raw /\
  keyed raw <> [] /\
  summary_md (fst run) = None /\
  (resolve analysis_globals "sys" = Raises (NameError "sys") ->
   (exists e, snd run = Raises e) /\
   analysis_per_post_csv (fst run) = None /\
   analysis_per_post_md (fst run) = None).
Proof.
  intros svc raw run.
  assert (Hraw : analysis_jsonl (fst run) = Some raw) by (vm_compute; reflexivity).
  assert (Hkeyed : keyed raw <> []) by (vm_compute; discriminate).
  split; [exact Hraw|]. split; [exact Hkeyed|].
  exact (buckets_prevent_the_summary analysis_globals svc one_line_summary outage_args
           outage_posts raw Hraw Hkeyed).
Defined.

Lemma extraction_prints_nothing_without_sys {RawPost Analysis : Type} (g : namespace)
    (svc : Service RawPost Analysis) (args : Args) (all_rows : list RawPost) (ne : exn) :
  resolve g "sys" = Raises ne ->
  stderr (fst (extraction g svc args all_rows)) = [].
Proof.
  intros Hsys. unfold extraction.
  destruct (batch_plan (effective_batch_size args) all_rows) as [plan|e]; [|reflexivity].
  now rewrite (batch_loop_prints_nothing_without_sys g svc args _ plan ne Hsys).
Qed.

Lemma summarize_Returns {RawPost : Type} (svc : Service RawPost AnalysisResult)
    (sm : Summarizer) (args : Args) (buckets : Buckets) (bullet : option string) :
  summarize analysis_globals svc sm args buckets = Returns bullet ->
  buckets = [] /\ exists c m, model args = Some (String c m).
Proof.
  unfold summarize. destruct (summary_client sm) as [[]|e]; cbn; [|discriminate].
  unfold _model_name. destruct (model args) as [[|c m]|]; cbn; try discriminate.
  destruct buckets; cbn; [|discriminate].
  intros _. split; [reflexivity|]. now exists c, m.
Qed.

(** X14. A run of [analysis.py] that ends normally has aggregated nothing:
    no collected result has a non-blank key, the aggregated CSV is only its
    header, nothing was printed on the error stream, and [--model] was
    given. The raw analyses, a summary and the per-post CSV are then
    written. *)
Theorem normal_end_means_nothing_aggregated {RawPost : Type}
    (svc : Service RawPost AnalysisResult) (sm : Summarizer) (args : Args)
    (all_rows : list RawPost) :
  let run := run_openai_analysis analysis_globals svc sm args all_rows in
  snd run = Returns tt ->
  exists (raw : list AnalysisResult) (summary : string),
    analysis_jsonl (fst run) = Some raw /\
    keyed raw = [] /\
    issues_aggregated_csv (fst run) = Some [] /\
    summary_md (fst run) = Some summary /\
    analysis_per_post_csv (fst run) = Some (fst (_write_per_post_csv raw)) /\
    errors (fst run) = [] /\
    exists c m, model args = Some (String c m).
Proof.
  intros run. unfold run, run_openai_analysis.
  pose proof (extraction_prints_nothing_without_sys analysis_globals svc args all_rows
                (NameError "sys") eq_refl) as Herr.
  destruct (extraction analysis_globals svc args all_rows) as [st [[]|e]];
    cbn [fst snd] in *; [|discriminate].
  destruct (aggregated_csv (aggregate (analyses st))) as [rows [[]|e]] eqn:Hcsv;
    cbn [fst snd]; [|discriminate].
  unfold summary_and_per_post.
  destruct (summarize analysis_globals svc sm args (aggregate (analyses st)))
    as [bullet|e] eqn:Hsum; [|cbn; discriminate].
  apply summarize_Returns in Hsum as (Hagg & Hmodel).
  rewrite Hagg in Hcsv. cbn in Hcsv. injection Hcsv as <-.
  match goal with |- context [write_per_post args ?r ?o] =>
    destruct (write_per_post_keeps args r o) as (Hj & Hc & Hs & He & Hp) end.
  cbn zeta in *. intros _.
  exists (analyses st), (get bullet "").
  rewrite Hj, Hc, Hs, He, Hp. cbn.
  repeat split; try assumption. now apply aggregate_nil_iff.
Qed.

(** X14 at the two posts of the outage run, analysed with blank keys. *)
Lemma normal_end_means_nothing_aggregated_witness :
  let svc := answers_with_key "" in
  let run := run_openai_analysis analysis_globals svc one_line_summary outage_args
               outage_posts in
  snd run = Returns tt /\
  exists (raw : list AnalysisResult) (summary : string),
    analysis_jsonl (fst run) = Some raw /\
    keyed raw = [] /\
    issues_aggregated_csv (fst run) = Some [] /\
    summary_md (fst run) = Some summary /\
    analysis_per_post_csv (fst run) = Some (fst (_write_per_post_csv raw)) /\
    errors (fst run) = [] /\
    exists c m, model outage_args = Some (String c m).
Proof.
  intros svc run.
  assert (Hrun : snd run = Returns tt) by (vm_compute; reflexivity).
  split; [exact Hrun|].
  exact (normal_end_means_nothing_aggregated svc one_line_summary outage_args outage_posts Hrun).
Defined.

(** ** Prompt items *)

Lemma starts_clean_lstrip (s : string) : starts_clean (py_lstrip s) = true.
Proof.
  induction s as [|c s IH]; [reflexivity|].
  cbn [py_lstrip]. destruct (is_space c) eqn:Hc; [exact IH|].
  cbn. now rewrite Hc.
Qed.

Lemma lstrip_clean (s : string) : starts_clean s = true -> py_lstrip s = s.
Proof.
  destruct s as [|c s]; [reflexivity|]. cbn. now destruct (is_space c).
Qed.

Lemma starts_clean_rstrip (s : string) :
  starts_clean s = true -> starts_clean (py_rstrip s) = true.
Proof.
  destruct s as [|c s]; [reflexivity|]. cbn [starts_clean py_rstrip]. intros Hc.
  destruct (is_space c) eqn:E; [discriminate|].
  destruct (py_rstrip s); cbn [starts_clean]; now rewrite E.
Qed.

Lemma rstrip_rstrip (s : string) : py_rstrip (py_rstrip s) = py_rstrip s.
Proof.
  induction s as [|c s IH]; [reflexivity|].
  cbn [py_rstrip]. destruct (py_rstrip s) as [|c' t] eqn:Hr.
  - destruct (is_space c) eqn:Hc; [reflexivity|]. cbn. now rewrite Hc.
  - cbn [py_rstrip]. cbn [py_rstrip] in IH. now rewrite IH.
Qed.

Lemma rstrip_app_space (s w : string) :
  all_space w = true -> py_rstrip (s +:+ w) = py_rstrip s.
Proof.
  intros Hw. induction s as [|c s IH].
  - cbn. now apply rstrip_empty.
  - change (String c s +:+ w) with (String c (s +:+ w)).
    cbn [py_rstrip]. now rewrite IH.
Qed.

Lemma rstrip_app_kept (a b : string) :
  py_rstrip b <> "" -> py_rstrip (a +:+ b) = a +:+ py_rstrip b.
Proof.
  intros Hb. induction a as [|c a IH]; [reflexivity|].
  change (String c a +:+ b) with (String c (a +:+ b)).
  change (String c a +:+ py_rstrip b) with (String c (a +:+ py_rstrip b)).
  cbn [py_rstrip]. rewrite IH.
  destruct (a +:+ py_rstrip b) as [|c' t] eqn:E; [|reflexivity].
  destruct a; [cbn in E; contradiction|discriminate].
Qed.

Lemma lstrip_app_space (w s : string) :
  all_space w = true -> py_lstrip (w +:+ s) = py_lstrip s.
Proof.
  induction w as [|c w IH]; [reflexivity|].
  cbn [all_space]. intros H. apply andb_true_iff in H as [Hc Hw].
  change (String c w +:+ s) with (String c (w +:+ s)).
  cbn [py_lstrip]. rewrite Hc. now apply IH.
Qed.

Lemma strip_is_stripped (s : string) :
  starts_clean (py_strip s) = true /\ py_rstrip (py_strip s) = py_strip s.
Proof.
  unfold py_strip. split; [apply starts_clean_rstrip, starts_clean_lstrip|apply rstrip_rstrip].
Qed.

Lemma strip_of_stripped (s : string) :
  starts_clean s = true -> py_rstrip s = s -> py_strip s = s.
Proof. intros Hc Hr. unfold py_strip. now rewrite (lstrip_clean s Hc). Qed.

(** Two stripped strings around a blank line, stripped again. *)
Lemma strip_paragraphs (T S : string) :
  starts_clean T = true -> py_rstrip T = T ->
  starts_clean S = true -> py_rstrip S = S ->
  py_strip (T +:+ nl +:+ nl +:+ S)
  = if truthy S then (if truthy T then T +:+ nl +:+ nl +:+ S else S) else T.
Proof.
  intros HcT HrT HcS HrS. unfold py_strip.
  destruct S as [|s S'].
  - cbn [truthy]. destruct T as [|t T']; [reflexivity|].
    rewrite lstrip_clean by exact HcT.
    rewrite rstrip_app_space by reflexivity. exact HrT.
  - cbn [truthy]. destruct T as [|t T'].
    + change ("" +:+ nl +:+ nl +:+ String s S') with ((nl +:+ nl) +:+ String s S').
      rewrite lstrip_app_space by reflexivity.
      rewrite lstrip_clean by exact HcS. exact HrS.
    + cbn [truthy]. rewrite lstrip_clean by exact HcT.
      rewrite <- !string_app_assoc.
      rewrite rstrip_app_kept by (rewrite HrS; discriminate).
      now rewrite HrS.
Qed.

(** X15. The text of a prompt item is the stripped title, a blank line and
    the stripped body; when one of the two is blank it is the other alone,
    and when both are it is empty. It never starts or ends with whitespace.
    (The fallback of line 84 changes nothing: it is taken only when the
    stripped title is empty.) *)
Theorem prompt_text_is_title_and_body (p : Post.t) :
  let T := py_strip (get (Post.title p) "") in
  let S := py_strip (get (Post.selftext p) "") in
  prompt_text p
  = (if truthy S then (if truthy T then T +:+ nl +:+ nl +:+ S else S) else T) /\
  prompt_text p = py_strip (T +:+ nl +:+ nl +:+ S) /\
  py_strip (prompt_text p) = prompt_text p.
Proof.
  intros T S.
  destruct (strip_is_stripped (get (Post.title p) "")) as [HcT HrT].
  destruct (strip_is_stripped (get (Post.selftext p) "")) as [HcS HrS].
  fold T in HcT, HrT. fold S in HcS, HrS.
  pose proof (strip_paragraphs T S HcT HrT HcS HrS) as Hbody.
  assert (Htext : prompt_text p
                  = if truthy S then (if truthy T then T +:+ nl +:+ nl +:+ S else S) else T).
  { unfold prompt_text. fold T. fold S. rewrite Hbody.
    destruct S as [|s S'], T as [|t T']; reflexivity. }
  split; [exact Htext|]. split.
  - rewrite Htext. now rewrite Hbody.
  - rewrite Htext at 1. rewrite <- Hbody.
    unfold py_strip at 1.
    destruct (strip_is_stripped (T +:+ nl +:+ nl +:+ S)) as [Hc Hr].
    rewrite (lstrip_clean _ Hc), Hr. now rewrite Hbody, Htext.
Qed.

Lemma prompt_item_cases (p : Post.t) :
  match prompt_item p with
  | Found item => has_indexed_keys p /\ item_of_post p item
  | KeyError k =>
      (Post.id p = None /\ k = "id") \/
      (Post.id p <> None /\ Post.subreddit p = None /\ k = "subreddit")
  end.
Proof.
  unfold prompt_item, has_indexed_keys, item_of_post.
  destruct (Post.id p) as [i|]; [|now left].
  destruct (Post.subreddit p) as [sr|]; [|right; repeat split; discriminate].
  cbn. rewrite py_slice_window by lia. repeat split; discriminate.
Qed.

(** X16. [_to_prompt_items] makes one item for each post, in order, with the
    post's id, subreddit, title, text and permalink and its first five top
    comments (none when the post has no [top_comments]). It raises
    [KeyError] exactly when a post lacks [id] or [subreddit], for the first
    such post and for [id] before [subreddit]. *)
Theorem prompt_items_of_a_batch (batch : list Post.t) :
  match _to_prompt_items batch with
  | Found items =>
      Forall has_indexed_keys batch /\
      Forall2 item_of_post batch items /\
      Forall (fun item => (length (PromptItem.comments item) <= 5)%nat) items
  | KeyError k =>
      exists (before : list Post.t) (p : Post.t) (after : list Post.t),
        batch = before ++ p :: after /\
        Forall has_indexed_keys before /\
        ((Post.id p = None /\ k = "id") \/
         (Post.id p <> None /\ Post.subreddit p = None /\ k = "subreddit"))
  end.
Proof.
  induction batch as [|p rest IH]; cbn [_to_prompt_items].
  - repeat constructor.
  - pose proof (prompt_item_cases p) as Hp.
    destruct (prompt_item p) as [item|k].
    + destruct Hp as [Hkeys Hitem].
      destruct (_to_prompt_items rest) as [items|k].
      * destruct IH as (Hall & Hitems & Hlen).
        split; [now constructor|]. split; [now constructor|].
        constructor; [|exact Hlen].
        destruct Hitem as (_ & _ & _ & _ & -> & _). rewrite length_firstn. lia.
      * destruct IH as (before & q & after & -> & Hbefore & Hq).
        exists (p :: before), q, after. split; [reflexivity|].
        split; [now constructor|exact Hq].
    + exists [], p, rest. split; [reflexivity|]. split; [constructor|exact Hp].
Qed.

(** * Properties of [reddit.py] *)

(** ** Characters that survive the reading of the file *)

Lemma all_chars_impl (P Q : ascii -> bool) (s : string) :
  (forall c, P c = true -> Q c = true) -> all_chars P s = true -> all_chars Q s = true.
Proof.
  intros HPQ. induction s as [|c s IH]; [reflexivity|].
  cbn. intros H. apply andb_true_iff in H as [Hc Hs].
  now rewrite (HPQ c Hc), IH.
Qed.

Lemma all_chars_app (P : ascii -> bool) (a b : string) :
  all_chars P (a +:+ b) = all_chars P a && all_chars P b.
Proof.
  induction a as [|c a IH]; [reflexivity|].
  change (String c a +:+ b) with (String c (a +:+ b)).
  cbn [all_chars]. now rewrite IH, andb_assoc.
Qed.

Lemma all_chars_lstrip (P : ascii -> bool) (s : string) :
  all_chars P s = true -> all_chars P (py_lstrip s) = true.
Proof.
  induction s as [|c s IH]; [reflexivity|].
  cbn [py_lstrip]. destruct (is_space c); [|tauto].
  cbn. intros H. apply andb_true_iff in H as [_ H]. now apply IH.
Qed.

Lemma all_chars_rstrip (P : ascii -> bool) (s : string) :
  all_chars P s = true -> all_chars P (py_rstrip s) = true.
Proof.
  induction s as [|c s IH]; [reflexivity|].
  cbn [all_chars py_rstrip]. intros H. apply andb_true_iff in H as [Hc Hs].
  specialize (IH Hs). destruct (py_rstrip s) as [|c' t].
  - destruct (is_space c); [reflexivity|]. cbn. now rewrite Hc.
  - cbn [all_chars] in *. now rewrite Hc, IH.
Qed.

Lemma all_chars_strip (P : ascii -> bool) (s : string) :
  all_chars P s = true -> all_chars P (py_strip s) = true.
Proof. intros H. unfold py_strip. now apply all_chars_rstrip, all_chars_lstrip. Qed.

Lemma all_chars_lstrip_chars (P : ascii -> bool) (chars s : string) :
  all_chars P s = true -> all_chars P (py_lstrip_chars chars s) = true.
Proof.
  induction s as [|c s IH]; [reflexivity|].
  cbn [py_lstrip_chars]. destruct (in_chars c chars); [|tauto].
  cbn. intros H. apply andb_true_iff in H as [_ H]. now apply IH.
Qed.

Lemma all_chars_before_hash (line : string) :
  all_chars (fun c => negb (Ascii.eqb c "#")) (before_hash line) = true.
Proof.
  induction line as [|c line IH]; [reflexivity|].
  cbn [before_hash]. destruct (Ascii.eqb c "#") eqn:Hc; [reflexivity|].
  cbn. now rewrite Hc, IH.
Qed.

Lemma all_chars_replace_comma (s : string) :
  all_chars (fun c => negb (Ascii.eqb c "#")) s = true ->
  all_chars (fun c => negb (Ascii.eqb c ",") && negb (Ascii.eqb c "#"))
            (py_replace "," " " s) = true.
Proof.
  induction s as [|c s IH]; [reflexivity|].
  cbn [all_chars py_replace]. intros H. apply andb_true_iff in H as [Hc Hs].
  destruct (Ascii.eqb c ",") eqn:Hcomma.
  - rewrite all_chars_app, IH by exact Hs. reflexivity.
  - cbn [all_chars]. now rewrite Hcomma, Hc, IH.
Qed.

Lemma py_split_tokens (P : ascii -> bool) (s : string) :
  all_chars P s = true ->
  Forall (fun t => t <> "" /\ all_chars (fun c => negb (is_space c) && P c) t = true)
         (py_split s).
Proof.
  induction s as [|c s IH]; [constructor|].
  cbn [all_chars]. intros H. apply andb_true_iff in H as [Hc Hs].
  specialize (IH Hs). cbn [py_split].
  destruct (is_space c) eqn:Hsp; [exact IH|].
  destruct s as [|c' s'].
  - constructor; [|constructor]. split; [discriminate|]. cbn. now rewrite Hsp, Hc.
  - destruct (is_space c') eqn:Hsp'.
    + constructor; [|exact IH]. split; [discriminate|]. cbn. now rewrite Hsp, Hc.
    + destruct (py_split (String c' s')) as [|t ts].
      * constructor; [|constructor]. split; [discriminate|]. cbn. now rewrite Hsp, Hc.
      * apply Forall_cons_iff in IH as [[_ Ht] Hts].
        constructor; [|exact Hts]. split; [discriminate|].
        cbn [all_chars]. now rewrite Hsp, Hc, Ht.
Qed.

Lemma strip_without_space (s : string) :
  all_chars (fun c => negb (is_space c)) s = true -> py_strip s = s.
Proof.
  intros H. apply strip_of_stripped.
  - destruct s as [|c s]; [reflexivity|]. cbn in *. now apply andb_true_iff in H as [H _].
  - induction s as [|c s IH]; [reflexivity|].
    cbn [all_chars] in H. apply andb_true_iff in H as [Hc Hs].
    cbn [py_rstrip]. rewrite (IH Hs).
    destruct s; [|reflexivity]. apply negb_true_iff in Hc. now rewrite Hc.
Qed.

(** The names of a line are its pieces between whitespace and commas, up to
    the first [#]. *)
Lemma names_of_line_chars (line : string) :
  Forall (fun t => t <> "" /\ all_chars name_char t = true) (names_of_line line).
Proof.
  unfold names_of_line.
  destruct (truthy (py_strip (before_hash line))); [|constructor].
  pose proof (py_split_tokens _ _
                (all_chars_replace_comma _
                   (all_chars_strip _ _ (all_chars_before_hash line)))) as Htok.
  apply List.Forall_forall. intros t Ht.
  apply in_map_iff in Ht as (t0 & <- & Ht0).
  apply filter_In in Ht0 as [Ht0 _].
  rewrite List.Forall_forall in Htok. destruct (Htok t0 Ht0) as [Hne Hchars].
  assert (Hsp : all_chars (fun c => negb (is_space c)) t0 = true).
  { eapply all_chars_impl; [|exact Hchars]. cbn. intros c Hc.
    now apply andb_true_iff in Hc as [Hc _]. }
  rewrite (strip_without_space t0 Hsp). split; [exact Hne|].
  eapply all_chars_impl; [|exact Hchars]. cbn. intros c Hc. unfold name_char.
  now rewrite andb_assoc in Hc.
Qed.

Lemma raw_names_chars (text : string) :
  Forall (fun t => t <> "" /\ all_chars name_char t = true) (raw_names text).
Proof.
  unfold raw_names. induction (py_splitlines text) as [|line lines IH]; [constructor|].
  cbn [map concat]. apply Forall_app. split; [apply names_of_line_chars|exact IH].
Qed.

(** ** The cleaned names *)

Lemma lstrip_chars_fixed (chars s : string) :
  py_lstrip_chars chars (py_lstrip_chars chars s) = py_lstrip_chars chars s.
Proof.
  induction s as [|c s IH]; [reflexivity|].
  cbn [py_lstrip_chars]. destruct (in_chars c chars) eqn:Hc; [exact IH|].
  cbn [py_lstrip_chars]. now rewrite Hc.
Qed.

Lemma clean_names_In (seen raw : list string) (n : string) :
  In n (clean_names seen raw) ->
  exists t, In t raw /\ n = py_strip (py_lstrip_chars "r/" t).
Proof.
  revert seen. induction raw as [|t raw IH]; intros seen; cbn [clean_names]; [intros []|].
  destruct (existsb (String.eqb (py_lower (py_strip (py_lstrip_chars "r/" t)))) seen).
  - intros Hin. destruct (IH _ Hin) as (t' & Ht' & ->). exists t'. split; [now right|reflexivity].
  - intros [<-|Hin].
    + exists t. split; [now left|reflexivity].
    + destruct (IH _ Hin) as (t' & Ht' & ->). exists t'. split; [now right|reflexivity].
Qed.

Lemma clean_names_distinct (raw : list string) :
  forall seen : list string,
    List.NoDup (map py_lower (clean_names seen raw)) /\
    (forall n, In n (clean_names seen raw) -> ~ In (py_lower n) seen).
Proof.
  induction raw as [|t raw IH]; intros seen; cbn [clean_names].
  - split; [constructor|intros n []].
  - set (name := py_strip (py_lstrip_chars "r/" t)).
    destruct (existsb (String.eqb (py_lower name)) seen) eqn:Hseen.
    + apply IH.
    + destruct (IH (py_lower name :: seen)) as [Hnd Hfresh].
      assert (Hout : ~ In (py_lower name) seen).
      { intros Hin. assert (existsb (String.eqb (py_lower name)) seen = true); [|congruence].
        apply existsb_exists. exists (py_lower name). split; [exact Hin|apply String.eqb_refl]. }
      split.
      * cbn [map]. constructor; [|exact Hnd].
        intros Hin. apply in_map_iff in Hin as (n & Hn & Hin).
        apply (Hfresh n Hin). left. now symmetry.
      * intros n [<-|Hin]; [exact Hout|].
        intros Hs. apply (Hfresh n Hin). now right.
Qed.

(** Every name that is kept comes before the names that were dropped for
    it: the kept names are those of [raw], cleaned, without the later
    repetitions. *)
Lemma clean_names_first (raw : list string) :
  forall (seen : list string) (t : string),
    In t raw ->
    In (py_lower (py_strip (py_lstrip_chars "r/" t))) seen \/
    In (py_lower (py_strip (py_lstrip_chars "r/" t))) (map py_lower (clean_names seen raw)).
Proof.
  induction raw as [|t0 raw IH]; intros seen t; [intros []|].
  cbn [clean_names]. set (name0 := py_strip (py_lstrip_chars "r/" t0)).
  destruct (existsb (String.eqb (py_lower name0)) seen) eqn:Hseen.
  - intros [<-|Hin]; [|now apply IH].
    left. apply existsb_exists in Hseen as (k & Hk & Heq).
    apply String.eqb_eq in Heq. fold name0. now rewrite Heq.
  - intros [<-|Hin].
    + right. fold name0. cbn [map]. now left.
    + destruct (IH (py_lower name0 :: seen) t Hin) as [[Heq|Hs]|Hc].
      * right. cbn [map]. left. exact Heq.
      * now left.
      * right. cbn [map]. now right.
Qed.

(** X18. A name that is returned holds no whitespace, comma or [#], and it
    does not start with [r] or [/]: [lstrip("r/")] takes every leading [r]
    and [/], also those of the name itself, so that a piece spelt [rust],
    [r/rust] or [ust] gives the same name [ust]. *)
Theorem subreddit_names_lose_their_leading_r (path text : string) (names : list string) :
  read_subreddits_from_file path text = Returns names ->
  Forall (fun n => all_chars name_char n = true /\ py_lstrip_chars "r/" n = n) names /\
  (forall t : string,
      py_lstrip_chars "r/" ("r/" +:+ t) = py_lstrip_chars "r/" t /\
      py_lstrip_chars "r/" ("r" +:+ t) = py_lstrip_chars "r/" t).
Proof.
  intros Hread. split; [|intros t; split; reflexivity].
  pose proof (subreddits_chars := raw_names_chars text).
  unfold read_subreddits_from_file in Hread.
  pose proof (clean_names_In [] (raw_names text)) as Hin.
  destruct (clean_names [] (raw_names text)) as [|n0 names0]; [discriminate|].
  injection Hread as <-.
  apply List.Forall_forall. intros n Hn.
  destruct (Hin n Hn) as (t & Ht & ->).
  rewrite List.Forall_forall in subreddits_chars.
  destruct (subreddits_chars t Ht) as [_ Hchars].
  assert (Hl : all_chars name_char (py_lstrip_chars "r/" t) = true)
    by now apply all_chars_lstrip_chars.
  assert (Hsp : all_chars (fun c => negb (is_space c)) (py_lstrip_chars "r/" t) = true).
  { eapply all_chars_impl; [|exact Hl]. unfold name_char. intros c Hc.
    apply andb_true_iff in Hc as [Hc _]. now apply andb_true_iff in Hc as [Hc _]. }
  rewrite (strip_without_space _ Hsp). split; [exact Hl|apply lstrip_chars_fixed].
Qed.

(** X18 at a file of three lines. *)
Lemma subreddit_names_lose_their_leading_r_witness :
  let text := "r/python, rust  # systems" +:+ nl +:+ "# a comment" +:+ nl +:+ "Python ust" in
  let names := ["python"; "ust"] in
  read_subreddits_from_file "subs.txt" text = Returns names /\
  Forall (fun n => all_chars name_char n = true /\ py_lstrip_chars "r/" n = n) names /\
  (forall t : string,
      py_lstrip_chars "r/" ("r/" +:+ t) = py_lstrip_chars "r/" t /\
      py_lstrip_chars "r/" ("r" +:+ t) = py_lstrip_chars "r/" t).
Proof.
  intros text names.
  assert (Hread : read_subreddits_from_file "subs.txt" text = Returns names)
    by (vm_compute; reflexivity).
  split; [exact Hread|].
  exact (subreddit_names_lose_their_leading_r "subs.txt" text names Hread).
Defined.

(** ** Top comments *)

Lemma omap_id_length (l : list (option string)) :
  (length (omap (fun c => c) l) <= length l)%nat.
Proof. induction l as [|[b|] l IH]; cbn; lia. Qed.

Lemma omap_id_In (l : list (option string)) (b : string) :
  In b (omap (fun c => c) l) -> In (Some b) l.
Proof.
  induction l as [|[b0|] l IH]; cbn; [tauto| |].
  - intros [->|H]; [now left|right; now apply IH].
  - intros H. right. now apply IH.
Qed.

(** X19. [fetch_top_comments] returns at most [top_n] bodies, none for a
    [top_n] of zero or less: the bodies of the first [top_n] top-level
    comments that have one with something else than whitespace in it. A
    prompt item made from a post with these as its [top_comments] holds the
    first five of them. *)
Theorem top_comments_are_few_and_not_blank (comments : list (option string)) (top_n : Z)
    (p : Post.t) :
  let fetched := fetch_top_comments comments top_n in
  Z.of_nat (length fetched) <= Z.max 0 top_n /\
  Forall (fun b => all_space b = false /\
                   In (Some b) (firstn (Z.to_nat top_n) comments)) fetched /\
  (Post.top_comments p = Some fetched ->
   forall item : PromptItem.t,
     prompt_item p = Found item ->
     PromptItem.comments item = firstn 5 fetched /\
     Z.of_nat (length (PromptItem.comments item)) <= Z.min 5 (Z.max 0 top_n)).
Proof.
  intros fetched.
  assert (Hlen : Z.of_nat (length fetched) <= Z.max 0 top_n).
  { unfold fetched, fetch_top_comments.
    destruct (Z.leb_spec top_n 0) as [Hle|Hgt]; [cbn; lia|].
    rewrite py_slice_window by lia. rewrite Z.sub_0_r.
    change (Z.to_nat 0) with 0%nat. rewrite skipn_O.
    pose proof (omap_id_length
                  (List.filter (fun c => truthy (py_strip (get c "")))
                     (firstn (Z.to_nat top_n) comments))) as H1.
    pose proof (filter_length_le (fun c => truthy (py_strip (get c "")))
                  (firstn (Z.to_nat top_n) comments)) as H2.
    rewrite length_firstn in H2. lia. }
  split; [exact Hlen|]. split.
  - unfold fetched, fetch_top_comments.
    destruct (Z.leb_spec top_n 0) as [Hle|Hgt]; [constructor|].
    rewrite py_slice_window by lia. rewrite Z.sub_0_r.
    change (Z.to_nat 0) with 0%nat. rewrite skipn_O.
    apply List.Forall_forall. intros b Hb.
    apply omap_id_In, filter_In in Hb as [Hin Hb]. cbn [get] in Hb.
    split; [|exact Hin].
    destruct (all_space b) eqn:Hsp; [|reflexivity].
    apply strip_empty in Hsp. now rewrite Hsp in Hb.
  - intros Htop item Hitem.
    pose proof (prompt_item_cases p) as Hp. rewrite Hitem in Hp.
    destruct Hp as (_ & _ & _ & _ & _ & Hc & _).
    rewrite Htop in Hc. cbn [get] in Hc. split; [exact Hc|].
    rewrite Hc, length_firstn. lia.
Qed.

(** * The loop of [analysis.py] at its first failed batch *)

Lemma batch_loop_in_analysis_py {RawPost Analysis : Type}
    (svc : Service RawPost Analysis) (args : Args) (bs : Z)
    (plan : list (Z * list RawPost)) :
  forall st : Progress RawPost Analysis,
    let run := batch_loop analysis_globals svc args bs plan st in
    match snd run with
    | Returns _ =>
        Forall (call_returns analysis_globals svc args) plan /\
        analyses (fst run)
          = analyses st ++ concat (map (batch_results analysis_globals svc args) plan) /\
        sent (fst run) = sent st ++ map snd plan
    | Raises e =>
        e = NameError "sys" /\
        exists (before : list (Z * list RawPost)) (b : Z * list RawPost)
               (after : list (Z * list RawPost)),
          plan = before ++ b :: after /\
          Forall (call_returns analysis_globals svc args) before /\
          (exists e', ended (analyze_batch_with_openai analysis_globals svc args
                               (fst b) (snd b)) = Raises e') /\
          analyses (fst run)
            = analyses st ++ concat (map (batch_results analysis_globals svc args) before) /\
          sent (fst run) = sent st ++ map snd before ++ [snd b]
    end.
Proof.
  induction plan as [|[i batch] rest IH]; intros st.
  - cbn. split; [constructor|]. now rewrite !app_nil_r.
  - cbn [batch_loop]. change (resolve analysis_globals "sys") with (@Raises unit (NameError "sys")).
    destruct (ended (analyze_batch_with_openai analysis_globals svc args i batch))
      as [results|e] eqn:Hend.
    + match goal with |- context [batch_loop _ _ _ _ rest ?st0] =>
        specialize (IH st0); cbn zeta in IH;
        destruct (batch_loop analysis_globals svc args bs rest st0) as [st' [[]|e]] end;
        cbn [fst snd analyses sent] in *.
      * destruct IH as (Hall & Ha & Hs).
        split; [constructor; [now exists results|exact Hall]|].
        cbn [map concat]. unfold batch_results at 1. cbn [fst snd]. rewrite Hend.
        rewrite Ha, Hs, <- !app_assoc. split; reflexivity.
      * destruct IH as (-> & before & b & after & -> & Hall & Hb & Ha & Hs).
        split; [reflexivity|].
        exists ((i, batch) :: before), b, after. split; [reflexivity|].
        split; [constructor; [now exists results|exact Hall]|]. split; [exact Hb|].
        cbn [map concat]. unfold batch_results at 1. cbn [fst snd]. rewrite Hend.
        rewrite Ha, Hs, <- !app_assoc. split; reflexivity.
    + cbn [fst snd analyses sent]. split; [reflexivity|].
      exists [], (i, batch), rest. split; [reflexivity|]. split; [constructor|].
      split; [now exists e|]. cbn. now rewrite app_nil_r.
Qed.

(** X20. In [analysis.py] the loop ends normally exactly when the call of
    every batch returns. Otherwise it ends in [NameError] at the first batch
    whose call ends in an exception: that batch is the last one sent, the
    analyses are those of the batches before it, and the batches after it
    are never sent. Nothing is ever printed on the error stream. *)
Theorem loop_ends_at_the_first_failed_batch {RawPost Analysis : Type}
    (svc : Service RawPost Analysis) (args : Args) (all_rows : list RawPost) :
  let run := extraction analysis_globals svc args all_rows in
  exists plan : list (Z * list RawPost),
    batch_plan (effective_batch_size args) all_rows = Returns plan /\
    stderr (fst run) = [] /\
    match snd run with
    | Returns _ =>
        Forall (call_returns analysis_globals svc args) plan /\
        analyses (fst run) = concat (map (batch_results analysis_globals svc args) plan) /\
        sent (fst run) = map snd plan
    | Raises e =>
        e = NameError "sys" /\
        exists (before : list (Z * list RawPost)) (b : Z * list RawPost)
               (after : list (Z * list RawPost)),
          plan = before ++ b :: after /\
          Forall (call_returns analysis_globals svc args) before /\
          (exists e', ended (analyze_batch_with_openai analysis_globals svc args
                               (fst b) (snd b)) = Raises e') /\
          analyses (fst run) = concat (map (batch_results analysis_globals svc args) before) /\
          sent (fst run) = map snd before ++ [snd b]
    end.
Proof.
  intros run.
  assert (Hbs : 1 <= effective_batch_size args) by (unfold effective_batch_size; lia).
  destruct (batch_plan_partition (effective_batch_size args) all_rows Hbs)
    as (plan & Hplan & _).
  exists plan. split; [exact Hplan|].
  split; [apply (extraction_prints_nothing_without_sys _ _ _ _ (NameError "sys")); reflexivity|].
  unfold run, extraction. rewrite Hplan.
  exact (batch_loop_in_analysis_py svc args (effective_batch_size args) plan start).
Qed.

(** * The slices the loop takes *)

Lemma batch_loop_all_return {RawPost Analysis : Type} (g : namespace)
    (svc : Service RawPost Analysis) (args : Args) (bs : Z)
    (plan : list (Z * list RawPost)) :
  forall st : Progress RawPost Analysis,
    Forall (call_returns g svc args) plan ->
    snd (batch_loop g svc args bs plan st) = Returns tt /\
    sent (fst (batch_loop g svc args bs plan st)) = sent st ++ map snd plan.
Proof.
  induction plan as [|[i batch] rest IH]; intros st Hall.
  - cbn. now rewrite app_nil_r.
  - apply Forall_cons_iff in Hall as [[results Hret] Hrest].
    cbn [batch_loop fst snd] in *. rewrite Hret.
    match goal with |- context [batch_loop _ _ _ _ rest ?st0] =>
      destruct (IH st0 Hrest) as [Ho Hs] end.
    split; [exact Ho|]. rewrite Hs. cbn [sent map snd]. now rewrite <- app_assoc.
Qed.

Lemma batch_loop_first_failure {RawPost Analysis : Type}
    (svc : Service RawPost Analysis) (args : Args) (bs : Z)
    (before : list (Z * list RawPost)) (b : Z * list RawPost)
    (after : list (Z * list RawPost)) :
  forall st : Progress RawPost Analysis,
    Forall (call_returns analysis_globals svc args) before ->
    (exists e, ended (analyze_batch_with_openai analysis_globals svc args (fst b) (snd b))
               = Raises e) ->
    let run := batch_loop analysis_globals svc args bs (before ++ b :: after) st in
    snd run = Raises (NameError "sys") /\
    sent (fst run) = sent st ++ map snd before ++ [snd b].
Proof.
  induction before as [|[i batch] rest IH]; intros st Hall [e He] run; subst run.
  - destruct b as [i batch]. cbn [app batch_loop fst snd] in *. rewrite He.
    change (resolve analysis_globals "sys") with (@Raises unit (NameError "sys")).
    cbn. split; reflexivity.
  - apply Forall_cons_iff in Hall as [[results Hret] Hrest].
    cbn [app batch_loop fst snd] in *. rewrite Hret.
    match goal with |- context [batch_loop _ _ _ _ (rest ++ b :: after) ?st0] =>
      destruct (IH st0 Hrest (ex_intro _ e He)) as [Ho Hs] end.
    split; [exact Ho|]. rewrite Hs. cbn [sent map snd]. now rewrite <- !app_assoc.
Qed.



(** C1, on the code. For a batch size B >= 1 and L posts the iterations of
    the loop of [run_openai_analysis] are ceil(L/B): the k-th takes the
    window of width B at offset k*B, so the slices are contiguous and do not
    overlap, each holds between 1 and B posts, all but the last exactly B,
    and put end to end they are the input. The loop takes all of them when
    the call of every batch returns. When a call ends in an exception, the
    handler of line 185 raises [NameError] and the loop is left: the slices
    taken stop at that batch. In the outage run, two posts in batches of
    one, the loop takes the first of the ceil(2/1) = 2 slices and never the
    second. *)
Theorem loop_slices_stop_at_a_failed_batch :
  (forall (RawPost Analysis : Type) (svc : Service RawPost Analysis) (args : Args)
          (all_rows : list RawPost),
      1 <= batch_size args ->
      let B := batch_size args in
      let L := Z.of_nat (length all_rows) in
      let run := extraction analysis_globals svc args all_rows in
      exists plan : list (Z * list RawPost),
        batch_plan (effective_batch_size args) all_rows = Returns plan /\
        Z.of_nat (length plan) = (L + B - 1) / B /\
        (forall (k : nat) (i : Z) (s : list RawPost),
            nth_error plan k = Some (i, s) ->
            i = Z.of_nat k * B /\
            s = firstn (Z.to_nat B) (skipn (Z.to_nat i) all_rows) /\
            1 <= Z.of_nat (length s) <= B /\
            ((S k < length plan)%nat -> Z.of_nat (length s) = B)) /\
        concat (map snd plan) = all_rows /\
        (Forall (call_returns analysis_globals svc args) plan ->
         snd run = Returns tt /\
         sent (fst run) = map snd plan /\
         concat (sent (fst run)) = all_rows) /\
        (forall (before : list (Z * list RawPost)) (b : Z * list RawPost)
                (after : list (Z * list RawPost)),
            plan = before ++ b :: after ->
            Forall (call_returns analysis_globals svc args) before ->
            (exists e, ended (analyze_batch_with_openai analysis_globals svc args
                                (fst b) (snd b)) = Raises e) ->
            snd run = Raises (NameError "sys") /\
            sent (fst run) = map snd before ++ [snd b])) /\
  (let run := extraction analysis_globals outage_service outage_args outage_posts in
   batch_size outage_args = 1 /\
   Z.of_nat (length outage_posts) = 2 /\
   batch_plan (effective_batch_size outage_args) outage_posts
     = Returns [(0, ["p1"]); (1, ["p2"])] /\
   snd run = Raises (NameError "sys") /\
   sent (fst run) = [["p1"]] /\
   concat (sent (fst run)) = ["p1"]).
Proof.
  split; [|cbv zeta; repeat split; reflexivity].
  intros RawPost Analysis svc args all_rows HB B L run.
  assert (Hbs : effective_batch_size args = B) by (unfold effective_batch_size; lia).
  destruct (batch_plan_partition B all_rows HB) as (plan & Hplan & Hlen & Hnth & Hcat).
  exists plan. rewrite Hbs.
  split; [exact Hplan|]. split; [exact Hlen|]. split; [exact Hnth|].
  split; [exact Hcat|].
  assert (Hrun : run = batch_loop analysis_globals svc args B plan start).
  { unfold run, extraction. now rewrite Hbs, Hplan. }
  split.
  - intros Hall.
    destruct (batch_loop_all_return analysis_globals svc args B plan start Hall) as [Ho Hs].
    rewrite Hrun. split; [exact Ho|]. rewrite Hs. cbn [start sent app].
    split; [reflexivity|exact Hcat].
  - intros before b after -> Hall Hb.
    destruct (batch_loop_first_failure svc args B before b after start Hall Hb) as [Ho Hs].
    rewrite Hrun. split; [exact Ho|]. rewrite Hs. reflexivity.
Qed.



(** ** Grouping up to case and outer whitespace *)

Lemma same_letter_lower_char (c : ascii) : same_letter c (lower_char c).
Proof.
  unfold lower_char.
  destruct ((65 <=? nat_of_ascii c)%nat && (nat_of_ascii c <=? 90)%nat) eqn:Hc;
    [|constructor].
  apply andb_true_iff in Hc as [H1 H2].
  apply Nat.leb_le in H1. apply Nat.leb_le in H2.
  rewrite <- (ascii_nat_embedding c) at 1.
  replace (nat_of_ascii c) with (65 + (nat_of_ascii c - 65))%nat at 1 by lia.
  replace (nat_of_ascii c + 32)%nat with (97 + (nat_of_ascii c - 65))%nat by lia.
  apply capital_small. lia.
Qed.

Lemma same_ignoring_case_lower (s : string) : same_ignoring_case s (py_lower s).
Proof.
  induction s as [|c s IH]; cbn; constructor; [apply same_letter_lower_char|exact IH].
Qed.

Lemma lower_char_not_upper (c : ascii) : is_upper (lower_char c) = false.
Proof. destruct c as [[] [] [] [] [] [] [] []]; reflexivity. Qed.

Lemma py_lower_not_upper (s : string) :
  all_chars (fun c => negb (is_upper c)) (py_lower s) = true.
Proof.
  induction s as [|c s IH]; [reflexivity|].
  cbn. now rewrite lower_char_not_upper, IH.
Qed.

Lemma same_letter_lower (c c' : ascii) :
  same_letter c c' -> lower_char c = lower_char c'.
Proof.
  intros [c0|i Hi|i Hi]; [reflexivity| |];
    do 26 (destruct i as [|i]; [reflexivity|]); lia.
Qed.

Lemma same_ignoring_case_py_lower (s s' : string) :
  same_ignoring_case s s' -> py_lower s = py_lower s'.
Proof.
  induction 1 as [|c c' s s' Hc _ IH]; [reflexivity|].
  cbn. now rewrite (same_letter_lower c c' Hc), IH.
Qed.

Lemma py_lower_app (a b : string) : py_lower (a +:+ b) = py_lower a +:+ py_lower b.
Proof.
  induction a as [|c a IH]; [reflexivity|].
  change (String c a +:+ b) with (String c (a +:+ b)). cbn [py_lower].
  now rewrite IH.
Qed.

Lemma all_space_app (a b : string) :
  all_space (a +:+ b) = all_space a && all_space b.
Proof.
  induction a as [|c a IH]; [reflexivity|].
  change (String c a +:+ b) with (String c (a +:+ b)). cbn [all_space].
  now rewrite IH, andb_assoc.
Qed.

Lemma lstrip_decomp (s : string) :
  exists w : string, all_space w = true /\ s = w +:+ py_lstrip s.
Proof.
  induction s as [|c s (w & Hw & Hs)]; [now exists ""|].
  cbn [py_lstrip]. destruct (is_space c) eqn:Hc.
  - exists (String c w). split; [cbn; now rewrite Hc|].
    change (String c w +:+ py_lstrip s) with (String c (w +:+ py_lstrip s)).
    now rewrite <- Hs.
  - now exists "".
Qed.

Lemma rstrip_decomp (s : string) :
  exists w : string, all_space w = true /\ s = py_rstrip s +:+ w.
Proof.
  induction s as [|c s (w & Hw & Hs)]; [now exists ""|].
  cbn [py_rstrip]. destruct (py_rstrip s) as [|c' t] eqn:Hr.
  - assert (Hsw : s = w) by exact Hs. destruct (is_space c) eqn:Hc.
    + exists (String c s). split; [cbn; now rewrite Hc, Hsw|reflexivity].
    + exists s. split; [now rewrite Hsw|reflexivity].
  - exists w. split; [exact Hw|].
    change (String c (String c' t) +:+ w) with (String c (String c' t +:+ w)).
    now rewrite <- Hs.
Qed.

Lemma strip_padded (s : string) : padded s (py_strip s).
Proof.
  destruct (lstrip_decomp s) as (w1 & Hw1 & Hs).
  destruct (rstrip_decomp (py_lstrip s)) as (w2 & Hw2 & Hl).
  exists w1, w2. split; [exact Hw1|]. split; [exact Hw2|].
  unfold py_strip. now rewrite <- Hl.
Qed.

Lemma rstrip_fixed_ends_clean (s : string) : py_rstrip s = s -> ends_clean s.
Proof.
  unfold ends_clean. induction s as [|a s IH]; intros Hfix s' c Hs.
  - destruct s'; discriminate.
  - destruct s' as [|a' s'].
    + cbn in Hs. injection Hs as -> ->. cbn in Hfix.
      destruct (is_space c); [discriminate|reflexivity].
    + change (String a' s' +:+ String c "") with (String a' (s' +:+ String c "")) in Hs.
      injection Hs as -> Hs. cbn [py_rstrip] in Hfix.
      destruct (py_rstrip s) as [|b t] eqn:Hr.
      * destruct (is_space a'); [discriminate|].
        injection Hfix as Hfix. subst s. destruct s'; discriminate.
      * injection Hfix as Hfix. apply (IH Hfix s' c Hs).
Qed.

Lemma lstrip_app_kept (a b : string) :
  all_space a = false -> py_lstrip (a +:+ b) = py_lstrip a +:+ b.
Proof.
  induction a as [|c a IH]; [discriminate|].
  change (String c a +:+ b) with (String c (a +:+ b)).
  cbn [all_space py_lstrip]. destruct (is_space c); [exact IH|reflexivity].
Qed.

(** Whitespace around a string does not change what is left of it. *)
Lemma strip_of_padded (s core : string) : padded s core -> py_strip s = py_strip core.
Proof.
  intros (w1 & w2 & Hw1 & Hw2 & ->). unfold py_strip.
  rewrite lstrip_app_space by exact Hw1.
  destruct (all_space core) eqn:Hcore.
  - assert (H : all_space (py_lstrip (core +:+ w2)) = true)
      by (now rewrite all_space_lstrip, all_space_app, Hcore, Hw2).
    apply rstrip_empty in H. rewrite H. symmetry.
    apply rstrip_empty. now rewrite all_space_lstrip.
  - rewrite lstrip_app_kept by exact Hcore. now apply rstrip_app_space.
Qed.

Lemma lower_padded (s core : string) : padded s core -> padded (py_lower s) (py_lower core).
Proof.
  intros (w1 & w2 & Hw1 & Hw2 & ->).
  exists (py_lower w1), (py_lower w2).
  rewrite !all_space_lower, !py_lower_app. now repeat split.
Qed.

Lemma contributing_cons_at (k : string) (r : AnalysisResult) (l : list AnalysisResult) :
  bucket_key r = k -> contributing k (r :: l) = r :: contributing k l.
Proof. intros <-. apply contributing_cons_same. Qed.

(** Keys that differ in case and outer whitespace only are one grouping
    key. *)
Lemma bucket_key_up_to_case (r1 r2 : AnalysisResult) (s1 s2 c1 c2 : string) :
  dedupe_key r1 = Some s1 -> dedupe_key r2 = Some s2 ->
  padded s1 c1 -> padded s2 c2 -> same_ignoring_case c1 c2 ->
  bucket_key r1 = bucket_key r2.
Proof.
  intros H1 H2 Hp1 Hp2 Hc. unfold bucket_key. rewrite H1, H2. cbn [get].
  rewrite (strip_of_padded _ _ (lower_padded _ _ Hp1)).
  rewrite (strip_of_padded _ _ (lower_padded _ _ Hp2)).
  now rewrite (same_ignoring_case_py_lower _ _ Hc).
Qed.

(** C2. For results whose [dedupe_key] is ASCII text: in the buckets of a
    run each key names one bucket and the empty key names none; the counts
    of all buckets add up to the number of results with a non-blank
    [dedupe_key]. Taking one result out of the run: if its [dedupe_key] is
    absent, empty or whitespace only the buckets are the same without it;
    otherwise its key [k] is its [dedupe_key] with every capital made small
    and the whitespace at both ends taken off, the bucket at [k] exists and
    counts one more with the result, and every other key has the same
    bucket, or none, without it. Two results whose [dedupe_key]s differ in
    the case of letters and in outer whitespace only are counted in one
    bucket. *)
Theorem aggregation_groups_by_key (analyses : list AnalysisResult) :
  Forall ascii_key analyses ->
  List.NoDup (map fst (aggregate analyses)) /\
  dict_get "" (aggregate analyses) = None /\
  total_count (aggregate analyses) = Z.of_nat (length (keyed analyses)) /\
  (forall (before after : list AnalysisResult) (r : AnalysisResult),
      analyses = before ++ r :: after ->
      if blank_key r
      then aggregate analyses = aggregate (before ++ after)
      else
        let k := py_strip (py_lower (get (dedupe_key r) "")) in
        k <> "" /\
        (exists small : string,
            same_ignoring_case (get (dedupe_key r) "") small /\
            all_chars (fun c => negb (is_upper c)) small = true /\
            padded small k) /\
        starts_clean k = true /\
        ends_clean k /\
        (exists b : Bucket,
            dict_get k (aggregate analyses) = Some b /\
            count b = count_at k (aggregate (before ++ after)) + 1) /\
        forall k' : string, k' <> k ->
          dict_get k' (aggregate analyses) = dict_get k' (aggregate (before ++ after))) /\
  (forall (l1 l2 l3 : list AnalysisResult) (r1 r2 : AnalysisResult) (s1 s2 c1 c2 : string),
      analyses = l1 ++ r1 :: l2 ++ r2 :: l3 ->
      dedupe_key r1 = Some s1 -> dedupe_key r2 = Some s2 ->
      padded s1 c1 -> padded s2 c2 -> same_ignoring_case c1 c2 ->
      all_space c1 = false ->
      let k := py_strip (py_lower s1) in
      k = py_strip (py_lower s2) /\
      exists b : Bucket,
        dict_get k (aggregate analyses) = Some b /\
        count b = count_at k (aggregate (l1 ++ l2 ++ l3)) + 2).
Proof.
  intros _.
  destruct (aggregate_by_key analyses) as (Hnodup & Hempty & Htotal & Hone).
  split; [exact Hnodup|]. split; [exact Hempty|]. split; [exact Htotal|]. split.
  - intros before after r Hsplit. specialize (Hone before after r Hsplit).
    destruct (blank_key r); [exact Hone|].
    cbn zeta in *. destruct Hone as (Hk & Hb & Hother).
    split; [exact Hk|]. split; [|split; [|split; [|split; assumption]]].
    + exists (py_lower (get (dedupe_key r) "")).
      split; [apply same_ignoring_case_lower|].
      split; [apply py_lower_not_upper|apply strip_padded].
    + apply strip_is_stripped.
    + apply rstrip_fixed_ends_clean, strip_is_stripped.
  - intros l1 l2 l3 r1 r2 s1 s2 c1 c2 -> H1 H2 Hp1 Hp2 Hc Hcore k.
    pose proof (bucket_key_up_to_case r1 r2 s1 s2 c1 c2 H1 H2 Hp1 Hp2 Hc) as Hsame.
    assert (Hk1 : bucket_key r1 = k) by (unfold bucket_key; now rewrite H1).
    assert (Hk2 : bucket_key r2 = k)
      by (rewrite <- Hsame; exact Hk1).
    split; [rewrite <- Hk2; unfold bucket_key; now rewrite H2|].
    assert (Htruthy : truthy k = true).
    { rewrite <- Hk1, bucket_key_blank. unfold blank_key. rewrite H1.
      destruct Hp1 as (w1 & w2 & Hw1 & Hw2 & ->).
      now rewrite !all_space_app, Hcore, andb_false_r. }
    pose proof (count_at_aggregate (l1 ++ r1 :: l2 ++ r2 :: l3) k) as Hc1.
    rewrite count_at_aggregate, Htruthy. rewrite Htruthy in Hc1.
    unfold count_at in Hc1.
    destruct (dict_get k (aggregate (l1 ++ r1 :: l2 ++ r2 :: l3))) as [b|] eqn:Hb.
    + exists b. split; [reflexivity|]. rewrite Hc1.
      rewrite !contributing_app, (contributing_cons_at k r1 _ Hk1).
      rewrite contributing_app, (contributing_cons_at k r2 _ Hk2).
      rewrite !length_app. cbn [length]. rewrite !length_app. cbn [length]. lia.
    + exfalso. rewrite aggregate_lookup, Htruthy, contributing_app in Hb.
      rewrite (contributing_cons_at k r1 _ Hk1) in Hb.
      destruct (contributing k l1); discriminate.
Qed.

(** C2 at the three results with the keys ["LMS mobile app crashes"],
    ["lms mobile app crashes "] and [" LMS Mobile App Crashes"]: one bucket,
    which counts all three. *)
Lemma aggregation_groups_by_key_witness :
  Forall ascii_key three_severities /\
  map (fun kb => (fst kb, count (snd kb))) (aggregate three_severities)
    = [("lms mobile app crashes", 3)] /\
  List.NoDup (map fst (aggregate three_severities)) /\
  total_count (aggregate three_severities) = 3 /\
  py_strip (py_lower "LMS mobile app crashes") = py_strip (py_lower " LMS Mobile App Crashes") /\
  exists b : Bucket,
    dict_get "lms mobile app crashes" (aggregate three_severities) = Some b /\
    count b = 1 + 2.
Proof.
  assert (Hascii : Forall ascii_key three_severities)
    by (repeat constructor).
  destruct (aggregation_groups_by_key three_severities Hascii)
    as (Hnodup & _ & Htotal & _ & Hshare).
  split; [exact Hascii|]. split; [vm_compute; reflexivity|].
  split; [exact Hnodup|]. split; [exact Htotal|].
  refine (Hshare [] [sample "edtech" "second" (Some 3) "lms mobile app crashes "] []
            (sample "edtech" "first" (Some 1) "LMS mobile app crashes")
            (sample "Teachers" "third" (Some 5) " LMS Mobile App Crashes")
            "LMS mobile app crashes" " LMS Mobile App Crashes"
            "LMS mobile app crashes" "LMS Mobile App Crashes"
            eq_refl eq_refl eq_refl _ _ _ eq_refl).
  - exists "", "". now repeat split.
  - exists " ", "". now repeat split.
  - repeat first [ apply same_empty
                 | apply same_String; [first [apply same_char
                                             | apply (small_capital 12); lia
                                             | apply (small_capital 0); lia
                                             | apply (small_capital 2); lia]|] ].
Defined.

(** ** The first loop of [read_subreddits_from_file] *)

Lemma string_app_nil_r (s : string) : s +:+ "" = s.
Proof.
  induction s as [|c s IH]; [reflexivity|].
  change (String c s +:+ "") with (String c (s +:+ "")). now rewrite IH.
Qed.

Lemma linebreak_is_space (c : ascii) : is_linebreak c = true -> is_space c = true.
Proof.
  destruct c as [[] [] [] [] [] [] [] []]; vm_compute; intros H;
    first [reflexivity|discriminate H].
Qed.

Lemma name_char_cases (c : ascii) :
  name_char c = true ->
  is_linebreak c = false /\ is_space c = false /\
  Ascii.eqb c "#" = false /\ Ascii.eqb c "," = false.
Proof.
  unfold name_char. intros H.
  apply andb_true_iff in H as [H Hh]. apply andb_true_iff in H as [Hs Hc].
  apply negb_true_iff in Hs, Hc, Hh. repeat split; try assumption.
  destruct (is_linebreak c) eqn:Hl; [|reflexivity].
  apply linebreak_is_space in Hl. congruence.
Qed.

(** *** Lines *)

Lemma py_splitlines_line (l : string) :
  all_chars (fun c => negb (is_linebreak c)) l = true ->
  py_splitlines l = match l with EmptyString => [] | _ => [l] end.
Proof.
  induction l as [|c l IH]; [reflexivity|].
  cbn [all_chars]. intros H. apply andb_true_iff in H as [Hc Hl].
  apply negb_true_iff in Hc. cbn [py_splitlines]. rewrite Hc, (IH Hl).
  now destruct l.
Qed.

Lemma py_splitlines_break (l : string) (b : ascii) (rest : string) :
  all_chars (fun c => negb (is_linebreak c)) l = true ->
  is_linebreak b = true ->
  py_splitlines (l +:+ String b rest) = l :: py_splitlines (after_break b rest).
Proof.
  intros Hl Hb. induction l as [|c l IH].
  - change ("" +:+ String b rest) with (String b rest).
    cbn [py_splitlines]. rewrite Hb. unfold after_break.
    destruct rest as [|c' s'']; [reflexivity|].
    now destruct (Ascii.eqb b carriage_return && Ascii.eqb c' newline).
  - cbn [all_chars] in Hl. apply andb_true_iff in Hl as [Hc Hl].
    apply negb_true_iff in Hc.
    change (String c l +:+ String b rest) with (String c (l +:+ String b rest)).
    cbn [py_splitlines]. now rewrite Hc, (IH Hl).
Qed.

(** A text is one line without a boundary, or a first line, a boundary and
    the rest. *)
Lemma first_line (s : string) :
  all_chars (fun c => negb (is_linebreak c)) s = true \/
  exists (l : string) (b : ascii) (rest : string),
    s = l +:+ String b rest /\
    all_chars (fun c => negb (is_linebreak c)) l = true /\
    is_linebreak b = true.
Proof.
  induction s as [|c s IH]; [now left|].
  destruct (is_linebreak c) eqn:Hc.
  - right. exists "", c, s. now repeat split.
  - destruct IH as [Hs|(l & b & rest & -> & Hl & Hb)].
    + left. cbn. now rewrite Hc, Hs.
    + right. exists (String c l), b, rest. repeat split; [|exact Hb].
      cbn. now rewrite Hc, Hl.
Qed.

(** *** The pass over the characters *)

Lemma pieces_from_break (l : string) (b : ascii) (rest : string) :
  all_chars (fun c => negb (is_linebreak c)) l = true ->
  is_linebreak b = true ->
  forall (in_comment : bool) (piece : string),
    pieces_from in_comment piece (l +:+ String b rest)
    = pieces_from in_comment piece l ++ pieces_from false "" rest.
Proof.
  intros Hl Hb. induction l as [|c l IH]; intros in_comment piece.
  - change ("" +:+ String b rest) with (String b rest).
    cbn [pieces_from]. now rewrite Hb.
  - cbn [all_chars] in Hl. apply andb_true_iff in Hl as [Hc Hl].
    apply negb_true_iff in Hc. specialize (IH Hl).
    change (String c l +:+ String b rest) with (String c (l +:+ String b rest)).
    cbn [pieces_from]. rewrite Hc.
    destruct in_comment; [apply IH|].
    destruct (Ascii.eqb c "#"); [now rewrite IH, app_assoc|].
    destruct (is_space c || Ascii.eqb c ","); [now rewrite IH, app_assoc|apply IH].
Qed.

Lemma pieces_after_break (b : ascii) (rest : string) :
  pieces_from false "" (after_break b rest) = pieces_from false "" rest.
Proof.
  unfold after_break. destruct rest as [|c' s'']; [reflexivity|].
  destruct (Ascii.eqb b carriage_return && Ascii.eqb c' newline) eqn:H; [|reflexivity].
  apply andb_true_iff in H as [_ H]. apply Ascii.eqb_eq in H. subst c'. reflexivity.
Qed.

(** A comment runs to the end of its line. *)
Lemma pieces_from_comment (s : string) :
  all_chars (fun c => negb (is_linebreak c)) s = true ->
  forall piece : string, pieces_from true piece s = flush piece.
Proof.
  induction s as [|c s IH]; [reflexivity|].
  cbn [all_chars]. intros H piece. apply andb_true_iff in H as [Hc Hs].
  apply negb_true_iff in Hc. cbn [pieces_from]. rewrite Hc. now apply IH.
Qed.

(** The characters of a name gather in the piece. *)
Lemma pieces_from_word (w : string) :
  all_chars name_char w = true ->
  forall (piece s : string),
    pieces_from false piece (w +:+ s) = pieces_from false (piece +:+ w) s.
Proof.
  induction w as [|c w IH]; intros Hw piece s.
  - now rewrite string_app_nil_r.
  - cbn [all_chars] in Hw. apply andb_true_iff in Hw as [Hc Hw].
    destruct (name_char_cases c Hc) as (Hl & Hs & Hh & Hcomma).
    change (String c w +:+ s) with (String c (w +:+ s)).
    cbn [pieces_from]. rewrite Hl, Hh, Hs, Hcomma. cbn [orb].
    rewrite (IH Hw). now rewrite string_app_assoc.
Qed.

(** *** [str.split] *)

Lemma py_split_spaces (w : string) : all_space w = true -> py_split w = [].
Proof.
  induction w as [|c w IH]; [reflexivity|].
  cbn [all_space py_split]. intros H. apply andb_true_iff in H as [Hc Hw].
  rewrite Hc. now apply IH.
Qed.

Lemma py_split_word (w : string) :
  w <> "" -> all_chars (fun c => negb (is_space c)) w = true ->
  py_split w = [w] /\
  forall (c : ascii) (s : string),
    is_space c = true -> py_split (w +:+ String c s) = w :: py_split s.
Proof.
  induction w as [|a w IH]; [contradiction|]. intros _ H.
  cbn [all_chars] in H. apply andb_true_iff in H as [Ha Hw].
  apply negb_true_iff in Ha.
  destruct w as [|a' w'].
  - split; [cbn; now rewrite Ha|].
    intros c s Hc. change (String a "" +:+ String c s) with (String a (String c s)).
    cbn [py_split]. rewrite Ha, Hc. reflexivity.
  - destruct (IH ltac:(discriminate) Hw) as [IH1 IH2].
    assert (Ha' : is_space a' = false).
    { cbn [all_chars] in Hw. apply andb_true_iff in Hw as [Hw _].
      now apply negb_true_iff in Hw. }
    split.
    + change (py_split (String a (String a' w')))
        with (if is_space a then py_split (String a' w')
              else if is_space a' then String a "" :: py_split (String a' w')
                   else match py_split (String a' w') with
                        | [] => [String a ""]
                        | t :: ts => String a t :: ts
                        end).
      now rewrite Ha, Ha', IH1.
    + intros c s Hc.
      change (String a (String a' w') +:+ String c s)
        with (String a (String a' (w' +:+ String c s))).
      change (py_split (String a (String a' (w' +:+ String c s))))
        with (if is_space a then py_split (String a' (w' +:+ String c s))
              else if is_space a' then String a "" :: py_split (String a' (w' +:+ String c s))
                   else match py_split (String a' (w' +:+ String c s)) with
                        | [] => [String a ""]
                        | t :: ts => String a t :: ts
                        end).
      rewrite Ha, Ha'.
      change (String a' (w' +:+ String c s)) with (String a' w' +:+ String c s).
      now rewrite (IH2 c s Hc).
Qed.

Lemma py_split_app_spaces (x w : string) :
  all_space w = true -> py_split (x +:+ w) = py_split x.
Proof.
  intros Hw. induction x as [|a x IH].
  - now apply py_split_spaces.
  - change (String a x +:+ w) with (String a (x +:+ w)).
    destruct (is_space a) eqn:Ha.
    + cbn [py_split]. now rewrite Ha.
    + destruct x as [|a' x'].
      * change ("" +:+ w) with w. cbn [py_split]. rewrite Ha.
        destruct w as [|c w']; [reflexivity|].
        cbn [all_space] in Hw. apply andb_true_iff in Hw as [Hc Hw'].
        rewrite Hc. cbn [py_split]. rewrite Hc. now rewrite (py_split_spaces w' Hw').
      * change (String a' x' +:+ w) with (String a' (x' +:+ w)) in *.
        change (py_split (String a (String a' (x' +:+ w))))
          with (if is_space a then py_split (String a' (x' +:+ w))
                else if is_space a' then String a "" :: py_split (String a' (x' +:+ w))
                     else match py_split (String a' (x' +:+ w)) with
                          | [] => [String a ""]
                          | t :: ts => String a t :: ts
                          end).
        change (py_split (String a (String a' x')))
          with (if is_space a then py_split (String a' x')
                else if is_space a' then String a "" :: py_split (String a' x')
                     else match py_split (String a' x') with
                          | [] => [String a ""]
                          | t :: ts => String a t :: ts
                          end).
        now rewrite IH.
Qed.

Lemma py_split_lstrip (s : string) : py_split (py_lstrip s) = py_split s.
Proof.
  induction s as [|c s IH]; [reflexivity|].
  cbn [py_lstrip]. destruct (is_space c) eqn:Hc; [|reflexivity].
  cbn [py_split]. now rewrite Hc.
Qed.

(** *** One line *)

Lemma replace_comma_app (a b : string) :
  py_replace "," " " (a +:+ b) = py_replace "," " " a +:+ py_replace "," " " b.
Proof.
  induction a as [|c a IH]; [reflexivity|].
  change (String c a +:+ b) with (String c (a +:+ b)). cbn [py_replace].
  rewrite IH. destruct (Ascii.eqb c ","); reflexivity.
Qed.

Lemma replace_comma_spaces (w : string) :
  all_space w = true -> py_replace "," " " w = w.
Proof.
  induction w as [|c w IH]; [reflexivity|].
  cbn [all_space py_replace]. intros H. apply andb_true_iff in H as [Hc Hw].
  rewrite (IH Hw).
  destruct (Ascii.eqb_spec c ",") as [->|_]; [discriminate|reflexivity].
Qed.

Lemma replace_comma_lstrip (s : string) :
  py_split (py_replace "," " " (py_lstrip s)) = py_split (py_replace "," " " s).
Proof.
  induction s as [|c s IH]; [reflexivity|].
  cbn [py_lstrip]. destruct (is_space c) eqn:Hc; [|reflexivity].
  cbn [py_replace]. destruct (Ascii.eqb_spec c ",") as [->|_]; [discriminate|].
  cbn [py_split]. now rewrite Hc.
Qed.

(** Stripping a line before it is split changes nothing. *)
Lemma split_of_stripped (s : string) :
  py_split (py_replace "," " " (py_strip s)) = py_split (py_replace "," " " s).
Proof.
  unfold py_strip. rewrite <- (replace_comma_lstrip s).
  destruct (rstrip_decomp (py_lstrip s)) as (w & Hw & Hs).
  rewrite Hs at 2. rewrite replace_comma_app, (replace_comma_spaces w Hw).
  now rewrite py_split_app_spaces.
Qed.

(** The pieces of a split are kept as they are by lines 70-72. *)
Lemma kept_pieces (ts : list string) :
  Forall (fun t => t <> "" /\ all_chars (fun c => negb (is_space c) && true) t = true) ts ->
  map py_strip (List.filter (fun p => truthy (py_strip p)) ts) = ts.
Proof.
  induction 1 as [|t ts [Hne Ht] _ IH]; [reflexivity|].
  assert (Hstrip : py_strip t = t).
  { apply strip_without_space. revert Ht. apply all_chars_impl.
    intros c Hc. now apply andb_true_iff in Hc as [Hc _]. }
  cbn [List.filter]. rewrite Hstrip.
  destruct t as [|c t]; [contradiction|].
  cbn [truthy map]. rewrite Hstrip. now rewrite IH.
Qed.

Lemma names_of_line_split (line : string) :
  names_of_line line = py_split (py_replace "," " " (before_hash line)).
Proof.
  unfold names_of_line. rewrite <- (split_of_stripped (before_hash line)).
  destruct (py_strip (before_hash line)) as [|c s] eqn:Hs; [reflexivity|].
  cbn [truthy]. apply kept_pieces.
  apply (py_split_tokens (fun _ => true)).
  generalize (py_replace "," " " (String c s)). intros x.
  induction x as [|a x IH]; [reflexivity|exact IH].
Qed.

Lemma before_hash_word (w s : string) :
  all_chars name_char w = true -> before_hash (w +:+ s) = w +:+ before_hash s.
Proof.
  induction w as [|c w IH]; [reflexivity|].
  cbn [all_chars]. intros H. apply andb_true_iff in H as [Hc Hw].
  destruct (name_char_cases c Hc) as (_ & _ & Hh & _).
  change (String c w +:+ s) with (String c (w +:+ s)).
  cbn [before_hash]. rewrite Hh. now rewrite (IH Hw).
Qed.

Lemma replace_comma_word (w s : string) :
  all_chars name_char w = true ->
  py_replace "," " " (w +:+ s) = w +:+ py_replace "," " " s.
Proof.
  induction w as [|c w IH]; [reflexivity|].
  cbn [all_chars]. intros H. apply andb_true_iff in H as [Hc Hw].
  destruct (name_char_cases c Hc) as (_ & _ & _ & Hcomma).
  change (String c w +:+ s) with (String c (w +:+ s)).
  cbn [py_replace]. rewrite Hcomma. now rewrite (IH Hw).
Qed.

Lemma py_split_after_word (w : string) (c : ascii) (s : string) :
  all_chars name_char w = true -> is_space c = true ->
  py_split (w +:+ String c s) = flush w ++ py_split s.
Proof.
  intros Hw Hc. destruct w as [|a w].
  - change ("" +:+ String c s) with (String c s).
    cbn [flush app py_split]. now rewrite Hc.
  - cbn [flush app]. apply py_split_word; [discriminate| |exact Hc].
    revert Hw. apply all_chars_impl. intros x Hx.
    destruct (name_char_cases x Hx) as (_ & Hs & _). now rewrite Hs.
Qed.

(** A string starts with a run of name characters, which ends at the end
    of the string or at a character that is none. *)
Lemma first_word (s : string) :
  exists w r : string,
    s = w +:+ r /\ all_chars name_char w = true /\
    (r = "" \/ exists (d : ascii) (r' : string), r = String d r' /\ name_char d = false).
Proof.
  induction s as [|c s (w & r & Hs & Hw & Hr)].
  - exists "", "". repeat split. now left.
  - destruct (name_char c) eqn:Hc.
    + exists (String c w), r.
      split; [change (String c w +:+ r) with (String c (w +:+ r)); now rewrite <- Hs|].
      split; [cbn; now rewrite Hc, Hw|exact Hr].
    + exists "", (String c s). repeat split. right. now exists c, s.
Qed.

Lemma string_length_app (a b : string) :
  String.length (a +:+ b) = (String.length a + String.length b)%nat.
Proof.
  induction a as [|c a IH]; [reflexivity|].
  change (String c a +:+ b) with (String c (a +:+ b)). cbn [String.length].
  now rewrite IH.
Qed.

(** The pieces of one line are what the pass over its characters gives. *)
Lemma pieces_of_line (n : nat) :
  forall line : string,
    (String.length line <= n)%nat ->
    all_chars (fun c => negb (is_linebreak c)) line = true ->
    py_split (py_replace "," " " (before_hash line)) = pieces_from false "" line.
Proof.
  induction n as [|n IH]; intros line Hlen Hline.
  - destruct line; [reflexivity|cbn in Hlen; lia].
  - destruct (first_word line) as (w & r & -> & Hw & Hr).
    rewrite (before_hash_word w r Hw), (replace_comma_word w _ Hw).
    rewrite (pieces_from_word w Hw). change ("" +:+ w) with w.
    rewrite all_chars_app in Hline. apply andb_true_iff in Hline as [_ Hline].
    rewrite string_length_app in Hlen.
    destruct Hr as [->|(d & r' & -> & Hd)].
    + cbn [before_hash py_replace pieces_from]. rewrite string_app_nil_r.
      destruct w as [|a w]; [reflexivity|].
      apply py_split_word; [discriminate|].
      revert Hw. apply all_chars_impl. intros x Hx.
      destruct (name_char_cases x Hx) as (_ & Hs & _). now rewrite Hs.
    + cbn [all_chars] in Hline. apply andb_true_iff in Hline as [Hdl Hline].
      apply negb_true_iff in Hdl. cbn [String.length] in Hlen.
      cbn [before_hash pieces_from]. rewrite Hdl.
      destruct (Ascii.eqb_spec d "#") as [->|Hhash].
      * cbn [py_replace]. rewrite string_app_nil_r.
        rewrite (pieces_from_comment r' Hline). cbn [flush]. rewrite app_nil_r.
        destruct w as [|a w]; [reflexivity|].
        apply py_split_word; [discriminate|].
        revert Hw. apply all_chars_impl. intros x Hx.
        destruct (name_char_cases x Hx) as (_ & Hs & _). now rewrite Hs.
      * assert (Hsep : is_space d || Ascii.eqb d "," = true).
        { unfold name_char in Hd.
          destruct (is_space d); [reflexivity|].
          destruct (Ascii.eqb_spec d ","); [reflexivity|].
          destruct (Ascii.eqb_spec d "#"); [contradiction|discriminate]. }
        rewrite Hsep. rewrite <- (IH r' ltac:(lia) Hline).
        cbn [py_replace].
        destruct (Ascii.eqb_spec d ",") as [->|Hcomma].
        -- change (" " +:+ py_replace "," " " (before_hash r'))
             with (String " " (py_replace "," " " (before_hash r'))).
           now apply py_split_after_word.
        -- apply py_split_after_word; [exact Hw|].
           rewrite orb_false_r in Hsep. exact Hsep.
Qed.

(** The raw names are the pieces of the text. *)
Lemma raw_names_pieces_upto (n : nat) :
  forall text : string,
    (String.length text <= n)%nat -> raw_names text = pieces_of_text text.
Proof.
  unfold raw_names, pieces_of_text.
  induction n as [|n IH]; intros text Hlen.
  - destruct text; [reflexivity|cbn in Hlen; lia].
  - destruct (first_line text) as [Hline|(l & b & rest & -> & Hl & Hb)].
    + rewrite (py_splitlines_line text Hline).
      destruct text as [|c s]; [reflexivity|].
      cbn [map concat]. rewrite app_nil_r, names_of_line_split.
      now apply (pieces_of_line (S n)).
    + rewrite (py_splitlines_break l b rest Hl Hb).
      rewrite (pieces_from_break l b rest Hl Hb).
      cbn [map concat]. rewrite names_of_line_split.
      rewrite (pieces_of_line (String.length l) l (le_n _) Hl). f_equal.
      rewrite <- (pieces_after_break b rest). apply IH.
      rewrite string_length_app in Hlen. cbn [String.length] in Hlen.
      assert (String.length (after_break b rest) <= String.length rest)%nat.
      { unfold after_break. destruct rest as [|c' s'']; [cbn; lia|].
        destruct (Ascii.eqb b carriage_return && Ascii.eqb c' newline); cbn; lia. }
      lia.
Qed.

Lemma raw_names_pieces (text : string) : raw_names text = pieces_of_text text.
Proof. exact (raw_names_pieces_upto (String.length text) text (le_n _)). Qed.

(** *** The second loop *)

Lemma clean_names_keys (raw : list string) :
  forall seen acc : list string,
    (forall k, existsb (String.eqb k) seen = existsb (String.eqb k) acc) ->
    fold_left (fun acc k => if existsb (String.eqb k) acc then acc else acc ++ [k])
              (map (fun t => py_lower (clean_name t)) raw) acc
    = acc ++ map py_lower (clean_names seen raw).
Proof.
  induction raw as [|t raw IH]; intros seen acc Hseen.
  - cbn. now rewrite app_nil_r.
  - cbn [map fold_left clean_names]. fold (clean_name t).
    rewrite <- (Hseen (py_lower (clean_name t))).
    destruct (existsb (String.eqb (py_lower (clean_name t))) seen) eqn:Hk.
    + now apply IH.
    + rewrite (IH (py_lower (clean_name t) :: seen) (acc ++ [py_lower (clean_name t)])).
      * cbn [map]. now rewrite <- app_assoc.
      * intros k. rewrite existsb_app. cbn [existsb].
        rewrite (Hseen k), orb_false_r. apply orb_comm.
Qed.

Lemma clean_names_keeps_first (before : list string) (t : string) (after : list string) :
  forall seen : list string,
    ~ In (py_lower (clean_name t)) seen ->
    ~ In (py_lower (clean_name t)) (map (fun t => py_lower (clean_name t)) before) ->
    In (clean_name t) (clean_names seen (before ++ t :: after)).
Proof.
  induction before as [|t0 before IH]; intros seen Hseen Hbefore.
  - cbn [app clean_names]. fold (clean_name t).
    destruct (existsb (String.eqb (py_lower (clean_name t))) seen) eqn:Hk; [|now left].
    exfalso. apply Hseen. apply existsb_exists in Hk as (k & Hin & Hk).
    apply String.eqb_eq in Hk. now subst k.
  - cbn [app clean_names]. fold (clean_name t0).
    cbn [map] in Hbefore.
    destruct (existsb (String.eqb (py_lower (clean_name t0))) seen).
    + apply IH; [exact Hseen|]. intros H. apply Hbefore. now right.
    + right. apply IH.
      * intros [H|H]; [apply Hbefore; now left|now apply Hseen].
      * intros H. apply Hbefore. now right.
Qed.

(** X17. For an ASCII text, the raw names of [read_subreddits_from_file]
    are the pieces of the text between whitespace and commas outside
    comments, line after line. The names returned are these pieces, each
    without its leading [r] and [/] characters: no two are equal up to case,
    their lowercased forms are those of the pieces in the order of their
    first occurrence, every name is the form of the first piece with its
    spelling, and the list is not empty. A text without a piece raises
    [ValueError]. *)
Theorem subreddits_are_read_once (path text : string) :
  all_chars is_ascii text = true ->
  let pieces := pieces_of_text text in
  let key := fun t => py_lower (clean_name t) in
  raw_names text = pieces /\
  match read_subreddits_from_file path text with
  | Returns names =>
      names <> [] /\
      List.NoDup (map py_lower names) /\
      map py_lower names = first_seen (map key pieces) /\
      (forall n, In n names -> exists t, In t pieces /\ n = clean_name t) /\
      (forall t, In t pieces -> In (key t) (map py_lower names)) /\
      (forall (before : list string) (t : string) (after : list string),
          pieces = before ++ t :: after ->
          ~ In (key t) (map key before) ->
          In (clean_name t) names)
  | Raises e =>
      e = ValueError ("No subreddit names found in " +:+ path) /\ pieces = []
  end.
Proof.
  intros _ pieces key.
  split; [apply raw_names_pieces|].
  unfold read_subreddits_from_file. rewrite raw_names_pieces. fold pieces.
  pose proof (clean_names_distinct pieces []) as [Hnd _].
  pose proof (clean_names_In [] pieces) as Hin.
  pose proof (clean_names_first pieces []) as Hfirst.
  pose proof (clean_names_keys pieces [] [] (fun _ => eq_refl)) as Hkeys.
  pose proof (fun before t after => clean_names_keeps_first before t after []) as Hkeep.
  destruct (clean_names [] pieces) as [|n names] eqn:Hclean.
  - split; [reflexivity|].
    destruct pieces as [|t raw]; [reflexivity|].
    destruct (Hfirst t (or_introl eq_refl)) as [[]|[]].
  - split; [discriminate|]. split; [exact Hnd|].
    split; [symmetry; exact Hkeys|]. split; [exact Hin|]. split.
    + intros t Ht. destruct (Hfirst t Ht) as [[]|H]; exact H.
    + intros before t after Hsplit Hnew. rewrite Hsplit in Hclean.
      rewrite <- Hclean. apply Hkeep; [intros []|exact Hnew].
Qed.

(** X17 at a file of two lines of names, a comment and a blank line. *)
Lemma subreddits_are_read_once_witness :
  all_chars is_ascii subreddits_txt = true /\
  pieces_of_text subreddits_txt = ["r/edtech"; "Teachers"; "r/EdTech"; "teachers"; "python"] /\
  read_subreddits_from_file "subs.txt" subreddits_txt
    = Returns ["edtech"; "Teachers"; "python"] /\
  raw_names subreddits_txt = pieces_of_text subreddits_txt.
Proof.
  assert (Hascii : all_chars is_ascii subreddits_txt = true) by reflexivity.
  split; [exact Hascii|]. split; [reflexivity|]. split; [reflexivity|].
  exact (proj1 (subreddits_are_read_once "subs.txt" subreddits_txt Hascii)).
Defined.
